(** * Workflow engine of frappe/model/workflow.py

    A shallow embedding of the transition resolver, the authorization check,
    the transition executor and the bulk executor, with the properties the
    specification states about them.

    Python values are kept dynamically typed where the source relies on
    truthiness or on [None]; a document is its attribute dictionary; code that
    raises or mutates runs in a state-and-exception monad over the site. *)

From Stdlib Require Import Ascii.
From stdpp Require Import base option list strings gmap pretty.

Local Open Scope Z_scope.
Local Open Scope string_scope.

(** ** Python values *)

Inductive pyval : Type :=
  | PNone
  | PBool (b : bool)
  | PInt (z : Z)
  | PStr (s : string).

#[global] Instance pyval_eq_dec : EqDecision pyval.
Proof. solve_decision. Defined.

#[global] Instance pyval_inhabited : Inhabited pyval := populate PNone.

(** [bool(v)]: [None], [False], [0] and the empty string are falsy. *)
Definition truthy (v : pyval) : bool :=
  match v with
  | PNone => false
  | PBool b => b
  | PInt z => negb (z =? 0)%Z
  | PStr s => negb (String.eqb s "")
  end.

(** Truthiness of a string-valued field ([None] is stored as the empty
    string in the typed records below). *)
Definition str_truthy (s : string) : bool := negb (String.eqb s "").

(** [a == b]; [bool] is a subtype of [int], so [True == 1]. *)
Definition py_num (v : pyval) : option Z :=
  match v with
  | PBool b => Some (if b then 1 else 0)
  | PInt z => Some z
  | _ => None
  end.

Definition py_eq (a b : pyval) : bool :=
  match py_num a, py_num b with
  | Some x, Some y => (x =? y)%Z
  | None, None => bool_decide (a = b)
  | _, _ => false
  end.

(** [str(v)], as used by ["%s" % v] and [format]. *)
Definition py_str (v : pyval) : string :=
  match v with
  | PNone => "None"
  | PBool true => "True"
  | PBool false => "False"
  | PInt z => pretty z
  | PStr s => s
  end.

(** ** Documents

    A document is its [__dict__]: attribute names to values.  [doc.get(f)]
    gives [None] for a missing key, [hasattr] tells a missing key from a key
    holding [None]. *)

Abbreviation Doc := (gmap string pyval).

Definition doc_get (d : Doc) (f : string) : pyval := default PNone (d !! f).

Definition hasattr (d : Doc) (f : string) : bool := bool_decide (is_Some (d !! f)).

(** [doc.is_new()] is [self.get("__islocal")]. *)
Definition is_new (d : Doc) : bool := truthy (doc_get d "__islocal").

(** The embedding has values where the code has references.  The one place
    where [workflow.py] uses the identity of a document object is the
    workflow cache, whose key is the object itself.  The identity is kept
    under the reserved name [__id__], which is not an attribute of the
    document and which no workflow is taken to name as a field: two values with the same [__id__] are one object, seen at different
    times; a value without it is an object no cache has met, such as a
    document just built from JSON or just read from the database. *)
Definition object_id (d : Doc) : option pyval := d !! "__id__".

Definition same_object (a b : Doc) : bool :=
  match object_id a, object_id b with
  | Some x, Some y => bool_decide (x = y)
  | _, _ => false
  end.

(** ** Workflow configuration records

    String-valued columns hold the empty string where the database holds
    NULL; the source only tests them for truthiness or compares them with
    non-empty strings. *)

Module Transition.
Record t : Type := mk {
  state : string;
  action : string;
  next_state : string;
  condition : string;
  allow_self_approval : Z;
  multi_user_action_mode : string
}.
End Transition.

Module DocState.
Record t : Type := mk {
  state : string;
  doc_status : pyval;
  update_field : string;
  update_value : pyval
}.
End DocState.

Module Workflow.
Record t : Type := mk {
  name : string;
  document_type : string;
  workflow_state_field : string;
  states : list DocState.t;
  transitions : list Transition.t
}.
End Workflow.

Module Assignment.
Record t : Type := mk {
  document_type : string;
  company : string;
  eval_condition : string;
  workflow : string
}.
End Assignment.

(** A row of the `Workflow Action` table (the action ledger). *)
Module Action.
Record t : Type := mk {
  status : string;
  workflow_state : string;
  user : string;
  reference_doctype : pyval;
  reference_name : pyval;
  actions : pyval;
  action_source : string;
  previous_user : pyval;
  comment : pyval
}.
End Action.

#[global] Instance transition_eq_dec : EqDecision Transition.t.
Proof. solve_decision. Defined.
#[global] Instance docstate_eq_dec : EqDecision DocState.t.
Proof. solve_decision. Defined.
#[global] Instance workflow_eq_dec : EqDecision Workflow.t.
Proof. solve_decision. Defined.
#[global] Instance action_eq_dec : EqDecision Action.t.
Proof. solve_decision. Defined.

(** ** Exceptions and user-facing messages *)

Inductive exn_class : Type :=
  | ValidationError
  | WorkflowStateError
  | WorkflowTransitionError
  | WorkflowPermissionError
  | PermissionError
  | DoesNotExistError
  | IndexError
  | AttributeError
  | OtherError (name : string).

Definition class_name (c : exn_class) : string :=
  match c with
  | ValidationError => "ValidationError"
  | WorkflowStateError => "WorkflowStateError"
  | WorkflowTransitionError => "WorkflowTransitionError"
  | WorkflowPermissionError => "WorkflowPermissionError"
  | PermissionError => "PermissionError"
  | DoesNotExistError => "DoesNotExistError"
  | IndexError => "IndexError"
  | AttributeError => "AttributeError"
  | OtherError n => n
  end.

(** An exception instance: its class and [e.args]. *)
Record exn : Type := Exn { exc_class : exn_class; exc_args : list string }.

(** An entry of [frappe.message_log]. *)
Record Msg : Type := mkMsg {
  message : string;
  raise_exception : bool;
  title : string;
  indicator : string
}.

#[global] Instance exn_class_eq_dec : EqDecision exn_class.
Proof. solve_decision. Defined.
#[global] Instance exn_eq_dec : EqDecision exn.
Proof. solve_decision. Defined.
#[global] Instance msg_eq_dec : EqDecision Msg.
Proof. solve_decision. Defined.

(** ** The site: database, cache, message log, the document in memory *)

Record Comment : Type := mkComment {
  comment_doctype : pyval;
  comment_name : pyval;
  comment_type : string;
  comment_text : string
}.

Record DB : Type := mkDB {
  documents : list Doc;
  workflow_docs : gmap string Workflow.t;
  transition_docs : gmap string Transition.t;
  assignments : list Assignment.t;
  actions : list Action.t;
  comments : list Comment;
  error_logs : list string
}.

Inductive LifecycleOp : Type := Save | Submit | Cancel.

(** Calls that leave [workflow.py]: writes to the document object, the
    lifecycle operations and the transaction and progress calls. *)
Inductive Event : Type :=
  | EvSet (field : string) (v : pyval)
  | EvLifecycle (op : LifecycleOp)
  | EvProgress (i n : nat) (title description : string)
  | EvCommit
  | EvRollback
  | EvLogError (title : string).

#[global] Instance lifecycle_eq_dec : EqDecision LifecycleOp.
Proof. solve_decision. Defined.
#[global] Instance event_eq_dec : EqDecision Event.
Proof. solve_decision. Defined.

Record World : Type := mkWorld {
  session_user : string;
  doc : Doc;
  db : DB;
  committed : DB;
  cache : list (Doc * Workflow.t);
  message_log : list Msg;
  trace : list Event
}.

Definition set_doc (d : Doc) (w : World) : World :=
  mkWorld (session_user w) d (db w) (committed w) (cache w) (message_log w) (trace w).
Definition set_db (x : DB) (w : World) : World :=
  mkWorld (session_user w) (doc w) x (committed w) (cache w) (message_log w) (trace w).
Definition set_committed (x : DB) (w : World) : World :=
  mkWorld (session_user w) (doc w) (db w) x (cache w) (message_log w) (trace w).
Definition set_cache (c : list (Doc * Workflow.t)) (w : World) : World :=
  mkWorld (session_user w) (doc w) (db w) (committed w) c (message_log w) (trace w).
Definition set_message_log (l : list Msg) (w : World) : World :=
  mkWorld (session_user w) (doc w) (db w) (committed w) (cache w) l (trace w).
Definition log_event (e : Event) (w : World) : World :=
  mkWorld (session_user w) (doc w) (db w) (committed w) (cache w) (message_log w)
          (trace w ++ [e]).

Definition set_actions (l : list Action.t) (x : DB) : DB :=
  mkDB (documents x) (workflow_docs x) (transition_docs x) (assignments x) l
       (comments x) (error_logs x).
Definition set_comments (l : list Comment) (x : DB) : DB :=
  mkDB (documents x) (workflow_docs x) (transition_docs x) (assignments x) (actions x)
       l (error_logs x).
Definition set_documents (l : list Doc) (x : DB) : DB :=
  mkDB l (workflow_docs x) (transition_docs x) (assignments x) (actions x)
       (comments x) (error_logs x).
Definition set_error_logs (l : list string) (x : DB) : DB :=
  mkDB (documents x) (workflow_docs x) (transition_docs x) (assignments x) (actions x)
       (comments x) l.

(** ** The monad: state that survives a raised exception *)

Definition M (A : Type) : Type := World -> World * (exn + A).

#[global] Instance M_ret : MRet M := fun A (a : A) w => (w, inr a).
#[global] Instance M_bind : MBind M := fun A B (f : A -> M B) (m : M A) w =>
  match m w with
  | (w', inr a) => f a w'
  | (w', inl e) => (w', inl e)
  end.

Definition raise {A : Type} (e : exn) : M A := fun w => (w, inl e).
Definition get_world : M World := fun w => (w, inr w).
Definition modify (f : World -> World) : M unit := fun w => (f w, inr tt).

(** [frappe.msgprint(msg)] without [raise_exception]. *)
Definition msgprint (m : Msg) : M unit :=
  modify (fun w => set_message_log (message_log w ++ [m]) w).

(** [frappe.throw(msg, exc)]: the message is logged with
    [raise_exception] set, then [exc(msg)] is raised. *)
Definition throw {A : Type} (msg : string) (c : exn_class) : M A :=
  msgprint (mkMsg msg true "" "red");; raise (Exn c [msg]).

(** ** Collaborators outside [workflow.py]

    [cint] is [frappe.utils.cint]; [safe_eval] is the restricted evaluator,
    which sees the session user, the database and the document and either
    raises or yields a value (of which the source only uses the truthiness);
    [has_permission] tells whether [frappe.has_permission(doc, 'read')]
    grants, and [permission_error] is what that call prints and raises under
    [throw=True] when it does not; [lifecycle] is what
    [doc.save()], [doc.submit()] and [doc.cancel()] do besides the change of
    [docstatus]: the messages they print and whether they raise;
    [get_link_to_form] renders a link. *)

Class Frappe : Type := {
  cint : pyval -> Z;
  safe_eval : string -> string -> DB -> Doc -> exn + pyval;
  has_permission : string -> DB -> Doc -> bool;
  permission_error : string -> DB -> Doc -> list Msg * exn;
  lifecycle : LifecycleOp -> string -> DB -> Doc -> list Msg * option exn;
  get_link_to_form : string -> string -> string
}.

Section Model.
Context `{Frappe}.

(** lines 17-28 *)
Definition evaluate_condition (condition : string) (d : Doc) : M pyval :=
  if str_truthy condition then
    fun w => (w, safe_eval condition (session_user w) (db w) d)
  else mret (PBool true).

(** [frappe.get_doc('Workflow', name)] *)
Definition get_doc_workflow (name : pyval) : M Workflow.t :=
  w ← get_world;
  match workflow_docs (db w) !! py_str name with
  | Some wf => mret wf
  | None => throw ("Workflow " ++ py_str name ++ " not found") DoesNotExistError
  end.

(** [frappe.get_doc('Workflow Transition', name)] *)
Definition get_doc_transition (name : pyval) : M Transition.t :=
  w ← get_world;
  match transition_docs (db w) !! py_str name with
  | Some t => mret t
  | None => throw ("Workflow Transition " ++ py_str name ++ " not found") DoesNotExistError
  end.

(** [frappe.get_doc(doctype, docname)]: a new object with the fields the
    database holds. *)
Definition stored_as (doctype docname : pyval) (d : Doc) : bool :=
  py_eq (doc_get d "doctype") doctype && py_eq (doc_get d "name") docname.

Definition get_doc (doctype docname : pyval) : M Doc :=
  w ← get_world;
  match List.find (stored_as doctype docname) (documents (db w)) with
  | Some d => mret (delete "__id__" d)
  | None => throw (py_str doctype ++ " " ++ py_str docname ++ " not found") DoesNotExistError
  end.

(** lines 38-43: the loop over the assignment rules *)
Fixpoint get_workflow_assigned (l : list Assignment.t) (d : Doc) : M (option Workflow.t) :=
  match l with
  | [] => mret None
  | assignment :: rest =>
      r ← evaluate_condition (Assignment.eval_condition assignment) d;
      if truthy r &&
         (negb (hasattr d "company")
          || negb (str_truthy (Assignment.company assignment))
          || (hasattr d "company"
              && py_eq (doc_get d "company") (PStr (Assignment.company assignment))))
      then wf ← get_doc_workflow (PStr (Assignment.workflow assignment)); mret (Some wf)
      else get_workflow_assigned rest d
  end.

(** [frappe.cache().hget('workflow', doc)]: the key is the document
    object, so an entry is found for the same object only, whatever its
    fields have become, and never for another object with equal fields.  The
    entry is the workflow object [hset] was given, not a copy of it. *)
Definition cache_hget (d : Doc) (w : World) : option Workflow.t :=
  snd <$> List.find (fun e => same_object (fst e) d) (cache w).

(** lines 31-49 *)
Definition get_workflow (d : Doc) : M (option Workflow.t) :=
  if hasattr d "workflow_def" then
    if is_new d then
      w ← get_world;
      get_workflow_assigned
        (List.filter (fun a => py_eq (PStr (Assignment.document_type a)) (doc_get d "doctype"))
                     (assignments (db w))) d
    else
      w ← get_world;
      match cache_hget d w with
      | Some workflow => mret (Some workflow)
      | None =>
          workflow ← get_doc_workflow (doc_get d "workflow_def");
          modify (fun w => set_cache ((d, workflow) :: cache w) w);;
          mret (Some workflow)
      end
  else mret None.

(** line 70, [frappe.has_permission(doc, 'read', throw=True)]: the call
    returns, or it raises what the permission check raises, having printed
    what the check prints *)
Definition check_read_permission (d : Doc) : M unit :=
  w ← get_world;
  if has_permission (session_user w) (db w) d then mret tt
  else
    let refusal := permission_error (session_user w) (db w) d in
    modify (fun w => set_message_log (message_log w ++ fst refusal) w);;
    raise (snd refusal).

(** lines 82-90: the filtering loop, [transitions] being the list built so
    far *)
Fixpoint get_transitions_loop (ts : list Transition.t) (current_state : pyval) (d : Doc)
    (transitions : list Transition.t) : M (list Transition.t) :=
  match ts with
  | [] => mret transitions
  | transition :: rest =>
      if py_eq (PStr (Transition.state transition)) current_state then
        r ← evaluate_condition (Transition.condition transition) d;
        if negb (truthy r) then get_transitions_loop rest current_state d transitions
        else get_transitions_loop rest current_state d (transitions ++ [transition])
      else get_transitions_loop rest current_state d transitions
  end.

(** lines 63-90.  [frappe.get_doc(frappe.parse_json(doc))] gives back the
    document it is handed. *)
Definition get_transitions (d : Doc) (workflow : option Workflow.t) (raise_exception : bool)
    : M (list Transition.t) :=
  if is_new d then mret []
  else
    check_read_permission d;;
    workflow ← match workflow with
               | Some wf => mret (Some wf)
               | None => get_workflow d
               end;
    match workflow with
    | None => raise (Exn AttributeError ["'NoneType' object has no attribute 'workflow_state_field'"])
    | Some wf =>
        let current_state := doc_get d (Workflow.workflow_state_field wf) in
        if negb (truthy current_state) then
          if raise_exception then raise (Exn WorkflowStateError [])
          else throw "Workflow State not set" WorkflowStateError
        else get_transitions_loop (Workflow.transitions wf) current_state d []
    end.

(** lines 304-307; the value of the [or] chain is used for its truthiness *)
Definition has_approval_access (user : string) (d : Doc) (transition : Transition.t) : bool :=
  String.eqb user "Administrator"
  || negb (Transition.allow_self_approval transition =? 0)%Z
  || negb (py_eq (PStr user) (doc_get d "owner")).

(** ** The action ledger *)

(** lines 234-241 *)
Definition other_open_action (d : Doc) (state user : string) (a : Action.t) : bool :=
  negb (String.eqb (Action.status a) "Completed")
  && String.eqb (Action.workflow_state a) state
  && negb (String.eqb (Action.user a) user)
  && py_eq (Action.reference_doctype a) (doc_get d "doctype")
  && py_eq (Action.reference_name a) (doc_get d "name").

Definition other_user_open_action_count (d : Doc) (state user : string) : M Z :=
  w ← get_world;
  let user := if str_truthy user then user else session_user w in
  mret (Z.of_nat (length (List.filter (other_open_action d state user) (actions (db w))))).

Definition as_str (v : pyval) : string :=
  match v with PStr s => s | _ => "" end.

Definition own_open_action (d : Doc) (user : string) (a : Action.t) : bool :=
  String.eqb (Action.status a) "Open"
  && String.eqb (Action.user a) user
  && py_eq (Action.reference_doctype a) (doc_get d "doctype")
  && py_eq (Action.reference_name a) (doc_get d "name").

Definition complete (a : Action.t) : Action.t :=
  Action.mk "Completed" (Action.workflow_state a) (Action.user a)
            (Action.reference_doctype a) (Action.reference_name a) (Action.actions a)
            (Action.action_source a) (Action.previous_user a) (Action.comment a).

(** Modelled from the spec: [update_completed_workflow_actions] lives in
    frappe/workflow/doctype/workflow_action/workflow_action.py, which is not
    among the sources.  The specification (4.5, completeActions) says it
    marks the acting user's Open action(s) for this document Completed. *)
Definition update_completed_workflow_actions (d : Doc) (user action : string) : M unit :=
  modify (fun w =>
    set_db (set_actions
              (List.map (fun a => if own_open_action d user a then complete a else a)
                        (actions (db w)))
              (db w)) w).

(** Modelled from the spec: [create_workflow_actions] lives in the same
    missing module.  The specification (4.5, createActions) says it records
    a new Open action for the target user, carrying the allowed actions, the
    source action and the user it comes from; the record is filed under the
    document's current state. *)
Definition create_workflow_actions (workflow : Workflow.t) (d : Doc) (target_user : pyval)
    (possible_actions : pyval) (source_action user : string) (comment : pyval) : M unit :=
  modify (fun w =>
    set_db (set_actions
              (actions (db w) ++
               [Action.mk "Open"
                          (as_str (doc_get d (Workflow.workflow_state_field workflow)))
                          (as_str target_user)
                          (doc_get d "doctype") (doc_get d "name")
                          possible_actions source_action (PStr user) comment])
              (db w)) w).

(** ** Operations on the document object *)

(** [doc.set(f, v)] and [doc.f = v] *)
Definition doc_set (f : string) (v : pyval) : M unit :=
  modify (fun w => log_event (EvSet f v) (set_doc (<[f := v]> (doc w)) w)).

(** [doc.add_comment(comment_type, text)] *)
Definition add_comment (comment_type text : string) : M unit :=
  modify (fun w =>
    set_db (set_comments
              (comments (db w) ++
               [mkComment (doc_get (doc w) "doctype") (doc_get (doc w) "name")
                          comment_type text])
              (db w)) w).

Fixpoint store (d : Doc) (l : list Doc) : list Doc :=
  match l with
  | [] => [d]
  | x :: rest =>
      if stored_as (doc_get d "doctype") (doc_get d "name") x then d :: rest
      else x :: store d rest
  end.

(** [doc.save()], [doc.submit()], [doc.cancel()]: the messages the
    collaborator prints are logged; if it raises nothing is written,
    otherwise [docstatus] becomes what the operation makes it and the
    document is stored. *)
Definition after_lifecycle (op : LifecycleOp) (d : Doc) : Doc :=
  match op with
  | Save => d
  | Submit => <["docstatus" := PInt 1]> d
  | Cancel => <["docstatus" := PInt 2]> d
  end.

Definition run_lifecycle (op : LifecycleOp) : M unit := fun w =>
  let '(msgs, err) := lifecycle op (session_user w) (db w) (doc w) in
  let w1 := log_event (EvLifecycle op) (set_message_log (message_log w ++ msgs) w) in
  match err with
  | Some e => (w1, inl e)
  | None =>
      let d' := after_lifecycle op (doc w) in
      (set_db (set_documents (store d' (documents (db w1))) (db w1)) (set_doc d' w1), inr tt)
  end.

(** ** The transition executor *)

Definition index_error : exn := Exn IndexError ["list index out of range"].

(** lines 154-163 *)
Definition forward_action (workflow : Workflow.t) (action : string)
    (possible_actions next_user comment : pyval) : M Doc :=
  w ← get_world;
  let user := session_user w in
  update_completed_workflow_actions (doc w) user action;;
  create_workflow_actions workflow (doc w) next_user possible_actions action user comment;;
  let action_msg :=
    if String.eqb action "Forward" then "Forwarded" else "Requested Additional Check" in
  add_comment "Workflow" (action_msg ++ " by " ++ user ++ " to " ++ py_str next_user);;
  w ← get_world;
  mret (doc w).

(** lines 174-179: the search has no [break], [transition] is the match
    kept so far *)
Fixpoint find_transition (ts : list Transition.t) (action : string) (d : Doc)
    (transition : option Transition.t) : M (option Transition.t) :=
  match ts with
  | [] => mret transition
  | t :: rest =>
      r ← evaluate_condition (Transition.condition t) d;
      if negb (truthy r) then find_transition rest action d transition
      else if String.eqb (Transition.action t) action
           then find_transition rest action d (Some t)
           else find_transition rest action d transition
  end.

(** lines 169-170: the dict built for [Start]; the keys it lacks read as
    [None] *)
Definition start_transition (first : Transition.t) : Transition.t :=
  Transition.mk "" "" (Transition.state first) "" 1 "Any".

(** lines 165-179: the transition comes from the search exactly when no
    name is given and the action is not Start *)
Definition searched (action : string) (transition_name : pyval) : bool :=
  negb (truthy transition_name) && negb (String.eqb action "Start").

Definition resolve_transition (workflow : Workflow.t) (action : string)
    (transition_name : pyval) : M (option Transition.t) :=
  if truthy transition_name then
    t ← get_doc_transition transition_name; mret (Some t)
  else if String.eqb action "Start" then
    match Workflow.transitions workflow with
    | [] => raise index_error
    | first :: _ => mret (Some (start_transition first))
    end
  else
    w ← get_world;
    transitions ← get_transitions (doc w) (Some workflow) false;
    find_transition transitions action (doc w) None.

(** lines 187-188 *)
Definition is_pre_check_action (action_source : pyval) : bool :=
  truthy action_source
  && (py_eq action_source (PStr "Pre-Check")
      || py_eq action_source (PStr "Add Additional Check")).

(** lines 189-190: the count is only taken when the mode is [All] *)
Definition state_is_held (transition : Transition.t) (action_source : pyval) : M bool :=
  w ← get_world;
  others ← (if String.eqb (Transition.multi_user_action_mode transition) "All"
            then n ← other_user_open_action_count (doc w) (Transition.state transition)
                                                  (session_user w);
                 mret (0 <? n)%Z
            else mret false);
  mret (others || is_pre_check_action action_source).

(** lines 192-199 *)
Definition hold_state (workflow : Workflow.t) (action : string)
    (possible_actions action_source previous_user comment : pyval) : M unit :=
  w ← get_world;
  let user := session_user w in
  update_completed_workflow_actions (doc w) user action;;
  let msg := if is_pre_check_action action_source
             then "Pre-check" else "Multi User Parallel Approval" in
  add_comment "Workflow"
    (msg ++ " action, " ++ action ++ " by " ++ user ++ " with comment " ++ py_str comment);;
  if is_pre_check_action action_source && truthy previous_user
  then create_workflow_actions workflow (doc w) previous_user possible_actions "" user comment
  else mret tt.

(** lines 218-227: the operation for a pair of statuses, if any *)
Definition lifecycle_operation (docstatus : pyval) (new_docstatus : Z) : option LifecycleOp :=
  if py_eq docstatus (PInt 0) && (new_docstatus =? 0)%Z then Some Save
  else if py_eq docstatus (PInt 0) && (new_docstatus =? 1)%Z then Some Submit
  else if py_eq docstatus (PInt 1) && (new_docstatus =? 1)%Z then Some Save
  else if py_eq docstatus (PInt 1) && (new_docstatus =? 2)%Z then Some Cancel
  else None.

(** Line 205 assigns to [transition.next_state] in place.  A transition
    found by the search of lines 172-179 is a row of the workflow object, and
    for a persisted document that object is the one the cache holds under the
    document: the cached workflow has the row pointing at the new target from
    then on.  The search keeps the last match, so the row is the last one
    with the values of [transition].  For a document without identity
    nothing is recorded: no later lookup finds its entry. *)
Definition set_next_state (target : string) (t : Transition.t) : Transition.t :=
  Transition.mk (Transition.state t) (Transition.action t) target (Transition.condition t)
                (Transition.allow_self_approval t) (Transition.multi_user_action_mode t).

Fixpoint retarget_last (t : Transition.t) (target : string) (rows : list Transition.t)
    : list Transition.t :=
  match rows with
  | [] => []
  | row :: rest =>
      if bool_decide (row = t) && negb (existsb (fun r => bool_decide (r = t)) rest)
      then set_next_state target row :: rest
      else row :: retarget_last t target rest
  end.

Definition retarget_workflow (t : Transition.t) (target : string) (workflow : Workflow.t)
    : Workflow.t :=
  Workflow.mk (Workflow.name workflow) (Workflow.document_type workflow)
              (Workflow.workflow_state_field workflow) (Workflow.states workflow)
              (retarget_last t target (Workflow.transitions workflow)).

Fixpoint retarget_cached (d : Doc) (t : Transition.t) (target : string)
    (entries : list (Doc * Workflow.t)) : list (Doc * Workflow.t) :=
  match entries with
  | [] => []
  | (key, workflow) :: rest =>
      if same_object key d then (key, retarget_workflow t target workflow) :: rest
      else (key, workflow) :: retarget_cached d t target rest
  end.

(** lines 201-229.  [row] tells whether [transition] is a row of the
    workflow object (it was found by the search) or an object of its own (it
    was loaded by name, or built for Start); apart from line 205 the
    transition is not read again outside this block. *)
Definition advance_state (workflow : Workflow.t) (transition : Transition.t) (row : bool)
    (action : string) (comment : pyval) : M unit :=
  doc_set "workflow_action" (PStr action);;
  doc_set "workflow_comment" comment;;
  target ← (if String.eqb action "Reject" then
              match Workflow.states workflow with
              | [] => raise index_error
              | first :: _ =>
                  (if row
                   then modify (fun w =>
                          set_cache (retarget_cached (doc w) transition (DocState.state first)
                                                     (cache w)) w)
                   else mret tt);;
                  mret (DocState.state first)
              end
            else mret (Transition.next_state transition));
  doc_set (Workflow.workflow_state_field workflow) (PStr target);;
  match List.filter (fun d => String.eqb (DocState.state d) target) (Workflow.states workflow) with
  | [] => raise index_error
  | next_state :: _ =>
      (if str_truthy (DocState.update_field next_state)
       then doc_set (DocState.update_field next_state) (DocState.update_value next_state)
       else mret tt);;
      let new_docstatus := cint (DocState.doc_status next_state) in
      w ← get_world;
      match lifecycle_operation (doc_get (doc w) "docstatus") new_docstatus with
      | Some op => run_lifecycle op
      | None =>
          throw ("Illegal Document Status for " ++ DocState.state next_state) ValidationError
      end;;
      add_comment "Workflow" (DocState.state next_state ++ " " ++ py_str comment)
  end.

(** lines 181-231: what happens once the transition is known *)
Definition execute_transition (workflow : Workflow.t) (transition : option Transition.t)
    (row : bool) (action : string)
    (possible_actions action_source previous_user comment : pyval) : M Doc :=
  match transition with
  | None => throw "Not a valid Workflow Action" WorkflowTransitionError
  | Some transition =>
      w ← get_world;
      if negb (has_approval_access (session_user w) (doc w) transition)
      then throw "Self approval is not allowed" ValidationError
      else
        held ← state_is_held transition action_source;
        (if held : bool
         then hold_state workflow action possible_actions action_source previous_user comment
         else advance_state workflow transition row action comment);;
        w ← get_world;
        mret (doc w)
  end.

(** lines 143-231 *)
Definition apply_workflow (d : Doc) (action : string)
    (transition_name possible_actions next_user action_source previous_user comment : pyval)
    : M Doc :=
  modify (set_doc d);;
  workflow ← get_workflow d;
  match workflow with
  | None => throw "No workflow assigned to the current document!" ValidationError
  | Some workflow =>
      if String.eqb action "Forward" || String.eqb action "Add Additional Check"
      then forward_action workflow action possible_actions next_user comment
      else
        transition ← resolve_transition workflow action transition_name;
        execute_transition workflow transition (searched action transition_name) action
                           possible_actions action_source previous_user comment
  end.

(** ** The bulk executor *)

(** An entry [{"docname": ..., "message": ...}] of the two logging
    dictionaries, and a [defaultdict(list)] in insertion order. *)
Record Entry : Type := mkEntry { entry_docname : string; entry_message : option string }.

Fixpoint report_append (k : string) (e : Entry) (r : list (string * list Entry))
    : list (string * list Entry) :=
  match r with
  | [] => [(k, [e])]
  | (k', l) :: rest =>
      if String.eqb k' k then (k', (l ++ [e])%list) :: rest
      else (k', l) :: report_append k e rest
  end.

(** lines 426-433; the percentage is a float and is left as the pair
    [(i, n)] *)
Definition show_progress (docnames : list string) (message : string) (i : nat)
    (description : string) : M unit :=
  let n := length docnames in
  if (5 <=? n)%nat then modify (log_event (EvProgress i n message description))
  else mret tt.

Definition db_commit : M unit :=
  modify (fun w => log_event EvCommit (set_committed (db w) w)).

Definition db_rollback : M unit :=
  modify (fun w => log_event EvRollback (set_db (committed w) w)).

(** [frappe.log_error(traceback, title)] inserts an Error Log record *)
Definition log_error (title : string) : M unit :=
  modify (fun w =>
    log_event (EvLogError title)
              (set_db (set_error_logs (error_logs (db w) ++ [title]) (db w)) w)).

(** lines 349-352: the body of [try] *)
Definition bulk_try (docnames : list string) (doctype action : string) (transition : pyval)
    (idx : nat) (docname : string) : M unit :=
  show_progress docnames ("Applying: " ++ action) idx docname;;
  d ← get_doc (PStr doctype) (PStr docname);
  apply_workflow d action transition PNone PNone PNone PNone PNone;;
  db_commit.

(** lines 356-358 *)
Definition exception_message (e : exn) : string :=
  class_name (exc_class e) ++
  match exc_args e with
  | [] => ""
  | a :: _ => " : " ++ a
  end.

(** lines 368-375: one pass over the copy of the message log; every step
    pops the last entry of the log itself *)
Fixpoint classify_messages (messages : list Msg) (docname : string)
    (failed successful : list (string * list Entry))
    : M (list (string * list Entry) * list (string * list Entry)) :=
  match messages with
  | [] => mret (failed, successful)
  | m :: rest =>
      modify (fun w => set_message_log (removelast (message_log w)) w);;
      let message_dict := mkEntry docname (Some (message m)) in
      if raise_exception m
      then classify_messages rest docname (report_append docname message_dict failed) successful
      else classify_messages rest docname failed (report_append docname message_dict successful)
  end.

(** lines 364-377: [finally]; [message_dict] is non-empty exactly when the
    [except] block filled it *)
Definition bulk_finally (docname : string) (message_dict_set : bool)
    (failed successful : list (string * list Entry))
    : M (list (string * list Entry) * list (string * list Entry)) :=
  if message_dict_set then mret (failed, successful)
  else
    w ← get_world;
    match message_log w with
    | [] => mret (failed, report_append docname (mkEntry docname None) successful)
    | _ :: _ => classify_messages (message_log w) docname failed successful
    end.

Definition error_title (action doctype docname : string) : string :=
  "Workflow " ++ action ++ " threw an error for " ++ doctype ++ " " ++ docname.

(** lines 347-377: one round of the loop *)
Definition bulk_item (docnames : list string) (doctype action : string) (transition : pyval)
    (idx : nat) (docname : string) (failed successful : list (string * list Entry))
    : M (list (string * list Entry) * list (string * list Entry)) :=
  fun w =>
    match bulk_try docnames doctype action transition idx docname w with
    | (w1, inr _) => bulk_finally docname false failed successful w1
    | (w1, inl e) =>
        let manual := bool_decide (message_log w1 = []) in
        let failed' :=
          if manual
          then report_append docname (mkEntry docname (Some (exception_message e))) failed
          else failed in
        (db_rollback;;
         log_error (error_title action doctype docname);;
         bulk_finally docname manual failed' successful) w1
    end.

(** line 346: [for (idx, docname) in enumerate(docnames, 1)] *)
Fixpoint bulk_loop (docnames : list string) (doctype action : string) (transition : pyval)
    (idx : nat) (todo : list string) (failed successful : list (string * list Entry))
    : M (list (string * list Entry) * list (string * list Entry)) :=
  match todo with
  | [] => mret (failed, successful)
  | docname :: rest =>
      r ← bulk_item docnames doctype action transition idx docname failed successful;
      bulk_loop docnames doctype action transition (S idx) rest (fst r) (snd r)
  end.

(** lines 379-384 *)
Definition report_indicator (failed successful : list (string * list Entry)) : string :=
  match failed, successful with
  | _ :: _, _ :: _ => "orange"
  | _ :: _, [] => "red"
  | [], _ => "green"
  end.

Definition entry_html (log : Entry) : string :=
  match entry_message log with
  | Some m =>
      if str_truthy m
      then "<div class='small text-muted' style='padding:2.5px'>" ++ m ++ "</div>"
      else ""
  | None => ""
  end.

Definition doc_html (doctype : string) (item : string * list Entry) : string :=
  match snd item with
  | [] => "<div>" ++ fst item ++ "</div>"
  | logs =>
      "<details><summary>" ++ get_link_to_form doctype (fst item) ++ "</summary>"
      ++ String.concat "" (List.map entry_html logs) ++ "</details>"
  end.

(** lines 389-404 *)
Definition print_workflow_log (messages : list (string * list Entry))
    (title doctype indicator : string) : M unit :=
  match messages with
  | [] => mret tt
  | _ :: _ =>
      let msg := "<h4>" ++ title ++ "</h4>"
                 ++ String.concat "" (List.map (doc_html doctype) messages) in
      msgprint (mkMsg msg false "Workflow Status" indicator)
  end.

(** lines 334-387; [docnames] is the list [json.loads] yields *)
Definition bulk_workflow_approval (docnames : list string) (doctype action : string)
    (transition : pyval) : M unit :=
  modify (set_message_log []);;
  r ← bulk_loop docnames doctype action transition 1%nat docnames [] [];
  let indicator := report_indicator (fst r) (snd r) in
  print_workflow_log (fst r) "Failed Transactions" doctype indicator;;
  print_workflow_log (snd r) "Successful Transactions" doctype indicator.

End Model.

(** ** Notions the properties are stated with

    [condition_holds] says that a condition evaluates, and to a true value;
    [available] is the filter of 4.3 of the specification: the source state
    is the current state and the condition holds. *)

Section Reading.
Context `{Frappe}.

Definition condition_holds (condition : string) (d : Doc) (w : World) : bool :=
  match snd (evaluate_condition condition d w) with
  | inr v => truthy v
  | inl _ => false
  end.

Definition condition_evaluates (condition : string) (d : Doc) (w : World) : Prop :=
  exists v, snd (evaluate_condition condition d w) = inr v.

Definition available (current_state : pyval) (d : Doc) (w : World) (t : Transition.t) : bool :=
  py_eq (PStr (Transition.state t)) current_state
  && condition_holds (Transition.condition t) d w.

(** The evaluator of 4.1 in the specification's words: an empty expression
    evaluates to true; any other is what the sandboxed evaluator makes of it,
    read as a boolean, and a failure of the evaluator is an error.  Stated on
    the evaluator itself, not on [evaluate_condition]. *)
Definition spec_evaluate (expression : string) (d : Doc) (w : World) : exn + bool :=
  match expression with
  | EmptyString => inr true
  | String _ _ =>
      match safe_eval expression (session_user w) (db w) d with
      | inr v => inr (truthy v)
      | inl e => inl e
      end
  end.

Definition spec_condition_true (expression : string) (d : Doc) (w : World) : bool :=
  match spec_evaluate expression d w with
  | inr b => b
  | inl _ => false
  end.

(** The result of 4.3 in the specification's words: the source state equals
    the current state and the condition evaluates true. *)
Definition spec_available (current_state : pyval) (d : Doc) (w : World) (t : Transition.t)
    : bool :=
  py_eq (PStr (Transition.state t)) current_state
  && spec_condition_true (Transition.condition t) d w.

(** The spec's legality table of 4.6. *)
Definition legality_table (current target : Z) : option LifecycleOp :=
  if decide ((current, target) = (0, 0)%Z) then Some Save
  else if decide ((current, target) = (0, 1)%Z) then Some Submit
  else if decide ((current, target) = (1, 1)%Z) then Some Save
  else if decide ((current, target) = (1, 2)%Z) then Some Cancel
  else None.

(** Open actions of other users on a document at a state, as a number. *)
Definition other_open_count (d : Doc) (state user : string) (x : DB) : Z :=
  Z.of_nat (length (List.filter (other_open_action d state user) (actions x))).

(** The gating condition of step 3, as a function of the site. *)
Definition gating (transition : Transition.t) (action_source : pyval) (w : World) : bool :=
  (String.eqb (Transition.multi_user_action_mode transition) "All"
   && (0 <? other_open_count (doc w) (Transition.state transition) (session_user w) (db w))%Z)
  || is_pre_check_action action_source.

(** The run of [apply_workflow] up to the gating step: the action is not one of
    the two special ones, a workflow is resolved, a transition is resolved,
    and the acting user has approval access. *)
Definition reaches_gating (d : Doc) (action : string) (transition_name : pyval) (w : World)
    (workflow : Workflow.t) (transition : Transition.t) (w2 : World) : Prop :=
  (String.eqb action "Forward" || String.eqb action "Add Additional Check") = false
  /\ (exists w1, get_workflow d (set_doc d w) = (w1, inr (Some workflow))
               /\ resolve_transition workflow action transition_name w1
                  = (w2, inr (Some transition)))
  /\ has_approval_access (session_user w2) (doc w2) transition = true.

(** The state an advancing run writes, and the settings of that state. *)
Definition target_of (workflow : Workflow.t) (transition : Transition.t) (action : string)
    : option string :=
  if String.eqb action "Reject"
  then DocState.state <$> head (Workflow.states workflow)
  else Some (Transition.next_state transition).

Definition settings_of (workflow : Workflow.t) (target : string) : option DocState.t :=
  head (List.filter (fun s => String.eqb (DocState.state s) target) (Workflow.states workflow)).

(** The writes of lines 202-215 and the document they leave. *)
Definition update_write (next_state : DocState.t) : list Event :=
  if str_truthy (DocState.update_field next_state)
  then [EvSet (DocState.update_field next_state) (DocState.update_value next_state)]
  else [].

Definition state_writes (workflow : Workflow.t) (action : string) (comment : pyval)
    (target : string) : list Event :=
  [EvSet "workflow_action" (PStr action);
   EvSet "workflow_comment" comment;
   EvSet (Workflow.workflow_state_field workflow) (PStr target)].

Definition replay (e : Event) (d : Doc) : Doc :=
  match e with
  | EvSet f v => <[f := v]> d
  | _ => d
  end.

Definition written (events : list Event) (d : Doc) : Doc :=
  fold_left (fun d e => replay e d) events d.

Definition after_writes (events : list Event) (w : World) : World :=
  mkWorld (session_user w) (written events (doc w)) (db w) (committed w) (cache w)
          (message_log w) (trace w ++ events).

(** The site once line 205 has run: the cache entry of the document holds
    the workflow with the row of the transition retargeted, if the run
    rejects on a row of the cached workflow; otherwise nothing has changed. *)
Definition retargeted (workflow : Workflow.t) (transition : Transition.t) (row : bool)
    (action : string) (w : World) : World :=
  if row && String.eqb action "Reject" then
    match Workflow.states workflow with
    | first :: _ =>
        set_cache (retarget_cached (doc w) transition (DocState.state first) (cache w)) w
    | [] => w
    end
  else w.

(** Two sites that differ at most in the cache and the message log. *)
Definition same_site (w w1 : World) : Prop :=
  session_user w1 = session_user w /\ doc w1 = doc w /\ db w1 = db w
  /\ committed w1 = committed w /\ trace w1 = trace w.

Definition is_lifecycle (e : Event) : bool :=
  match e with EvLifecycle _ => true | _ => false end.

(** *** Rounds of the bulk executor

    A round is what the [try] block of one item leaves behind: the name, the
    exception it raised if any, and the message log at that point. *)

Record Round : Type := mkRound {
  round_docname : string;
  round_error : option exn;
  round_messages : list Msg
}.

Definition round_ok (r : Round) : bool :=
  match round_error r with None => true | Some _ => false end.

Definition is_tx (e : Event) : bool :=
  match e with EvCommit | EvRollback => true | _ => false end.

(** The entries one pass over the message log adds (lines 368-375). *)
Fixpoint classified (messages : list Msg) (docname : string)
    (reports : list (string * list Entry) * list (string * list Entry))
    : list (string * list Entry) * list (string * list Entry) :=
  match messages with
  | [] => reports
  | m :: rest =>
      let message_dict := mkEntry docname (Some (message m)) in
      if raise_exception m
      then classified rest docname (report_append docname message_dict (fst reports), snd reports)
      else classified rest docname (fst reports, report_append docname message_dict (snd reports))
  end.

(** The entries a round adds to the two dictionaries. *)
Definition round_report (r : Round)
    (reports : list (string * list Entry) * list (string * list Entry))
    : list (string * list Entry) * list (string * list Entry) :=
  match round_messages r, round_error r with
  | [], Some e =>
      (report_append (round_docname r)
         (mkEntry (round_docname r) (Some (exception_message e))) (fst reports),
       snd reports)
  | [], None =>
      (fst reports,
       report_append (round_docname r) (mkEntry (round_docname r) None) (snd reports))
  | messages, _ => classified messages (round_docname r) reports
  end.

Definition round_of (docnames : list string) (doctype action : string) (transition : pyval)
    (idx : nat) (docname : string) (w : World) : Round :=
  let r := bulk_try docnames doctype action transition idx docname w in
  mkRound docname (match snd r with inl e => Some e | inr _ => None end)
          (message_log (fst r)).

(** The rounds of a batch, each started on the site the previous one
    left. *)
Fixpoint bulk_rounds (docnames : list string) (doctype action : string) (transition : pyval)
    (idx : nat) (todo : list string) (w : World) : list Round :=
  match todo with
  | [] => []
  | docname :: rest =>
      round_of docnames doctype action transition idx docname w
      :: bulk_rounds docnames doctype action transition (S idx) rest
           (fst (bulk_item docnames doctype action transition idx docname [] [] w))
  end.

(** A computation that neither commits nor rolls back. *)
Definition no_tx {A : Type} (m : M A) : Prop :=
  forall w, List.filter is_tx (trace (fst (m w))) = List.filter is_tx (trace w).

Definition tx_of (r : Round) : Event := if round_ok r then EvCommit else EvRollback.

Definition nonempty {A : Type} (l : list A) : bool :=
  match l with [] => false | _ :: _ => true end.

(** The messages the two calls of [print_workflow_log] leave in an empty
    log. *)
Definition report_messages (doctype : string)
    (failed successful : list (string * list Entry)) (l : list Msg) : Prop :=
  l = ((if nonempty failed
        then [mkMsg ("<h4>Failed Transactions</h4>"
                     ++ String.concat "" (List.map (doc_html doctype) failed))
                    false "Workflow Status" (report_indicator failed successful)]
        else [])
       ++ (if nonempty successful
           then [mkMsg ("<h4>Successful Transactions</h4>"
                        ++ String.concat "" (List.map (doc_html doctype) successful))
                       false "Workflow Status" (report_indicator failed successful)]
           else []))%list.

(** A round reports a failure, or a success. *)
Definition reports_failure (r : Round) : bool :=
  match round_messages r with
  | [] => negb (round_ok r)
  | messages => existsb raise_exception messages
  end.

Definition reports_success (r : Round) : bool :=
  match round_messages r with
  | [] => round_ok r
  | messages => existsb (fun m => negb (raise_exception m)) messages
  end.





(** A round without informational messages: a successful item printed
    nothing, and whatever a failed item logged was raised as an error. *)
Definition plain_round (r : Round) : bool :=
  forallb raise_exception (round_messages r)
  && (negb (round_ok r) || bool_decide (round_messages r = [])).

End Reading.

(** ** A concrete site for examples

    The leave-approval workflow of the specification's example scenario:
    states Draft (0), Review (0), Approved (1), and an extra Cancelled (2);
    conditions are the literals [True] and [False] or an attribute
    [doc.<field>]. *)

Module Demo.

Definition cint_digits (v : pyval) : Z :=
  match v with
  | PInt z => z
  | PBool b => if b then 1 else 0
  | PStr s => if String.eqb s "1" then 1 else if String.eqb s "2" then 2 else 0
  | PNone => 0
  end.

Definition eval_literal (condition user : string) (x : DB) (d : Doc) : exn + pyval :=
  if String.eqb condition "True" then inr (PBool true)
  else if String.eqb condition "False" then inr (PBool false)
  else if String.prefix "doc." condition
       then inr (doc_get d (String.substring 4 (String.length condition - 4) condition))
       else inl (Exn (OtherError "SyntaxError") ["invalid syntax"]).

(** The refusal of the permission check on the example sites. *)
Definition no_permission (user : string) (x : DB) (d : Doc) : list Msg * exn :=
  let msg := "No permission for " ++ py_str (doc_get d "doctype") in
  ([mkMsg msg true "" "red"], Exn PermissionError [msg]).

(** A site whose lifecycle operations print nothing and never fail. *)
Definition quiet : Frappe := {|
  cint := cint_digits;
  safe_eval := eval_literal;
  has_permission := fun _ _ _ => true;
  permission_error := no_permission;
  lifecycle := fun _ _ _ _ => ([], None);
  get_link_to_form := fun doctype name => name
|}.

(** A site where saving prints a warning and then fails validation with
    [frappe.throw]. *)
Definition warning : Msg := mkMsg "Leave balance is low" false "" "".
Definition rejected : Msg := mkMsg "Leave period overlaps" true "" "red".

Definition noisy : Frappe := {|
  cint := cint_digits;
  safe_eval := eval_literal;
  has_permission := fun _ _ _ => true;
  permission_error := no_permission;
  lifecycle := fun op _ _ _ =>
    match op with
    | Save => ([warning; rejected], Some (Exn ValidationError ["Leave period overlaps"]))
    | _ => ([], None)
    end;
  get_link_to_form := fun doctype name => name
|}.

(** A site where saving logs an error message and still goes through. *)
Definition grudging : Frappe := {|
  cint := cint_digits;
  safe_eval := eval_literal;
  has_permission := fun _ _ _ => true;
  permission_error := no_permission;
  lifecycle := fun _ _ _ _ => ([rejected], None);
  get_link_to_form := fun doctype name => name
|}.

Definition draft : DocState.t := DocState.mk "Draft" (PStr "0") "" PNone.
Definition review : DocState.t := DocState.mk "Review" (PStr "0") "" PNone.
Definition approved : DocState.t := DocState.mk "Approved" (PStr "1") "" PNone.
Definition cancelled : DocState.t := DocState.mk "Cancelled" (PStr "2") "" PNone.

Definition submit_for_review : Transition.t :=
  Transition.mk "Draft" "Submit for Review" "Review" "" 1 "Any".
Definition approve : Transition.t :=
  Transition.mk "Review" "Approve" "Approved" "" 0 "All".
Definition reject : Transition.t :=
  Transition.mk "Review" "Reject" "Cancelled" "" 0 "All".
Definition discard : Transition.t :=
  Transition.mk "Draft" "Discard" "Cancelled" "" 1 "Any".

Definition leave_approval : Workflow.t :=
  Workflow.mk "Leave Approval" "Leave Application" "workflow_state"
              [draft; review; approved; cancelled]
              [submit_for_review; approve; reject; discard].

(** A second workflow on the same states: a draft may be approved at
    once, and from Review the action Approve is declared twice. *)
Definition fast_track : Transition.t :=
  Transition.mk "Draft" "Approve" "Approved" "" 1 "All".
Definition send_back : Transition.t :=
  Transition.mk "Review" "Approve" "Draft" "True" 1 "Any".

Definition express_approval : Workflow.t :=
  Workflow.mk "Express Approval" "Leave Application" "workflow_state"
              [draft; review; approved; cancelled]
              [fast_track; approve; send_back].

Definition leave_under (workflow name owner state : string) (docstatus : Z) : Doc :=
  <["doctype" := PStr "Leave Application"]>
  (<["name" := PStr name]>
  (<["owner" := PStr owner]>
  (<["docstatus" := PInt docstatus]>
  (<["workflow_def" := PStr workflow]>
  (<["workflow_state" := PStr state]> ∅))))).

Definition leave : string -> string -> string -> Z -> Doc := leave_under "Leave Approval".

Definition open_action (name state user : string) : Action.t :=
  Action.mk "Open" state user (PStr "Leave Application") (PStr name)
            (PStr "Approve:T-APPROVE") "Normal" PNone PNone.

Definition database (docs : list Doc) (ledger : list Action.t) : DB :=
  mkDB docs
       (<["Leave Approval" := leave_approval]> {[ "Express Approval" := express_approval ]})
       (<["T-SUBMIT" := submit_for_review]>
        (<["T-APPROVE" := approve]>
         (<["T-REJECT" := reject]>
          (<["T-DISCARD" := discard]>
           (<["T-FAST" := fast_track]> {[ "T-BACK" := send_back ]})))))
       [] ledger [] [].

Definition site (user : string) (x : DB) : World :=
  mkWorld user ∅ x x [] [] [].

(** Documents: Alice's application as a draft, unsaved, under review,
    and under review in the express workflow. *)
Definition alice_draft : Doc := leave "LA-0001" "alice" "Draft" 0.
Definition alice_unsaved : Doc := <["__islocal" := PInt 1]> alice_draft.
Definition alice_review : Doc := leave "LA-0002" "alice" "Review" 0.
Definition alice_express : Doc := leave_under "Express Approval" "LA-0003" "alice" "Review" 0.

(** A workflow whose transitions out of Draft carry conditions: none, one
    that is false, one that reads a field of the document (once set, once
    missing) and one that is true. *)
Definition hold_back : Transition.t :=
  Transition.mk "Draft" "Hold Back" "Review" "False" 1 "Any".
Definition rush : Transition.t :=
  Transition.mk "Draft" "Rush" "Approved" "doc.urgent" 1 "Any".
Definition audit : Transition.t :=
  Transition.mk "Draft" "Audit" "Review" "doc.audited" 1 "Any".
Definition withdraw : Transition.t :=
  Transition.mk "Draft" "Withdraw" "Cancelled" "True" 1 "Any".

Definition conditional_approval : Workflow.t :=
  Workflow.mk "Conditional Approval" "Leave Application" "workflow_state"
              [draft; review; approved; cancelled]
              [submit_for_review; hold_back; rush; approve; audit; withdraw].

Definition alice_urgent : Doc :=
  <["urgent" := PInt 1]> (leave_under "Conditional Approval" "LA-0007" "alice" "Draft" 0).

(** Carol and Bob both still have to act on LA-0002 at Review. *)
Definition review_ledger : list Action.t :=
  [open_action "LA-0002" "Review" "carol"; open_action "LA-0002" "Review" "bob"].

(** The site once [apply_workflow] has bound the document and resolved
    (and cached) its workflow. *)
Definition at_gating (d : Doc) (wf : Workflow.t) (w : World) : World :=
  set_cache [(d, wf)] (set_doc d w).

End Demo.

(** ** The rest of [workflow.py]

    The functions beside the resolver, the executor and the bulk executor:
    the views on the action ledger, the cancel query, the save-time
    validator, the state fix-up after a lifecycle action and the common
    actions of a selection. *)

Section Rest.
Context `{Frappe}.

(** [frappe.bold], used in the validator's messages. *)
Variable bold : string -> string.

(** *** The ledger as the user sees it *)

(** A row of [frappe.get_list("Workflow Action", fields=[user, actions,
    action_source, previous_user])]. *)
Record UserAction : Type := mkUserAction {
  ua_user : string;
  ua_actions : pyval;
  ua_action_source : string;
  ua_previous_user : pyval
}.

Definition administrator_action : UserAction :=
  mkUserAction "Administrator" (PStr "") "Normal" (PStr "").

(** lines 109-114: the filters; the user is only filtered on when given *)
Definition open_workflow_action (d : Doc) (state user : pyval) (a : Action.t) : bool :=
  negb (String.eqb (Action.status a) "Completed")
  && py_eq (PStr (Action.workflow_state a)) state
  && py_eq (Action.reference_doctype a) (doc_get d "doctype")
  && py_eq (Action.reference_name a) (doc_get d "name")
  && (if truthy user then py_eq (PStr (Action.user a)) user else true).

Definition user_action_row (a : Action.t) : UserAction :=
  mkUserAction (Action.user a) (Action.actions a) (Action.action_source a)
               (Action.previous_user a).

(** lines 106-116; the rows come in the order of the ledger *)
Definition get_open_workflow_action (d : Doc) (state user : pyval) : M (list UserAction) :=
  if truthy user && py_eq user (PStr "Administrator") then mret [administrator_action]
  else
    w ← get_world;
    mret (List.map user_action_row
            (List.filter (open_workflow_action d state user) (actions (db w)))).

(** lines 93-103 *)
Definition get_user_actions (d : Doc) (workflow : option Workflow.t) (user : pyval)
    : M (list UserAction) :=
  workflow ← match workflow with
             | Some wf => mret (Some wf)
             | None => get_workflow d
             end;
  match workflow with
  | None => mret []
  | Some wf => get_open_workflow_action d (doc_get d (Workflow.workflow_state_field wf)) user
  end.

(** *** Can a document type be cancelled *)

(** lines 249-252: the inner loop returns [False] at the first transition
    into the state and [True] when it runs out *)
Fixpoint no_transition_into (state : string) (transitions : list Transition.t) : bool :=
  match transitions with
  | [] => true
  | transition :: rest =>
      if String.eqb (Transition.next_state transition) state then false
      else no_transition_into state rest
  end.

(** lines 247-253: the outer loop stops at the first state whose
    [doc_status] is the string ['2'] *)
Fixpoint can_cancel_states (states : list DocState.t) (transitions : list Transition.t)
    : bool :=
  match states with
  | [] => true
  | state_doc :: rest =>
      if py_eq (DocState.doc_status state_doc) (PStr "2")
      then no_transition_into (DocState.state state_doc) transitions
      else can_cancel_states rest transitions
  end.

(** lines 244-253; [doctype] is handed to [get_workflow] as it comes *)
Definition can_cancel_document (doctype : Doc) : M bool :=
  workflow ← get_workflow doctype;
  match workflow with
  | None => raise (Exn AttributeError ["'NoneType' object has no attribute 'states'"])
  | Some wf => mret (can_cancel_states (Workflow.states wf) (Workflow.transitions wf))
  end.

(** *** The save-time validator *)

(** [doc._doc_before_save]: the attribute may be missing, hold [None], or
    hold the document as it was stored. *)
Inductive BeforeSave : Type :=
  | NoAttribute
  | IsNone
  | Snapshot (d : Doc).

(** [workflow.states[0].state] *)
Definition first_state (workflow : Workflow.t) : M string :=
  match Workflow.states workflow with
  | [] => raise index_error
  | first :: _ => mret (DocState.state first)
  end.

Definition transition_not_allowed (current_state next_state : pyval) : string :=
  "Workflow State transition not allowed from " ++ bold (py_str current_state)
  ++ " to " ++ bold (py_str next_state).

(** lines 287-301: the check made when the state has changed *)
Definition validate_transition (before_save : BeforeSave) (current_state next_state : pyval)
    : M unit :=
  match before_save with
  | NoAttribute =>
      raise (Exn AttributeError ["'Document' object has no attribute '_doc_before_save'"])
  | IsNone =>
      throw (transition_not_allowed current_state next_state) WorkflowPermissionError
  | Snapshot before =>
      transitions ← get_transitions before None false;
      match List.filter (fun t => py_eq (PStr (Transition.next_state t)) next_state)
                        transitions with
      | [] => throw (transition_not_allowed current_state next_state) WorkflowPermissionError
      | _ :: _ => mret tt
      end
  end.

(** lines 256-301 *)
Definition validate_workflow (d : Doc) (before_save : BeforeSave) : M unit :=
  modify (set_doc d);;
  workflow ← get_workflow d;
  match workflow with
  | None =>
      raise (Exn AttributeError
               ["'NoneType' object has no attribute 'workflow_state_field'"])
  | Some workflow =>
      let field := Workflow.workflow_state_field workflow in
      let current_state :=
        match before_save with
        | Snapshot before => doc_get before field
        | _ => PNone
        end in
      next_state ← (if negb (truthy (doc_get d field))
                    then s ← first_state workflow;
                         doc_set field (PStr s);;
                         mret (PStr s)
                    else mret (doc_get d field));
      current_state ← (if negb (truthy current_state)
                       then s ← first_state workflow; mret (PStr s)
                       else mret current_state);
      default_state ← first_state workflow;
      w ← get_world;
      if py_eq (PStr (session_user w)) (doc_get (doc w) "owner")
         && py_eq current_state (PStr default_state)
      then mret tt
      else if hasattr (doc w) "workflow_action"
              && py_eq (doc_get (doc w) "workflow_action") (PStr "Reject")
              && py_eq next_state (PStr default_state)
      then mret tt
      else
        match List.filter (fun s => py_eq (PStr (DocState.state s)) current_state)
                          (Workflow.states workflow) with
        | [] =>
            throw (bold (py_str current_state)
                   ++ " is not a valid Workflow State. Please update your Workflow and try again.")
                  ValidationError
        | _ :: _ =>
            if negb (py_eq current_state next_state)
            then validate_transition before_save current_state next_state
            else mret tt
        end
  end.

(** *** The state after a lifecycle action *)

(** lines 444-449: [action_map[action]] *)
Definition action_map (action : string) : option string :=
  if String.eqb action "update_after_submit" then Some "1"
  else if String.eqb action "submit" then Some "1"
  else if String.eqb action "cancel" then Some "2"
  else None.

(** lines 440-442 *)
Definition state_is_correct (workflow : Workflow.t) (d : Doc) : bool :=
  existsb (fun state =>
             py_eq (PStr (DocState.state state))
                   (doc_get d (Workflow.workflow_state_field workflow))
             && py_eq (doc_get d "docstatus") (PInt (cint (DocState.doc_status state))))
          (Workflow.states workflow).

(** lines 435-453 *)
Definition set_workflow_state_on_action (d : Doc) (workflow_name : pyval) (action : string)
    : M unit :=
  modify (set_doc d);;
  workflow ← get_doc_workflow workflow_name;
  if state_is_correct workflow d then mret tt
  else
    match action_map action with
    | None => raise (Exn (OtherError "KeyError") [action])
    | Some docstatus =>
        match List.find (fun state => py_eq (DocState.doc_status state) (PStr docstatus))
                        (Workflow.states workflow) with
        | Some state =>
            doc_set (Workflow.workflow_state_field workflow) (PStr (DocState.state state))
        | None => mret tt
        end
    end.

(** *** The actions common to a selection *)

(** [s.split(sep)] for a separator of one character *)
Fixpoint split_on (sep : Ascii.ascii) (s : string) : list string :=
  match s with
  | EmptyString => [EmptyString]
  | String c rest =>
      if Ascii.eqb c sep then EmptyString :: split_on sep rest
      else match split_on sep rest with
           | [] => [String c EmptyString]
           | piece :: pieces => String c piece :: pieces
           end
  end.

(** line 420: one entry [action:transition] of the list *)
Definition parse_action (i : string) : exn + (string * string) :=
  match split_on ":"%char i with
  | action :: transition :: _ => inr (action, transition)
  | _ => inl index_error
  end.

Fixpoint parse_actions (items : list string) : exn + list (string * string) :=
  match items with
  | [] => inr []
  | i :: rest =>
      match parse_action i with
      | inl e => inl e
      | inr p =>
          match parse_actions rest with
          | inl e => inl e
          | inr l => inr (p :: l)
          end
      end
  end.

(** lines 412-415: the filters *)
Definition selected_open_action (names : list pyval) (doctype : string) (user : string)
    (a : Action.t) : bool :=
  py_eq (Action.reference_doctype a) (PStr doctype)
  && existsb (py_eq (Action.reference_name a)) names
  && String.eqb (Action.user a) user
  && String.eqb (Action.status a) "Open".

(** lines 406-424.  [docs] is the list of dicts; the [distinct] query
    yields each value of [actions] once; [None] is what the function returns
    when the handler of line 423 catches. *)
Definition get_common_transition_actions (docs : list Doc) (doctype : string)
    : M (option (list (string * string))) :=
  fun w =>
    let body : M (list (string * string)) :=
      w ← get_world;
      let doc_name_list := List.map (fun d => doc_get d "name") docs in
      let actions :=
        remove_dups
          (List.map Action.actions
             (List.filter (selected_open_action doc_name_list doctype (session_user w))
                          (actions (db w)))) in
      match actions with
      | [value] =>
          match value with
          | PStr s =>
              match parse_actions (split_on ";"%char s) with
              | inr l => mret l
              | inl e => raise e
              end
          | _ => raise (Exn AttributeError
                          ["'NoneType' object has no attribute 'split'"])
          end
      | _ => mret []
      end in
    match body w with
    | (w', inr l) => (w', inr (Some l))
    | (w', inl e) =>
        if bool_decide (exc_class e = WorkflowStateError) then (w', inr None)
        else (w', inl e)
    end.

End Rest.

(** ** Notions for the properties of the whole file *)

Section Frames.
Context `{Frappe}.

(** Everything of the site but the message log. *)
Definition but_messages (w : World)
    : string * Doc * DB * DB * list (Doc * Workflow.t) * list Event :=
  (session_user w, doc w, db w, committed w, cache w, trace w).

(** The events the executor itself never logs, and what it leaves alone:
    the committed database and the progress, commit, rollback and error-log
    events. *)
Definition outer_event (e : Event) : bool :=
  match e with
  | EvSet _ _ | EvLifecycle _ => false
  | _ => true
  end.

Definition outside (w : World) : DB * list Event :=
  (committed w, List.filter outer_event (trace w)).

Definition preserves {X A : Type} (f : World -> X) (m : M A) : Prop :=
  forall w, f (fst (m w)) = f w.

Definition is_progress (e : Event) : bool :=
  match e with EvProgress _ _ _ _ => true | _ => false end.

(** The matching rule of [get_workflow] for a new document. *)
Definition assignment_applies (d : Doc) (w : World) (a : Assignment.t) : bool :=
  condition_holds (Assignment.eval_condition a) d w
  && (negb (hasattr d "company")
      || negb (str_truthy (Assignment.company a))
      || (hasattr d "company" && py_eq (doc_get d "company") (PStr (Assignment.company a)))).

(** The validator takes the workflow's first state as the previous one:
    there is no snapshot, or the snapshot has no state or that very state. *)
Definition previous_is_default (before_save : BeforeSave) (field default : string) : Prop :=
  match before_save with
  | Snapshot before =>
      truthy (doc_get before field) = false \/ doc_get before field = PStr default
  | _ => True
  end.

(** The progress events of a batch: one per reference, numbered from
    [idx]. *)
Fixpoint progress_events (n : nat) (title : string) (idx : nat) (todo : list string)
    : list Event :=
  match todo with
  | [] => []
  | docname :: rest => EvProgress idx n title docname :: progress_events n title (S idx) rest
  end.

(** [sep.join(pieces)] *)
Fixpoint join_with (sep : Ascii.ascii) (pieces : list string) : string :=
  match pieces with
  | [] => EmptyString
  | [piece] => piece
  | piece :: rest => piece ++ String sep (join_with sep rest)
  end.

Fixpoint contains (c : Ascii.ascii) (s : string) : bool :=
  match s with
  | EmptyString => false
  | String c' rest => Ascii.eqb c' c || contains c rest
  end.

(** The encoding [action:transition] of one entry. *)
Definition encode_action (p : string * string) : string :=
  fst p ++ String ":"%char (snd p).

End Frames.

(** ** More of the concrete site *)

Module Cases.
Import Demo.

(** A site on which nobody may read anything. *)
Definition locked : Frappe := {|
  cint := cint_digits;
  safe_eval := eval_literal;
  has_permission := fun _ _ _ => false;
  permission_error := no_permission;
  lifecycle := fun _ _ _ _ => ([], None);
  get_link_to_form := fun doctype name => name
|}.

Definition bold (text : string) : string := "<b>" ++ text ++ "</b>".

(** A workflow with a condition that does not evaluate, and one with a
    transition into a state it does not declare. *)
Definition escalate : Transition.t :=
  Transition.mk "Draft" "Escalate" "Review" "1/0" 1 "Any".

Definition broken_approval : Workflow.t :=
  Workflow.mk "Broken Approval" "Leave Application" "workflow_state"
              [draft; review; approved; cancelled]
              [submit_for_review; escalate; discard].

Definition park : Transition.t :=
  Transition.mk "Draft" "Park" "Parked" "" 1 "Any".

Definition loose_approval : Workflow.t :=
  Workflow.mk "Loose Approval" "Leave Application" "workflow_state"
              [draft; review; approved; cancelled] [park].

Definition alice_loose : Doc := leave_under "Loose Approval" "LA-0006" "alice" "Draft" 0.

Definition loose_database : DB :=
  mkDB [alice_loose] {[ "Loose Approval" := loose_approval ]} ∅ [] [] [] [].

(** Assignment rules for new leave applications: the first does not hold,
    the second and the third do. *)
Definition rules : list Assignment.t :=
  [Assignment.mk "Leave Application" "" "False" "Express Approval";
   Assignment.mk "Purchase Order" "" "" "Express Approval";
   Assignment.mk "Leave Application" "" "" "Leave Approval";
   Assignment.mk "Leave Application" "" "True" "Express Approval"].

Definition ruled_database : DB :=
  mkDB [] (<["Leave Approval" := leave_approval]> {[ "Express Approval" := express_approval ]})
       ∅ rules [] [] [].

(** Documents: without a state, without a workflow, approved and
    submitted, submitted but still under review, moved by hand, and rejected
    by [apply_workflow]. *)
Definition alice_stateless : Doc := leave "LA-0005" "alice" "" 0.
Definition alice_plain : Doc := delete "workflow_def" alice_draft.
Definition alice_approved : Doc := leave "LA-0002" "alice" "Approved" 1.
Definition alice_submitted : Doc := leave "LA-0002" "alice" "Review" 1.
Definition alice_bogus : Doc := leave "LA-0002" "alice" "Bogus" 0.
Definition alice_rejected : Doc :=
  <["workflow_action" := PStr "Reject"]> (leave "LA-0002" "alice" "Draft" 0).

(** Alice's draft as a document object, the same object once its state has
    been changed, and another object with the fields of the draft. *)
Definition alice_object : Doc := <["__id__" := PInt 7]> alice_draft.
Definition alice_later : Doc := <["workflow_state" := PStr "Review"]> alice_object.
Definition alice_copy : Doc := <["__id__" := PInt 8]> alice_draft.

(** Alice's application under review as a document object. *)
Definition review_object : Doc := <["__id__" := PInt 9]> alice_review.

(** Dave has an open action at Draft on Alice's draft. *)
Definition draft_ledger : list Action.t := [open_action "LA-0001" "Draft" "dave"].

End Cases.

(** * Properties *)

Local Open Scope list_scope.

(** ** Python values *)

Lemma py_eq_str (s : string) (v : pyval) : py_eq (PStr s) v = true <-> v = PStr s.
Proof.
  unfold py_eq; destruct v; simpl; try (split; [discriminate | discriminate]).
  rewrite bool_decide_eq_true. split; congruence.
Qed.

(** ** The monad *)

Ltac unfold_monad :=
  unfold mbind, M_bind, mret, M_ret, raise, get_world, modify, throw, msgprint in *.

Section Properties.
Context `{Frappe}.

Lemma throw_world {A : Type} (msg : string) (c : exn_class) (w : World) :
  fst (throw (A := A) msg c w)
  = set_message_log (message_log w ++ [mkMsg msg true "" "red"]) w.
Proof. reflexivity. Qed.

(** ** Condition evaluator *)

Lemma evaluate_condition_world (condition : string) (d : Doc) (w : World) :
  fst (evaluate_condition condition d w) = w.
Proof. unfold evaluate_condition. by destruct (str_truthy condition). Qed.

Lemma evaluate_condition_eta (condition : string) (d : Doc) (w : World) :
  evaluate_condition condition d w = (w, snd (evaluate_condition condition d w)).
Proof.
  rewrite <- (evaluate_condition_world condition d w) at 2.
  by destruct (evaluate_condition condition d w).
Qed.

(** ** Authorization check *)

(** C6: [has_approval_access] holds exactly when the acting user is the
    administrator, or the transition allows self-approval, or the acting user
    is not the document's owner; it fails exactly for a non-administrator
    owner on a transition without self-approval. *)
Theorem has_approval_access_iff (user : string) (d : Doc) (transition : Transition.t) :
  (has_approval_access user d transition = true <->
     user = "Administrator"
     \/ Transition.allow_self_approval transition <> 0%Z
     \/ doc_get d "owner" <> PStr user)
  /\ (has_approval_access user d transition = false <->
     user <> "Administrator"
     /\ Transition.allow_self_approval transition = 0%Z
     /\ doc_get d "owner" = PStr user).
Proof.
  unfold has_approval_access.
  destruct (String.eqb_spec user "Administrator") as [Hadm | Hadm];
  destruct (Z.eqb_spec (Transition.allow_self_approval transition) 0) as [Hself | Hself];
  destruct (py_eq (PStr user) (doc_get d "owner")) eqn:Hown; simpl;
  try (apply py_eq_str in Hown);
  try (assert (doc_get d "owner" <> PStr user)
         by (intros Heq; apply py_eq_str in Heq; congruence));
  split; split; try tauto; try discriminate; intuition congruence.
Qed.

(** ** Transition resolver *)

(** C9: for a document that is not yet persisted [get_transitions] returns
    the empty list, whatever the workflow argument, the permission check and
    the fields of the document are, and leaves the site as it was. *)
Theorem get_transitions_new (d : Doc) (workflow : option Workflow.t)
    (raise_exception : bool) (w : World) :
  is_new d = true ->
  get_transitions d workflow raise_exception w = (w, inr []).
Proof. intros Hnew. unfold get_transitions. by rewrite Hnew. Qed.

Lemma get_transitions_loop_filter (d : Doc) (current_state : pyval) (w : World)
    (ts acc : list Transition.t) :
  (forall t, In t ts ->
     py_eq (PStr (Transition.state t)) current_state = true ->
     condition_evaluates (Transition.condition t) d w) ->
  get_transitions_loop ts current_state d acc w
  = (w, inr (acc ++ List.filter (available current_state d w) ts)).
Proof.
  revert acc. induction ts as [| t ts IH]; intros acc Hev; simpl.
  - by rewrite app_nil_r.
  - assert (Hts : forall t', In t' ts ->
              py_eq (PStr (Transition.state t')) current_state = true ->
              condition_evaluates (Transition.condition t') d w)
      by (intros t' Hin; apply Hev; by right).
    unfold available at 1.
    destruct (py_eq (PStr (Transition.state t)) current_state) eqn:Hsrc; simpl.
    + destruct (Hev t (or_introl eq_refl) Hsrc) as [v Hv].
      unfold_monad. rewrite (evaluate_condition_eta _ d w), Hv.
      unfold condition_holds. rewrite Hv.
      destruct (truthy v); simpl.
      * rewrite (IH _ Hts). by rewrite <- app_assoc.
      * by rewrite (IH _ Hts).
    + by rewrite (IH _ Hts).
Qed.

Lemma filter_sublist {A : Type} (f : A -> bool) (l : list A) :
  sublist (List.filter f l) l.
Proof.
  induction l as [| x l IH]; simpl; [constructor |].
  destruct (f x); by constructor.
Qed.

(** The code's reading of a condition agrees with the evaluator of the
    specification. *)
Lemma condition_holds_spec (condition : string) (d : Doc) (w : World) :
  condition_holds condition d w = spec_condition_true condition d w.
Proof.
  unfold condition_holds, spec_condition_true, spec_evaluate, evaluate_condition, str_truthy.
  destruct condition as [| c rest]; simpl; [done |].
  by destruct (safe_eval _ _ _ _).
Qed.

Lemma condition_evaluates_spec (condition : string) (d : Doc) (w : World) :
  (exists b, spec_evaluate condition d w = inr b) -> condition_evaluates condition d w.
Proof.
  unfold condition_evaluates, spec_evaluate, evaluate_condition, str_truthy.
  destruct condition as [| c rest]; simpl; [by exists (PBool true) |].
  destruct (safe_eval _ _ _ _) as [e | v]; intros [b Hb]; [done | by exists v].
Qed.

Lemma available_spec (current_state : pyval) (d : Doc) (w : World) (t : Transition.t) :
  available current_state d w t = spec_available current_state d w t.
Proof. unfold available, spec_available. by rewrite condition_holds_spec. Qed.

Lemma filter_agree {A : Type} (f g : A -> bool) (l : list A) :
  (forall x, f x = g x) -> List.filter f l = List.filter g l.
Proof.
  intros Hfg. induction l as [| x l IH]; simpl; [done |]. by rewrite Hfg, IH.
Qed.

(** C7: for a persisted document the acting user may read and whose state
    field is set, [get_transitions] returns exactly the workflow's
    transitions whose source state is the current state and whose condition
    evaluates true, in the order of the definition: every returned transition
    has that source state and a condition the evaluator makes true, every
    transition with that source state and such a condition is returned, and
    when none qualifies the result is the empty list, not an error.
    Conditions are read as the specification's evaluator reads them: empty is
    true, anything else is the sandboxed evaluator's answer.  The workflow is
    the one passed in or, when none is passed, the one [get_workflow]
    resolves. *)
Theorem get_transitions_exact (d : Doc) (workflow : option Workflow.t) (wf : Workflow.t)
    (raise_exception : bool) (w w1 : World) :
  let current_state := doc_get d (Workflow.workflow_state_field wf) in
  is_new d = false ->
  has_permission (session_user w) (db w) d = true ->
  (workflow = Some wf /\ w1 = w
   \/ workflow = None /\ get_workflow d w = (w1, inr (Some wf))) ->
  truthy current_state = true ->
  (forall t, In t (Workflow.transitions wf) ->
     py_eq (PStr (Transition.state t)) current_state = true ->
     exists b, spec_evaluate (Transition.condition t) d w1 = inr b) ->
  exists result,
    get_transitions d workflow raise_exception w = (w1, inr result)
    /\ result = List.filter (spec_available current_state d w1) (Workflow.transitions wf)
    /\ sublist result (Workflow.transitions wf)
    /\ (forall t, In t result ->
          current_state = PStr (Transition.state t)
          /\ spec_evaluate (Transition.condition t) d w1 = inr true)
    /\ (forall t, In t (Workflow.transitions wf) ->
          current_state = PStr (Transition.state t) ->
          spec_evaluate (Transition.condition t) d w1 = inr true ->
          In t result)
    /\ ((forall t, In t (Workflow.transitions wf) ->
            spec_available current_state d w1 t = false) -> result = []).
Proof.
  intros current_state Hold Hperm Hwf Hcur Hev.
  exists (List.filter (spec_available current_state d w1) (Workflow.transitions wf)).
  split; [| split; [reflexivity | split; [apply filter_sublist | split; [| split]]]].
  - unfold get_transitions, check_read_permission. rewrite Hold.
    unfold_monad. rewrite Hperm.
    assert (Hloop := get_transitions_loop_filter d current_state w1
                       (Workflow.transitions wf) []
                       (fun t Hin Hsrc => condition_evaluates_spec _ _ _ (Hev t Hin Hsrc))).
    rewrite (filter_agree _ _ _ (available_spec current_state d w1)) in Hloop.
    destruct Hwf as [[-> ->] | [-> Hget]].
    + fold current_state. by rewrite Hcur.
    + rewrite Hget. fold current_state. by rewrite Hcur.
  - intros t Hin. apply filter_In in Hin as [_ Hav].
    unfold spec_available, spec_condition_true in Hav.
    apply andb_true_iff in Hav as [Hsrc Hcond].
    split; [by apply py_eq_str in Hsrc |].
    destruct (spec_evaluate (Transition.condition t) d w1) as [e | b]; [done | by subst].
  - intros t Hin Hsrc Hcond. apply filter_In. split; [exact Hin |].
    unfold spec_available, spec_condition_true. rewrite Hcond, andb_true_r.
    by apply py_eq_str.
  - clear Hev. intros Hnone. induction (Workflow.transitions wf) as [| t ts IH]; [done |].
    simpl. rewrite (Hnone t (or_introl eq_refl)). apply IH.
    intros t' Hin. apply Hnone. by right.
Qed.

(** *** What a successful resolver run tells *)

Lemma get_transitions_loop_inv (d : Doc) (current_state : pyval) (w w' : World)
    (ts acc result : list Transition.t) :
  get_transitions_loop ts current_state d acc w = (w', inr result) ->
  w' = w
  /\ exists found,
       result = acc ++ found
       /\ forall t, In t found ->
            In t ts
            /\ current_state = PStr (Transition.state t)
            /\ condition_holds (Transition.condition t) d w = true.
Proof.
  revert acc. induction ts as [| t ts IH]; intros acc; simpl.
  - unfold_monad. intros [= <- <-]. split; [done |].
    exists []. by rewrite app_nil_r.
  - destruct (py_eq (PStr (Transition.state t)) current_state) eqn:Hsrc.
    + unfold_monad. rewrite (evaluate_condition_eta _ d w).
      destruct (snd (evaluate_condition (Transition.condition t) d w)) as [e | v] eqn:Hv;
        [discriminate |].
      destruct (truthy v) eqn:Hval; simpl; intros Hrun.
      * apply IH in Hrun as (-> & found & -> & Hfound). split; [done |].
        exists (t :: found). rewrite <- app_assoc. split; [done |].
        intros t' [<- | Hin].
        -- split; [by left |]. split; [by apply py_eq_str in Hsrc |].
           unfold condition_holds. by rewrite Hv.
        -- destruct (Hfound t' Hin) as (? & ? & ?). split; [by right | done].
      * apply IH in Hrun as (-> & found & -> & Hfound). split; [done |].
        exists found. split; [done |]. intros t' Hin.
        destruct (Hfound t' Hin) as (? & ? & ?). split; [by right | done].
    + intros Hrun. apply IH in Hrun as (-> & found & -> & Hfound). split; [done |].
      exists found. split; [done |]. intros t' Hin.
      destruct (Hfound t' Hin) as (? & ? & ?). split; [by right | done].
Qed.

Lemma get_transitions_inv (d : Doc) (wf : Workflow.t) (raise_exception : bool)
    (w w' : World) (result : list Transition.t) :
  get_transitions d (Some wf) raise_exception w = (w', inr result) ->
  w' = w
  /\ forall t, In t result ->
       In t (Workflow.transitions wf)
       /\ doc_get d (Workflow.workflow_state_field wf) = PStr (Transition.state t)
       /\ condition_holds (Transition.condition t) d w = true.
Proof.
  unfold get_transitions, check_read_permission.
  destruct (is_new d).
  { unfold_monad. intros [= <- <-]. split; [done | intros t []]. }
  unfold_monad. destruct (has_permission (session_user w) (db w) d); [| discriminate].
  destruct (truthy (doc_get d (Workflow.workflow_state_field wf))); simpl.
  - intros Hloop. apply get_transitions_loop_inv in Hloop as (-> & found & -> & Hfound).
    split; [done |]. exact Hfound.
  - destruct raise_exception; discriminate.
Qed.

(** *** The search of [apply_workflow] keeps the last match *)

Lemma find_transition_last (d : Doc) (action : string) (w : World)
    (ts : list Transition.t) (kept : option Transition.t) :
  (forall t, In t ts -> condition_holds (Transition.condition t) d w = true) ->
  find_transition ts action d kept w
  = (w, inr (match last (List.filter (fun t => String.eqb (Transition.action t) action) ts) with
             | Some t => Some t
             | None => kept
             end)).
Proof.
  revert kept. induction ts as [| t ts IH]; intros kept Hcond; simpl; [done |].
  assert (Hts : forall t', In t' ts -> condition_holds (Transition.condition t') d w = true)
    by (intros t' Hin; apply Hcond; by right).
  assert (Ht := Hcond t (or_introl eq_refl)). unfold condition_holds in Ht.
  unfold_monad. rewrite (evaluate_condition_eta _ d w).
  destruct (snd (evaluate_condition (Transition.condition t) d w)) as [e | v]; [discriminate |].
  rewrite Ht. simpl.
  destruct (String.eqb (Transition.action t) action); rewrite (IH _ Hts); [| done].
  rewrite last_cons. by destruct (last _).
Qed.

(** *** The workflow resolver only touches the cache and the message log *)

Lemma same_site_refl (w : World) : same_site w w.
Proof. by repeat split. Qed.

Lemma get_doc_workflow_site (name : pyval) (w w1 : World) (r : exn + Workflow.t) :
  get_doc_workflow name w = (w1, r) -> same_site w w1.
Proof.
  unfold get_doc_workflow. unfold_monad.
  destruct (workflow_docs (db w) !! py_str name); intros [= <- <-]; by repeat split.
Qed.

Lemma get_workflow_assigned_site (l : list Assignment.t) (d : Doc) (w w1 : World)
    (r : exn + option Workflow.t) :
  get_workflow_assigned l d w = (w1, r) -> same_site w w1.
Proof.
  induction l as [| a l IH]; simpl.
  - unfold_monad. intros [= <- <-]. apply same_site_refl.
  - unfold_monad. rewrite (evaluate_condition_eta _ d w).
    destruct (snd (evaluate_condition (Assignment.eval_condition a) d w)) as [e | v].
    { intros [= <- <-]. apply same_site_refl. }
    destruct (truthy v && _); [| exact IH].
    destruct (get_doc_workflow (PStr (Assignment.workflow a)) w) as [w' [e | wf]] eqn:Hget;
      apply get_doc_workflow_site in Hget; by intros [= <- <-].
Qed.

Lemma get_workflow_site (d : Doc) (w w1 : World) (r : exn + option Workflow.t) :
  get_workflow d w = (w1, r) -> same_site w w1.
Proof.
  unfold get_workflow.
  destruct (hasattr d "workflow_def"); [| unfold_monad; intros [= <- <-]; apply same_site_refl].
  destruct (is_new d).
  - unfold_monad. apply get_workflow_assigned_site.
  - unfold_monad. destruct (cache_hget d w).
    { intros [= <- <-]. apply same_site_refl. }
    destruct (get_doc_workflow (doc_get d "workflow_def") w) as [w' [e | wf]] eqn:Hget;
      apply get_doc_workflow_site in Hget; intros [= <- <-]; [done |].
    destruct Hget as (? & ? & ? & ? & ?). by repeat split.
Qed.

(** ** Transition executor *)

Lemma state_is_held_gating (transition : Transition.t) (action_source : pyval) (w : World) :
  state_is_held transition action_source w = (w, inr (gating transition action_source w)).
Proof.
  unfold state_is_held, gating, other_user_open_action_count, other_open_count.
  unfold_monad.
  destruct (String.eqb (Transition.multi_user_action_mode transition) "All"); simpl; [| done].
  by destruct (str_truthy (session_user w)).
Qed.

Lemma py_eq_int (v : pyval) (z : Z) :
  py_eq v (PInt z) = match py_num v with Some c => (c =? z)%Z | None => false end.
Proof. by destruct v. Qed.

(** The branches of lines 218-227 are the legality table, read on the
    number the document's [docstatus] compares equal to. *)
Lemma lifecycle_operation_table (docstatus : pyval) (new_docstatus : Z) :
  lifecycle_operation docstatus new_docstatus
  = match py_num docstatus with
    | Some c => legality_table c new_docstatus
    | None => None
    end.
Proof.
  unfold lifecycle_operation, legality_table. rewrite !py_eq_int.
  destruct (py_num docstatus) as [c |]; [| done].
  repeat case_decide; simplify_eq; try done;
    repeat match goal with
    | |- context [(?a =? ?b)%Z] => destruct (Z.eqb_spec a b); simpl; try congruence
    end.
Qed.

Lemma apply_workflow_gating (d : Doc) (action : string)
    (transition_name possible_actions next_user action_source previous_user comment : pyval)
    (w w2 : World) (workflow : Workflow.t) (transition : Transition.t) :
  reaches_gating d action transition_name w workflow transition w2 ->
  apply_workflow d action transition_name possible_actions next_user action_source
                 previous_user comment w
  = ((if gating transition action_source w2
      then hold_state workflow action possible_actions action_source previous_user comment
      else advance_state workflow transition (searched action transition_name) action
                         comment);;
     w' ← get_world; mret (doc w')) w2.
Proof.
  intros (Hact & (w1 & Hwf & Hres) & Hacc).
  unfold apply_workflow, execute_transition. unfold_monad. simpl.
  rewrite Hwf, Hact, Hres, Hacc. simpl.
  by rewrite state_is_held_gating.
Qed.

Lemma object_id_insert (f : string) (v : pyval) (d : Doc) :
  f <> "__id__"%string -> object_id (<[f := v]> d) = object_id d.
Proof. intros Hf. unfold object_id. by rewrite lookup_insert_ne. Qed.

Lemma retarget_cached_object (d d' : Doc) (t : Transition.t) (target : string)
    (entries : list (Doc * Workflow.t)) :
  object_id d' = object_id d ->
  retarget_cached d' t target entries = retarget_cached d t target entries.
Proof.
  intros Hid. induction entries as [| [key wf] rest IH]; simpl; [done |].
  unfold same_object. rewrite Hid, IH. done.
Qed.

(** Line 205 touches the cache only. *)
Lemma retargeted_fields (workflow : Workflow.t) (transition : Transition.t) (row : bool)
    (action : string) (w : World) :
  let w' := retargeted workflow transition row action w in
  session_user w' = session_user w /\ doc w' = doc w /\ db w' = db w
  /\ committed w' = committed w /\ message_log w' = message_log w /\ trace w' = trace w.
Proof.
  unfold retargeted.
  destruct (row && String.eqb action "Reject"); [| done].
  by destruct (Workflow.states workflow).
Qed.

Lemma advance_state_run (workflow : Workflow.t) (transition : Transition.t) (row : bool)
    (action : string) (comment : pyval) (w : World) (target : string) (ns : DocState.t) :
  target_of workflow transition action = Some target ->
  settings_of workflow target = Some ns ->
  let wA := after_writes (state_writes workflow action comment target ++ update_write ns)
                         (retargeted workflow transition row action w) in
  advance_state workflow transition row action comment w
  = match lifecycle_operation (doc_get (doc wA) "docstatus") (cint (DocState.doc_status ns)) with
    | Some op =>
        (run_lifecycle op;;
         add_comment "Workflow" (DocState.state ns ++ " " ++ py_str comment)%string) wA
    | None =>
        (throw ("Illegal Document Status for " ++ DocState.state ns)%string ValidationError) wA
    end.
Proof.
  intros Htarget Hsettings wA.
  unfold advance_state, target_of, settings_of in *.
  assert (Hpre : forall w0,
            object_id (doc w0) = object_id (doc w) -> cache w0 = cache w ->
            (if String.eqb action "Reject"
             then match Workflow.states workflow with
                  | [] => raise index_error
                  | first :: _ =>
                      (if row
                       then modify (fun w =>
                              set_cache (retarget_cached (doc w) transition
                                           (DocState.state first) (cache w)) w)
                       else mret tt);;
                      mret (DocState.state first)
                  end
             else mret (Transition.next_state transition)) w0
            = (set_cache (cache (retargeted workflow transition row action w)) w0,
               inr target)).
  { intros w0 Hid Hcache. unfold retargeted.
    destruct (String.eqb action "Reject"); rewrite ?andb_false_r, ?andb_true_r.
    - destruct (Workflow.states workflow) as [| first rest]; simplify_eq/=.
      destruct row; unfold_monad; simpl.
      + by rewrite (retarget_cached_object _ _ _ _ _ Hid), Hcache.
      + rewrite <- Hcache. by destruct w0.
    - simplify_eq. unfold_monad. destruct row; simpl; rewrite <- Hcache; by destruct w0. }
  clear Htarget.
  subst wA. unfold after_writes, state_writes, update_write, doc_set. unfold_monad. simpl.
  rewrite Hpre; [| simpl; by rewrite !object_id_insert | done].
  destruct (retargeted_fields workflow transition row action w)
    as (Hu & Hd & Hb & Hc & Hm & Ht).
  cbv zeta in Hu, Hd, Hb, Hc, Hm, Ht. rewrite Hu, Hd, Hb, Hc, Hm, Ht. simpl.
  destruct (List.filter _ (Workflow.states workflow)) as [| ns' others]; simplify_eq/=.
  unfold log_event, set_doc, set_cache; simpl. rewrite <- !app_assoc; simpl.
  destruct (str_truthy (DocState.update_field ns)); simpl.
  - rewrite <- !app_assoc; simpl.
    destruct (lifecycle_operation _ _); reflexivity.
  - destruct (lifecycle_operation _ _); reflexivity.
Qed.

Lemma return_doc_world {A : Type} (m : M A) (w : World) :
  fst ((m;; w' ← get_world; mret (doc w')) w) = fst (m w).
Proof. unfold_monad. by destruct (m w) as [w' [e | a]]. Qed.

Lemma return_doc_error {A : Type} (m : M A) (w : World) (e : exn) :
  snd (m w) = inl e -> snd ((m;; w' ← get_world; mret (doc w')) w) = inl e.
Proof. unfold_monad. destruct (m w) as [w' [e' | a]]; simpl; congruence. Qed.

Lemma run_lifecycle_comment (op : LifecycleOp) (text : string) (w : World) :
  let w' := fst ((run_lifecycle op;; add_comment "Workflow" text) w) in
  trace w' = trace w ++ [EvLifecycle op]
  /\ forall f, f <> "docstatus"%string -> doc w' !! f = doc w !! f.
Proof.
  unfold run_lifecycle, add_comment. unfold_monad.
  destruct (lifecycle op (session_user w) (db w) (doc w)) as [msgs [e |]]; simpl.
  - split; [done | done].
  - split; [done |]. intros f Hf.
    destruct op; simpl; try done; by rewrite lookup_insert_ne.
Qed.

(** C1, as the code has it: in the state-advancing branch the pair
    (docstatus of the document, [doc_status] of the target state) selects the
    operation by the table (0,0) save, (0,1) submit, (1,1) save, (1,2)
    cancel, and that operation is the only lifecycle call.  For any other
    pair the run raises the illegal-status error and calls no lifecycle
    operation, so the database is untouched; the document object has by then
    already received [workflow_action], [workflow_comment], the new state and
    the target state's update field. *)
Theorem lifecycle_legality (d : Doc) (action : string)
    (transition_name possible_actions next_user action_source previous_user comment : pyval)
    (w w2 : World) (wf : Workflow.t) (t : Transition.t) (target : string) (ns : DocState.t) :
  reaches_gating d action transition_name w wf t w2 ->
  gating t action_source w2 = false ->
  target_of wf t action = Some target ->
  settings_of wf target = Some ns ->
  let writes := state_writes wf action comment target ++ update_write ns in
  let current := doc_get (written writes (doc w2)) "docstatus" in
  let new_docstatus := cint (DocState.doc_status ns) in
  let run := apply_workflow d action transition_name possible_actions next_user
                            action_source previous_user comment w in
  let pair (c n : Z) := py_num current = Some c /\ new_docstatus = n in
  (pair 0 0 -> trace (fst run) = trace w2 ++ writes ++ [EvLifecycle Save])%Z
  /\ (pair 0 1 -> trace (fst run) = trace w2 ++ writes ++ [EvLifecycle Submit])%Z
  /\ (pair 1 1 -> trace (fst run) = trace w2 ++ writes ++ [EvLifecycle Save])%Z
  /\ (pair 1 2 -> trace (fst run) = trace w2 ++ writes ++ [EvLifecycle Cancel])%Z
  /\ (~ pair 0 0 -> ~ pair 0 1 -> ~ pair 1 1 -> ~ pair 1 2 ->
      snd run = inl (Exn ValidationError
                       [("Illegal Document Status for " ++ DocState.state ns)%string])
      /\ trace (fst run) = trace w2 ++ writes
      /\ db (fst run) = db w2
      /\ committed (fst run) = committed w2
      /\ doc (fst run) = written writes (doc w2))%Z.
Proof.
  intros Hgate Hheld Htarget Hsettings writes current new_docstatus run pair.
  set (row := searched action transition_name).
  set (w2r := retargeted wf t row action w2).
  destruct (retargeted_fields wf t row action w2) as (Hwu & Hwd & Hwb & Hwc & Hwm & Hwt).
  cbv zeta in Hwu, Hwd, Hwb, Hwc, Hwm, Hwt. fold w2r in Hwu, Hwd, Hwb, Hwc, Hwm, Hwt.
  assert (Hrun : run = ((advance_state wf t row action comment);;
                        w' ← get_world; mret (doc w')) w2).
  { subst run. rewrite (apply_workflow_gating _ _ _ _ _ _ _ _ _ _ _ _ Hgate). by rewrite Hheld. }
  assert (Hadv : advance_state wf t row action comment w2
                 = match (match py_num current with
                          | Some c => legality_table c new_docstatus
                          | None => None
                          end) with
                   | Some op =>
                       (run_lifecycle op;;
                        add_comment "Workflow"
                          (DocState.state ns ++ " " ++ py_str comment)%string)
                         (after_writes writes w2r)
                   | None =>
                       (throw ("Illegal Document Status for " ++ DocState.state ns)%string
                              ValidationError) (after_writes writes w2r)
                   end).
  { rewrite (advance_state_run wf t row action comment w2 target ns Htarget Hsettings).
    cbv zeta. fold w2r writes. rewrite lifecycle_operation_table.
    unfold after_writes at 1. simpl. rewrite Hwd. reflexivity. }
  assert (Hop : forall op, (match py_num current with
                            | Some c => legality_table c new_docstatus
                            | None => None
                            end) = Some op ->
                trace (fst run) = trace w2 ++ writes ++ [EvLifecycle op]).
  { intros op Hsel. rewrite Hsel in Hadv.
    rewrite Hrun, return_doc_world, Hadv.
    destruct (run_lifecycle_comment op
                (DocState.state ns ++ " " ++ py_str comment)%string
                (after_writes writes w2r)) as [Htr _].
    rewrite Htr. simpl. by rewrite Hwt, <- app_assoc. }
  split; [| split; [| split; [| split]]];
    try (intros [Hc Hn]; apply Hop; by rewrite Hc, Hn).
  intros H00 H01 H11 H12.
  assert (Hnone : (match py_num current with
                   | Some c => legality_table c new_docstatus
                   | None => None
                   end) = None).
  { destruct (py_num current) as [c |] eqn:Hc; [| done].
    unfold legality_table. repeat case_decide; simplify_eq; try done.
    - by destruct H00.
    - by destruct H01.
    - by destruct H11.
    - by destruct H12. }
  rewrite Hnone in Hadv.
  split; [rewrite Hrun; apply return_doc_error; by rewrite Hadv |].
  rewrite Hrun, return_doc_world, Hadv. simpl. by rewrite Hwt, Hwb, Hwc, Hwd.
Qed.

(** C3: in every state-advancing run with the action Reject the state
    written to the workflow state field is the state of the workflow's first
    declared state, whatever target the resolved transition declares: the
    three writes of lines 202-207 are [workflow_action], [workflow_comment]
    and the state field with the first state; what follows is at most the
    update field of that first state and one lifecycle operation.  Unless
    that update field or [docstatus] is the state field itself, the document
    ends with the first state in its state field. *)
Theorem reject_writes_first_state (d : Doc)
    (transition_name possible_actions next_user action_source previous_user comment : pyval)
    (w w2 : World) (wf : Workflow.t) (t : Transition.t)
    (first : DocState.t) (rest : list DocState.t) :
  reaches_gating d "Reject" transition_name w wf t w2 ->
  gating t action_source w2 = false ->
  Workflow.states wf = first :: rest ->
  let run := apply_workflow d "Reject" transition_name possible_actions next_user
                            action_source previous_user comment w in
  let field := Workflow.workflow_state_field wf in
  (exists tail,
     trace (fst run)
     = trace w2 ++ [EvSet "workflow_action" (PStr "Reject");
                    EvSet "workflow_comment" comment;
                    EvSet field (PStr (DocState.state first))] ++ tail
     /\ forall e, In e tail ->
          e = EvSet (DocState.update_field first) (DocState.update_value first)
          \/ is_lifecycle e = true)
  /\ (field <> "docstatus"%string ->
      str_truthy (DocState.update_field first) = false
      \/ DocState.update_field first <> field ->
      doc_get (doc (fst run)) field = PStr (DocState.state first)).
Proof.
  intros Hgate Hheld Hstates run field.
  assert (Htarget : target_of wf t "Reject" = Some (DocState.state first)).
  { unfold target_of. simpl. by rewrite Hstates. }
  assert (Hsettings : settings_of wf (DocState.state first) = Some first).
  { unfold settings_of. rewrite Hstates. simpl. by rewrite String.eqb_refl. }
  set (row := searched "Reject" transition_name).
  assert (Hrun : run = ((advance_state wf t row "Reject" comment);;
                        w' ← get_world; mret (doc w')) w2).
  { subst run. rewrite (apply_workflow_gating _ _ _ _ _ _ _ _ _ _ _ _ Hgate). by rewrite Hheld. }
  assert (Hadv := advance_state_run wf t row "Reject" comment w2 _ _ Htarget Hsettings).
  cbv zeta in Hadv.
  destruct (retargeted_fields wf t row "Reject" w2) as (_ & _ & _ & _ & _ & Hwt).
  cbv zeta in Hwt.
  set (wA := after_writes (state_writes wf "Reject" comment (DocState.state first)
                           ++ update_write first) (retargeted wf t row "Reject" w2)) in *.
  assert (HwA : trace wA = trace w2 ++ [EvSet "workflow_action" (PStr "Reject");
                                        EvSet "workflow_comment" comment;
                                        EvSet field (PStr (DocState.state first))]
                           ++ update_write first).
  { subst wA. unfold after_writes, state_writes. simpl. by rewrite Hwt. }
  assert (Hupd : forall e, In e (update_write first) ->
                   e = EvSet (DocState.update_field first) (DocState.update_value first)).
  { unfold update_write. intros e. destruct (str_truthy _); simpl; [| done].
    by intros [<- | []]. }
  assert (HdA : field <> "docstatus"%string ->
                str_truthy (DocState.update_field first) = false
                \/ DocState.update_field first <> field ->
                doc wA !! field = Some (PStr (DocState.state first))).
  { intros _ Halias. subst wA. unfold after_writes, state_writes, update_write. simpl.
    destruct (str_truthy (DocState.update_field first)) eqn:Hu; simpl.
    - destruct Halias as [? | Hne]; [done |].
      rewrite lookup_insert_ne by done. apply lookup_insert_eq.
    - apply lookup_insert_eq. }
  rewrite Hrun, return_doc_world, Hadv. clearbody wA.
  destruct (lifecycle_operation _ _) as [op |].
  - destruct (run_lifecycle_comment op
                (DocState.state first ++ " " ++ py_str comment)%string wA) as [Htr Hdoc].
    split.
    + exists (update_write first ++ [EvLifecycle op]).
      rewrite Htr, HwA. split; [by rewrite <- !app_assoc |].
      intros e Hin. apply in_app_or in Hin as [Hin | [<- | []]]; [left; by apply Hupd | by right].
    + intros Hfield Halias. unfold doc_get.
      rewrite (Hdoc field Hfield), (HdA Hfield Halias). reflexivity.
  - rewrite throw_world. split.
    + exists (update_write first). simpl. rewrite HwA. split; [done |].
      intros e Hin. left. by apply Hupd.
    + intros Hfield Halias. unfold doc_get. simpl. by rewrite (HdA Hfield Halias).
Qed.

(** *** Frames of the prefix of [apply_workflow] *)

Lemma find_transition_world (ts : list Transition.t) (action : string) (d : Doc)
    (kept : option Transition.t) (w : World) :
  fst (find_transition ts action d kept w) = w.
Proof.
  revert kept. induction ts as [| t ts IH]; intros kept; simpl; [done |].
  unfold_monad. rewrite (evaluate_condition_eta _ d w).
  destruct (snd (evaluate_condition (Transition.condition t) d w)) as [e | v]; [done |].
  destruct (negb (truthy v)); [apply IH |].
  destruct (String.eqb (Transition.action t) action); apply IH.
Qed.

Lemma resolve_transition_site (wf : Workflow.t) (action : string) (transition_name : pyval)
    (w w' : World) (r : option Transition.t) :
  resolve_transition wf action transition_name w = (w', inr r) -> same_site w w'.
Proof.
  unfold resolve_transition.
  destruct (truthy transition_name).
  { unfold get_doc_transition. unfold_monad.
    destruct (transition_docs (db w) !! py_str transition_name); [| discriminate].
    intros [= <- <-]. apply same_site_refl. }
  destruct (String.eqb action "Start").
  { destruct (Workflow.transitions wf); [discriminate |].
    unfold_monad. intros [= <- <-]. apply same_site_refl. }
  unfold_monad.
  destruct (get_transitions (doc w) (Some wf) false w) as [w1 [e | ts]] eqn:Hts;
    [discriminate |].
  apply get_transitions_inv in Hts as [-> _].
  intros Hfind. assert (Hw := find_transition_world ts action (doc w) None w).
  rewrite Hfind in Hw. simpl in Hw. subst w'. apply same_site_refl.
Qed.

Lemma reaches_gating_site (d : Doc) (action : string) (transition_name : pyval)
    (w w2 : World) (wf : Workflow.t) (t : Transition.t) :
  reaches_gating d action transition_name w wf t w2 ->
  session_user w2 = session_user w /\ doc w2 = d /\ db w2 = db w
  /\ committed w2 = committed w /\ trace w2 = trace w.
Proof.
  intros (_ & (w1 & Hwf & Hres) & _).
  apply get_workflow_site in Hwf as (Hu1 & Hd1 & Hb1 & Hc1 & Ht1).
  apply resolve_transition_site in Hres as (Hu2 & Hd2 & Hb2 & Hc2 & Ht2).
  simpl in *. repeat split; congruence.
Qed.

(** A transition found by the search leaves the document's current state. *)
Lemma searched_transition_source (d : Doc) (action : string) (transition_name : pyval)
    (w w2 : World) (wf : Workflow.t) (t : Transition.t) :
  reaches_gating d action transition_name w wf t w2 ->
  truthy transition_name = false ->
  String.eqb action "Start" = false ->
  doc_get d (Workflow.workflow_state_field wf) = PStr (Transition.state t).
Proof.
  intros (_ & (w1 & Hwf & Hres) & _) Hname Hstart.
  apply get_workflow_site in Hwf as (_ & Hd1 & _). simpl in Hd1.
  unfold resolve_transition in Hres. rewrite Hname, Hstart in Hres.
  unfold_monad. rewrite Hd1 in Hres.
  destruct (get_transitions d (Some wf) false w1) as [w1' [e | ts]] eqn:Hts; [discriminate |].
  apply get_transitions_inv in Hts as [-> Hall].
  assert (Hcond : forall t', In t' ts -> condition_holds (Transition.condition t') d w1 = true)
    by (intros t' Hin; by destruct (Hall t' Hin) as (_ & _ & ?)).
  rewrite (find_transition_last d action w1 ts None Hcond) in Hres.
  destruct (last _) as [t' |] eqn:Hlast; [| discriminate].
  injection Hres as _ ->.
  apply last_Some_elem_of, list_elem_of_In, filter_In in Hlast as [Hin _].
  by destruct (Hall t Hin) as (_ & ? & _).
Qed.

(** *** The two branches after the gating step *)

Lemma hold_state_run (wf : Workflow.t) (action : string)
    (possible_actions action_source previous_user comment : pyval) (w : World) :
  let r := hold_state wf action possible_actions action_source previous_user comment w in
  snd r = inr tt
  /\ session_user (fst r) = session_user w /\ doc (fst r) = doc w
  /\ trace (fst r) = trace w /\ message_log (fst r) = message_log w
  /\ exists extra,
       actions (db (fst r))
       = List.map (fun a => if own_open_action (doc w) (session_user w) a
                            then complete a else a) (actions (db w)) ++ extra
       /\ (is_pre_check_action action_source && truthy previous_user = false -> extra = [])
       /\ forall a, In a extra -> Action.status a = "Open"%string.
Proof.
  unfold hold_state, update_completed_workflow_actions, add_comment,
    create_workflow_actions. unfold_monad. simpl.
  destruct (is_pre_check_action action_source && truthy previous_user); simpl.
  - repeat split. eexists. split; [reflexivity |]. split; [done |].
    by intros a [<- | []].
  - repeat split. exists []. rewrite app_nil_r. by repeat split.
Qed.

Lemma advance_state_trace (wf : Workflow.t) (t : Transition.t) (row : bool)
    (action : string) (comment : pyval) (w : World) (target : string) :
  target_of wf t action = Some target ->
  exists tail,
    trace (fst (advance_state wf t row action comment w))
    = trace w ++ state_writes wf action comment target ++ tail.
Proof.
  intros Htarget.
  destruct (retargeted_fields wf t row action w) as (_ & _ & _ & _ & _ & Hwt).
  cbv zeta in Hwt.
  destruct (settings_of wf target) as [ns |] eqn:Hsettings.
  - rewrite (advance_state_run wf t row action comment w target ns Htarget Hsettings).
    cbv zeta. destruct (lifecycle_operation _ _) as [op |].
    + destruct (run_lifecycle_comment op
                  (DocState.state ns ++ " " ++ py_str comment)%string
                  (after_writes (state_writes wf action comment target ++ update_write ns)
                                (retargeted wf t row action w)))
        as [Htr _].
      rewrite Htr. simpl. rewrite Hwt. exists (update_write ns ++ [EvLifecycle op]).
      by rewrite <- !app_assoc.
    + rewrite throw_world. simpl. rewrite Hwt. exists (update_write ns).
      by rewrite <- ?app_assoc.
  - exists []. unfold advance_state, target_of, settings_of in *.
    unfold doc_set, state_writes. unfold_monad. simpl.
    destruct (String.eqb action "Reject").
    + destruct (Workflow.states wf) as [| first others] eqn:Hstates; simplify_eq/=.
      destruct row; simpl;
        (destruct (String.eqb (DocState.state first) (DocState.state first));
         [discriminate |]);
        destruct (List.filter _ others); [| discriminate | | discriminate];
        simpl; by rewrite <- ?app_assoc.
    + simplify_eq. simpl.
      destruct (List.filter _ (Workflow.states wf)); [| discriminate].
      simpl. by rewrite <- ?app_assoc.
Qed.

(** C2, as the code has it: take a run that is not Forward or Add
    Additional Check, whose transition is resolved and authorized and has
    mode All, and count the not-completed actions of other users filed under
    the transition's SOURCE state (which is the document's current state
    when the transition was found by the search, but need not be for an
    explicit transition).  If the count is positive the document is returned
    untouched, nothing is written and no lifecycle operation runs, and in the
    ledger only open actions of the acting user become Completed (a pre-check
    with a previous user also files one new Open action).  If the count is
    zero and the run is not a pre-check the state field is written: with the
    transition's target, or with the workflow's first state when the action
    is Reject. *)
Theorem all_mode_gating (d : Doc) (action : string)
    (transition_name possible_actions next_user action_source previous_user comment : pyval)
    (w w2 : World) (wf : Workflow.t) (t : Transition.t) :
  reaches_gating d action transition_name w wf t w2 ->
  Transition.multi_user_action_mode t = "All"%string ->
  let user := session_user w in
  let others := other_open_count d (Transition.state t) user (db w) in
  let run := apply_workflow d action transition_name possible_actions next_user
                            action_source previous_user comment w in
  let field := Workflow.workflow_state_field wf in
  ((0 < others)%Z ->
     snd run = inr d /\ doc (fst run) = d /\ trace (fst run) = trace w
     /\ (exists extra,
          actions (db (fst run))
          = List.map (fun a => if own_open_action d user a then complete a else a)
                     (actions (db w)) ++ extra
          /\ (is_pre_check_action action_source && truthy previous_user = false -> extra = [])
          /\ forall a, In a extra -> Action.status a = "Open"%string)
     /\ (forall a, In a (actions (db w)) -> Action.user a <> user ->
          In a (actions (db (fst run)))))
  /\ (others = 0%Z -> is_pre_check_action action_source = false ->
      (String.eqb action "Reject" = false ->
       exists tail, trace (fst run)
                    = trace w ++ [EvSet "workflow_action" (PStr action);
                                  EvSet "workflow_comment" comment;
                                  EvSet field (PStr (Transition.next_state t))] ++ tail)
      /\ (forall first rest,
            action = "Reject"%string -> Workflow.states wf = first :: rest ->
            exists tail, trace (fst run)
                         = trace w ++ [EvSet "workflow_action" (PStr action);
                                       EvSet "workflow_comment" comment;
                                       EvSet field (PStr (DocState.state first))] ++ tail))
  /\ (truthy transition_name = false -> String.eqb action "Start" = false ->
      doc_get d field = PStr (Transition.state t)).
Proof.
  intros Hgate Hmode user others run field.
  destruct (reaches_gating_site _ _ _ _ _ _ _ Hgate) as (Hu & Hd & Hb & Hc & Ht).
  assert (Hrun := apply_workflow_gating d action transition_name possible_actions next_user
                    action_source previous_user comment w w2 wf t Hgate).
  fold run in Hrun.
  assert (Hheld : gating t action_source w2
                  = (0 <? others)%Z || is_pre_check_action action_source).
  { unfold gating. rewrite Hmode, Hu, Hd, Hb. reflexivity. }
  rewrite Hheld in Hrun.
  split; [| split].
  - intros Hpos. apply Z.ltb_lt in Hpos. rewrite Hpos in Hrun. simpl in Hrun.
    destruct (hold_state_run wf action possible_actions action_source previous_user
                comment w2) as (Hok & Hhu & Hhd & Hht & _ & extra & Hact & Hextra & Hopen).
    assert (Hfst : fst run = fst (hold_state wf action possible_actions action_source
                                     previous_user comment w2))
      by (rewrite Hrun; apply return_doc_world).
    assert (Hsnd : snd run = inr d).
    { rewrite Hrun. unfold_monad.
      destruct (hold_state wf action possible_actions action_source previous_user
                  comment w2) as [w' [e | []]]; simpl in *; [discriminate |].
      by rewrite Hhd, Hd. }
    rewrite Hfst, Hhd, Hht, Hact, Hd, Hu, Hb, Ht.
    split; [exact Hsnd |]. split; [done |]. split; [done |]. split.
    + exists extra. by repeat split.
    + intros a Hin Hother. apply in_or_app. left.
      apply in_map_iff. exists a. split; [| done].
      unfold own_open_action. fold user.
      destruct (String.eqb_spec (Action.user a) user) as [Heq | _]; [done |].
      by rewrite andb_false_r.
  - intros Hzero Hpre. rewrite Hzero, Hpre in Hrun. simpl in Hrun.
    assert (Hfst : fst run = fst (advance_state wf t (searched action transition_name)
                                                action comment w2))
      by (rewrite Hrun; apply return_doc_world).
    rewrite Hfst, <- Ht. split.
    + intros Hrej. apply (advance_state_trace wf t _ action comment w2).
      unfold target_of. by rewrite Hrej.
    + intros first rest -> Hstates.
      apply (advance_state_trace wf t _ "Reject" comment w2).
      unfold target_of. simpl. by rewrite Hstates.
  - by apply (searched_transition_source d action transition_name w w2 wf t).
Qed.

(** *** Nothing below the bulk executor commits or rolls back *)

Lemma no_tx_ret {A : Type} (a : A) : no_tx (mret a).
Proof. by intros w. Qed.

Lemma no_tx_raise {A : Type} (e : exn) : no_tx (raise (A := A) e).
Proof. by intros w. Qed.

Lemma no_tx_get : no_tx get_world.
Proof. by intros w. Qed.

Lemma no_tx_bind {A B : Type} (m : M A) (k : A -> M B) :
  no_tx m -> (forall a, no_tx (k a)) -> no_tx (m ≫= k).
Proof.
  intros Hm Hk w. unfold_monad. specialize (Hm w).
  destruct (m w) as [w' [e | a]]; simpl in *; [done |].
  by rewrite (Hk a w').
Qed.

Lemma no_tx_modify (f : World -> World) :
  (forall w, List.filter is_tx (trace (f w)) = List.filter is_tx (trace w)) ->
  no_tx (modify f).
Proof. intros Hf w. apply Hf. Qed.

Lemma no_tx_throw {A : Type} (msg : string) (c : exn_class) : no_tx (throw (A := A) msg c).
Proof. by intros w. Qed.

Lemma no_tx_same_site {A : Type} (m : M A) :
  (forall w w' r, m w = (w', r) -> same_site w w') -> no_tx m.
Proof.
  intros Hm w. destruct (m w) as [w' r] eqn:Hrun.
  destruct (Hm _ _ _ Hrun) as (_ & _ & _ & _ & Ht). simpl. by rewrite Ht.
Qed.

Lemma no_tx_world {A : Type} (m : M A) : (forall w, fst (m w) = w) -> no_tx m.
Proof. intros Hm w. by rewrite Hm. Qed.

Lemma no_tx_event (e : Event) (f : World -> World) :
  is_tx e = false -> (forall w, trace (f w) = trace w) ->
  no_tx (modify (fun w => log_event e (f w))).
Proof.
  intros He Hf. apply no_tx_modify. intros w. simpl.
  rewrite List.filter_app, Hf. simpl. rewrite He. apply app_nil_r.
Qed.

Ltac no_tx_step :=
  match goal with
  | |- no_tx (mret _) => apply no_tx_ret
  | |- no_tx (raise _) => apply no_tx_raise
  | |- no_tx (throw _ _) => apply no_tx_throw
  | |- no_tx get_world => apply no_tx_get
  | |- no_tx (_ ≫= _) => apply no_tx_bind; [| intros ?]
  | |- no_tx (if ?b then _ else _) => destruct b
  | |- no_tx (match ?x with _ => _ end) => destruct x
  | |- no_tx (modify _) => apply no_tx_modify; intros ?; reflexivity
  end.

Lemma no_tx_evaluate_condition (condition : string) (d : Doc) :
  no_tx (evaluate_condition condition d).
Proof. apply no_tx_world. apply evaluate_condition_world. Qed.

Lemma no_tx_get_workflow (d : Doc) : no_tx (get_workflow d).
Proof. apply no_tx_same_site. apply get_workflow_site. Qed.

Lemma no_tx_get_transitions_loop (ts : list Transition.t) (current_state : pyval) (d : Doc)
    (acc : list Transition.t) :
  no_tx (get_transitions_loop ts current_state d acc).
Proof.
  revert acc. induction ts as [| t ts IH]; intros acc; simpl; [apply no_tx_ret |].
  destruct (py_eq _ _); [| apply IH].
  apply no_tx_bind; [apply no_tx_evaluate_condition |].
  intros r. destruct (negb (truthy r)); apply IH.
Qed.

Lemma no_tx_get_transitions (d : Doc) (workflow : option Workflow.t) (raise_exception : bool) :
  no_tx (get_transitions d workflow raise_exception).
Proof.
  unfold get_transitions, check_read_permission.
  repeat first [apply no_tx_get_workflow | apply no_tx_get_transitions_loop | no_tx_step].
Qed.

Lemma no_tx_resolve_transition (wf : Workflow.t) (action : string) (transition_name : pyval) :
  no_tx (resolve_transition wf action transition_name).
Proof.
  unfold resolve_transition, get_doc_transition.
  repeat first [apply no_tx_get_transitions
               | apply no_tx_world; intros ?; apply find_transition_world
               | no_tx_step].
Qed.

Lemma no_tx_doc_set (f : string) (v : pyval) : no_tx (doc_set f v).
Proof. unfold doc_set. by apply no_tx_event. Qed.

Lemma no_tx_run_lifecycle (op : LifecycleOp) : no_tx (run_lifecycle op).
Proof.
  intros w. unfold run_lifecycle.
  destruct (lifecycle op (session_user w) (db w) (doc w)) as [msgs [e |]]; simpl;
    rewrite List.filter_app; simpl; apply app_nil_r.
Qed.

Lemma no_tx_advance_state (wf : Workflow.t) (t : Transition.t) (row : bool)
    (action : string) (comment : pyval) :
  no_tx (advance_state wf t row action comment).
Proof.
  unfold advance_state, add_comment.
  repeat first [apply no_tx_doc_set | apply no_tx_run_lifecycle | no_tx_step].
Qed.

Lemma no_tx_hold_state (wf : Workflow.t) (action : string)
    (possible_actions action_source previous_user comment : pyval) :
  no_tx (hold_state wf action possible_actions action_source previous_user comment).
Proof.
  intros w.
  destruct (hold_state_run wf action possible_actions action_source previous_user comment w)
    as (_ & _ & _ & Ht & _).
  by rewrite Ht.
Qed.

Lemma no_tx_apply_workflow (d : Doc) (action : string)
    (transition_name possible_actions next_user action_source previous_user comment : pyval) :
  no_tx (apply_workflow d action transition_name possible_actions next_user action_source
                        previous_user comment).
Proof.
  unfold apply_workflow, execute_transition, forward_action,
    update_completed_workflow_actions, create_workflow_actions, add_comment.
  repeat first [apply no_tx_get_workflow | apply no_tx_resolve_transition
               | apply no_tx_hold_state | apply no_tx_advance_state
               | apply no_tx_world; intros ?; rewrite state_is_held_gating; reflexivity
               | no_tx_step].
Qed.

(** ** Bulk executor *)

Lemma removelast_all {A : Type} (l : list A) : Nat.iter (length l) (@removelast A) l = [].
Proof.
  induction l as [| x l IH] using rev_ind; [done |].
  rewrite length_app, Nat.add_comm.
  change (1 + length l)%nat with (S (length l)).
  by rewrite Nat.iter_succ_r, removelast_last.
Qed.

Lemma classify_messages_run (messages : list Msg) (docname : string)
    (failed successful : list (string * list Entry)) (w : World) :
  classify_messages messages docname failed successful w
  = (set_message_log (Nat.iter (length messages) (@removelast Msg) (message_log w)) w,
     inr (classified messages docname (failed, successful))).
Proof.
  revert failed successful w.
  induction messages as [| m messages IH]; intros failed successful w; simpl.
  - unfold_monad. by destruct w.
  - unfold_monad. simpl.
    destruct (raise_exception m); rewrite IH; simpl; by rewrite <- Nat.iter_succ_r.
Qed.

Lemma bulk_finally_run (docname : string) (failed successful : list (string * list Entry))
    (w : World) :
  bulk_finally docname false failed successful w
  = (set_message_log [] w,
     inr (match message_log w with
          | [] => (failed, report_append docname (mkEntry docname None) successful)
          | messages => classified messages docname (failed, successful)
          end)).
Proof.
  unfold bulk_finally. unfold_monad.
  destruct (message_log w) as [| m l] eqn:Hlog.
  - destruct w; simpl in *; by subst.
  - by rewrite classify_messages_run, Hlog, removelast_all.
Qed.

Lemma no_tx_bulk_prefix (docnames : list string) (doctype action : string)
    (transition : pyval) (idx : nat) (docname : string) :
  no_tx (show_progress docnames ("Applying: " ++ action)%string idx docname;;
         d ← get_doc (PStr doctype) (PStr docname);
         apply_workflow d action transition PNone PNone PNone PNone PNone).
Proof.
  unfold show_progress, get_doc.
  repeat first [apply no_tx_apply_workflow | by apply (no_tx_event _ (fun w => w)) | no_tx_step].
Qed.

Lemma bulk_try_assoc (docnames : list string) (doctype action : string)
    (transition : pyval) (idx : nat) (docname : string) (w : World) :
  bulk_try docnames doctype action transition idx docname w
  = ((show_progress docnames ("Applying: " ++ action)%string idx docname;;
      d ← get_doc (PStr doctype) (PStr docname);
      apply_workflow d action transition PNone PNone PNone PNone PNone);;
     db_commit) w.
Proof.
  unfold bulk_try. unfold_monad.
  destruct (show_progress _ _ _ _ w) as [w0 [e | []]]; [done |].
  destruct (get_doc _ _ w0) as [w1 [e | d]]; [done |].
  by destruct (apply_workflow _ _ _ _ _ _ _ _ w1) as [w2 [e | d']].
Qed.

Lemma bulk_try_tx (docnames : list string) (doctype action : string)
    (transition : pyval) (idx : nat) (docname : string) (w : World) :
  let r := bulk_try docnames doctype action transition idx docname w in
  List.filter is_tx (trace (fst r))
  = List.filter is_tx (trace w) ++ match snd r with inr _ => [EvCommit] | inl _ => [] end.
Proof.
  cbv zeta. rewrite bulk_try_assoc.
  set (prefix := (show_progress docnames ("Applying: " ++ action)%string idx docname;;
                  d ← get_doc (PStr doctype) (PStr docname);
                  apply_workflow d action transition PNone PNone PNone PNone PNone)).
  assert (Hpre := no_tx_bulk_prefix docnames doctype action transition idx docname w).
  fold prefix in Hpre.
  change ((prefix;; db_commit) w)
    with (match prefix w with
          | (w', inr _) => db_commit w'
          | (w', inl e) => (w', inl e)
          end).
  destruct (prefix w) as [w' [e | d]]; simpl in *.
  - by rewrite Hpre, app_nil_r.
  - rewrite List.filter_app, Hpre. reflexivity.
Qed.

Lemma set_message_log_id (w : World) : message_log w = [] -> set_message_log [] w = w.
Proof. destruct w; simpl; by intros ->. Qed.

(** One round never raises, leaves the message log empty, and logs exactly
    one commit or one rollback. *)
Lemma bulk_item_run (docnames : list string) (doctype action : string) (transition : pyval)
    (idx : nat) (docname : string) (w : World) :
  exists w',
    (forall failed successful,
       bulk_item docnames doctype action transition idx docname failed successful w
       = (w', inr (round_report (round_of docnames doctype action transition idx docname w)
                                (failed, successful))))
    /\ message_log w' = []
    /\ List.filter is_tx (trace w')
       = List.filter is_tx (trace w)
         ++ [tx_of (round_of docnames doctype action transition idx docname w)].
Proof.
  assert (Htx := bulk_try_tx docnames doctype action transition idx docname w).
  cbv zeta in Htx. unfold bulk_item, round_of, tx_of, round_ok, round_report. simpl.
  destruct (bulk_try docnames doctype action transition idx docname w) as [w1 [e | []]];
    simpl in *.
  - set (w2 := log_event (EvLogError (error_title action doctype docname))
                 (set_db (set_error_logs
                            (error_logs (committed w1)
                             ++ [error_title action doctype docname])
                            (committed w1))
                         (log_event EvRollback (set_db (committed w1) w1)))).
    exists (set_message_log [] w2). split; [| split].
    + intros failed successful. unfold db_rollback, log_error. unfold_monad. simpl.
      fold w2. case_bool_decide as Hlog.
      * rewrite Hlog. rewrite set_message_log_id by done. reflexivity.
      * rewrite bulk_finally_run.
        change (message_log w2) with (message_log w1).
        by destruct (message_log w1).
    + reflexivity.
    + simpl. rewrite !List.filter_app, Htx. simpl. by rewrite !app_nil_r.
  - exists (set_message_log [] w1). split; [| split].
    + intros failed successful.
      change (bulk_finally docname false failed successful w1 = 
              (set_message_log [] w1,
               inr (round_report (mkRound docname None (message_log w1))
                                 (failed, successful)))).
      rewrite bulk_finally_run. unfold round_report. simpl.
      by destruct (message_log w1).
    + reflexivity.
    + simpl. by rewrite Htx.
Qed.

Lemma bulk_loop_run (docnames : list string) (doctype action : string) (transition : pyval)
    (todo : list string) (idx : nat) (failed successful : list (string * list Entry))
    (w : World) :
  message_log w = [] ->
  exists w',
    bulk_loop docnames doctype action transition idx todo failed successful w
    = (w', inr (fold_left (fun acc r => round_report r acc)
                          (bulk_rounds docnames doctype action transition idx todo w)
                          (failed, successful)))
    /\ message_log w' = []
    /\ List.filter is_tx (trace w')
       = List.filter is_tx (trace w)
         ++ List.map tx_of (bulk_rounds docnames doctype action transition idx todo w).
Proof.
  revert idx failed successful w.
  induction todo as [| docname todo IH]; intros idx failed successful w Hlog; simpl.
  - exists w. unfold_monad. by rewrite app_nil_r.
  - destruct (bulk_item_run docnames doctype action transition idx docname w)
      as (w1 & Hitem & Hlog1 & Htx1).
    unfold_monad. rewrite (Hitem failed successful), (Hitem [] []). simpl.
    destruct (IH (S idx)
                 (fst (round_report (round_of docnames doctype action transition idx docname w)
                                    (failed, successful)))
                 (snd (round_report (round_of docnames doctype action transition idx docname w)
                                    (failed, successful)))
                 w1 Hlog1) as (w' & Hloop & Hlog' & Htx').
    exists w'. rewrite Hloop, <- surjective_pairing. split; [done |]. split; [done |].
    by rewrite Htx', Htx1, <- app_assoc.
Qed.

Lemma bulk_rounds_docnames (docnames : list string) (doctype action : string)
    (transition : pyval) (todo : list string) (idx : nat) (w : World) :
  List.map round_docname (bulk_rounds docnames doctype action transition idx todo w) = todo.
Proof.
  revert idx w. induction todo as [| docname todo IH]; intros idx w; simpl; [done |].
  by rewrite IH.
Qed.

(** *** Which documents the two dictionaries list *)

Lemma report_append_keys (k k' : string) (e : Entry) (r : list (string * list Entry)) :
  In k' (List.map fst (report_append k e r)) <-> k' = k \/ In k' (List.map fst r).
Proof.
  induction r as [| [k0 l] r IH]; simpl.
  - intuition.
  - destruct (String.eqb_spec k0 k) as [-> | Hne]; simpl; [intuition |].
    rewrite IH. intuition.
Qed.

Lemma classified_keys (messages : list Msg) (docname k : string)
    (failed successful : list (string * list Entry)) :
  (In k (List.map fst (fst (classified messages docname (failed, successful))))
   <-> In k (List.map fst failed)
       \/ (k = docname /\ existsb raise_exception messages = true))
  /\ (In k (List.map fst (snd (classified messages docname (failed, successful))))
      <-> In k (List.map fst successful)
          \/ (k = docname /\ existsb (fun m => negb (raise_exception m)) messages = true)).
Proof.
  revert failed successful.
  induction messages as [| m messages IH]; intros failed successful; simpl.
  - split; split; intuition congruence.
  - destruct (raise_exception m); simpl;
      destruct (IH (report_append docname (mkEntry docname (Some (message m))) failed)
                   successful) as [IHf1 IHs1];
      destruct (IH failed
                   (report_append docname (mkEntry docname (Some (message m))) successful))
        as [IHf2 IHs2].
    + rewrite IHf1, IHs1, report_append_keys. split; split; intuition.
    + rewrite IHf2, IHs2, report_append_keys. split; split; intuition.
Qed.

Lemma round_report_keys (r : Round) (k : string)
    (failed successful : list (string * list Entry)) :
  (In k (List.map fst (fst (round_report r (failed, successful))))
   <-> In k (List.map fst failed) \/ (k = round_docname r /\ reports_failure r = true))
  /\ (In k (List.map fst (snd (round_report r (failed, successful))))
      <-> In k (List.map fst successful)
          \/ (k = round_docname r /\ reports_success r = true)).
Proof.
  unfold round_report, reports_failure, reports_success, round_ok.
  destruct (round_messages r) as [| m l] eqn:Hmsgs.
  - destruct (round_error r); simpl; rewrite report_append_keys;
      split; split; intuition congruence.
  - apply (classified_keys (m :: l)).
Qed.

Lemma rounds_report_keys (rounds : list Round) (k : string)
    (failed successful : list (string * list Entry)) :
  let reports := fold_left (fun acc r => round_report r acc) rounds (failed, successful) in
  (In k (List.map fst (fst reports))
   <-> In k (List.map fst failed)
       \/ exists r, In r rounds /\ k = round_docname r /\ reports_failure r = true)
  /\ (In k (List.map fst (snd reports))
      <-> In k (List.map fst successful)
          \/ exists r, In r rounds /\ k = round_docname r /\ reports_success r = true).
Proof.
  revert failed successful.
  induction rounds as [| r rounds IH]; intros failed successful; simpl.
  - split; split; try tauto; intros [? | (? & [] & _)]; done.
  - destruct (round_report r (failed, successful)) as [f1 s1] eqn:Hr.
    destruct (IH f1 s1) as [IHf IHs]. simpl in IHf, IHs.
    destruct (round_report_keys r k failed successful) as [Hf Hs].
    rewrite Hr in Hf, Hs. simpl in Hf, Hs.
    rewrite IHf, IHs, Hf, Hs. split; split.
    + intros [[? | ?] | (r' & ? & ?)]; [by left | right; exists r; by split; [left |]
                                       | right; exists r'; by split; [right |]].
    + intros [? | (r' & [<- | ?] & ?)]; [by left; left | by left; right
                                         | right; exists r'; by split].
    + intros [[? | ?] | (r' & ? & ?)]; [by left | right; exists r; by split; [left |]
                                       | right; exists r'; by split; [right |]].
    + intros [? | (r' & [<- | ?] & ?)]; [by left; left | by left; right
                                         | right; exists r'; by split].
Qed.





(** *** The whole batch *)

Lemma bulk_workflow_approval_run (docnames : list string) (doctype action : string)
    (transition : pyval) (w : World) :
  let rounds := bulk_rounds docnames doctype action transition 1 docnames
                            (set_message_log [] w) in
  exists w' failed successful,
    bulk_loop docnames doctype action transition 1 docnames [] [] (set_message_log [] w)
    = (w', inr (failed, successful))
    /\ (failed, successful) = fold_left (fun acc r => round_report r acc) rounds ([], [])
    /\ snd (bulk_workflow_approval docnames doctype action transition w) = inr tt
    /\ trace (fst (bulk_workflow_approval docnames doctype action transition w)) = trace w'
    /\ List.filter is_tx (trace w') = List.filter is_tx (trace w) ++ List.map tx_of rounds
    /\ report_messages doctype failed successful
         (message_log (fst (bulk_workflow_approval docnames doctype action transition w))).
Proof.
  intros rounds.
  destruct (bulk_loop_run docnames doctype action transition docnames 1 [] []
              (set_message_log [] w) eq_refl) as (w' & Hloop & Hlog & Htx).
  fold rounds in Hloop, Htx.
  destruct (fold_left (fun acc r => round_report r acc) rounds ([], []))
    as [failed successful] eqn:Hreports.
  exists w', failed, successful.
  split; [exact Hloop |]. split; [done |].
  unfold bulk_workflow_approval, report_messages. unfold_monad.
  change (modify (set_message_log []) w) with (set_message_log [] w, inr tt : exn + unit).
  simpl. rewrite Hloop. simpl. unfold print_workflow_log. unfold_monad.
  destruct failed as [| f0 failed], successful as [| s0 successful]; simpl;
    rewrite ?Hlog; by repeat split.
Qed.





(** *** What the two dictionaries hold *)









(** C10: [bulk_workflow_approval] clears the pending message log before it
    looks at any item: started with whatever messages pending, the run is the
    run started with an empty log, and the log it leaves holds nothing but
    the report it printed (at most the two messages titled Workflow
    Status). *)
Theorem bulk_clears_message_log (docnames : list string) (doctype action : string)
    (transition : pyval) (w : World) (pending : list Msg) :
  bulk_workflow_approval docnames doctype action transition (set_message_log pending w)
  = bulk_workflow_approval docnames doctype action transition (set_message_log [] w)
  /\ Forall (fun m => title m = "Workflow Status"%string /\ raise_exception m = false)
            (message_log (fst (bulk_workflow_approval docnames doctype action transition
                                 (set_message_log pending w))))
  /\ (length (message_log (fst (bulk_workflow_approval docnames doctype action transition
                                  (set_message_log pending w)))) <= 2)%nat.
Proof.
  split; [reflexivity |].
  destruct (bulk_workflow_approval_run docnames doctype action transition
              (set_message_log pending w))
    as (w' & failed & successful & _ & _ & _ & _ & _ & Hmsgs).
  rewrite Hmsgs.
  destruct (nonempty failed), (nonempty successful); simpl; split; repeat constructor.
Qed.

Lemma filter_all_hold {A : Type} (f g : A -> bool) (l : list A) :
  (forall x, In x l -> g x = true) ->
  List.filter (fun x => f x && g x) l = List.filter f l.
Proof.
  intros Hg. apply List.filter_ext_in. intros x Hin.
  rewrite (Hg x Hin). apply andb_true_r.
Qed.

(** C4, as the code has it: without an explicit transition and for an
    action other than Start, the effective transition is the LAST one, in
    the order of [get_transitions], whose action label is the requested one
    and whose condition holds (the search loop has no [break]); when none
    matches [WorkflowTransitionError] is raised.  The transition the run
    goes on with is a row of the workflow. *)
Theorem apply_workflow_last_match (d : Doc) (action : string)
    (transition_name possible_actions next_user action_source previous_user comment : pyval)
    (w w1 w1' : World) (wf : Workflow.t) (ts : list Transition.t) :
  (String.eqb action "Forward" || String.eqb action "Add Additional Check") = false ->
  truthy transition_name = false ->
  String.eqb action "Start" = false ->
  get_workflow d (set_doc d w) = (w1, inr (Some wf)) ->
  get_transitions d (Some wf) false w1 = (w1', inr ts) ->
  let matching :=
    List.filter (fun t => String.eqb (Transition.action t) action
                          && condition_holds (Transition.condition t) d w1) ts in
  resolve_transition wf action transition_name w1 = (w1, inr (last matching))
  /\ apply_workflow d action transition_name possible_actions next_user action_source
                    previous_user comment w
     = execute_transition wf (last matching) true action possible_actions action_source
                          previous_user comment w1
  /\ (matching = [] ->
      snd (apply_workflow d action transition_name possible_actions next_user
                          action_source previous_user comment w)
      = inl (Exn WorkflowTransitionError ["Not a valid Workflow Action"])).
Proof.
  intros Hact Hname Hstart Hwf Hts matching.
  assert (Hdoc : doc w1 = d).
  { apply get_workflow_site in Hwf as (_ & Hd & _). exact Hd. }
  destruct (get_transitions_inv _ _ _ _ _ _ Hts) as [-> Hall].
  assert (Hcond : forall t, In t ts -> condition_holds (Transition.condition t) d w1 = true)
    by (intros t Hin; by destruct (Hall t Hin) as (_ & _ & ?)).
  assert (Hres : resolve_transition wf action transition_name w1 = (w1, inr (last matching))).
  { unfold resolve_transition. rewrite Hname, Hstart. unfold_monad.
    rewrite Hdoc, Hts, (find_transition_last d action w1 ts None Hcond).
    subst matching. rewrite (filter_all_hold _ _ _ Hcond). by destruct (last _). }
  assert (Hrun : apply_workflow d action transition_name possible_actions next_user
                   action_source previous_user comment w
                 = execute_transition wf (last matching) true action possible_actions
                     action_source previous_user comment w1).
  { unfold apply_workflow, searched. unfold_monad. simpl.
    by rewrite Hwf, Hact, Hres, Hname, Hstart. }
  split; [exact Hres | split; [exact Hrun |]].
  intros Hnone. rewrite Hrun, Hnone. reflexivity.
Qed.

(** C5, as the code has it: for the action Start without an explicit
    transition the synthesized transition allows self-approval, has mode Any,
    and leads into the SOURCE state ([.state]) of the workflow's first
    declared transition.  The transition the run goes on with is an object of
    its own, not a row of the workflow. *)
Theorem start_enters_first_source (d : Doc)
    (transition_name possible_actions next_user action_source previous_user comment : pyval)
    (w w1 : World) (wf : Workflow.t) (first : Transition.t) (rest : list Transition.t) :
  truthy transition_name = false ->
  Workflow.transitions wf = first :: rest ->
  get_workflow d (set_doc d w) = (w1, inr (Some wf)) ->
  exists t,
    resolve_transition wf "Start" transition_name w1 = (w1, inr (Some t))
    /\ Transition.next_state t = Transition.state first
    /\ Transition.multi_user_action_mode t = "Any"%string
    /\ Transition.allow_self_approval t = 1%Z
    /\ (forall user d', has_approval_access user d' t = true)
    /\ apply_workflow d "Start" transition_name possible_actions next_user action_source
                      previous_user comment w
       = execute_transition wf (Some t) false "Start" possible_actions action_source
                            previous_user comment w1.
Proof.
  intros Hname Hfirst Hwf. exists (start_transition first).
  assert (Hres : resolve_transition wf "Start" transition_name w1
                 = (w1, inr (Some (start_transition first)))).
  { unfold resolve_transition. by rewrite Hname, Hfirst. }
  repeat split; try done.
  - intros user d'. unfold has_approval_access. simpl. by rewrite orb_true_r.
  - unfold apply_workflow, searched. unfold_monad. simpl.
    by rewrite Hwf, Hres, andb_false_r.
Qed.

End Properties.

(** ** Examples on the concrete site *)

Section Examples.
Import Demo.

Lemma get_transitions_new_witness :
  get_transitions (H := quiet) alice_unsaved None false (site "alice" (database [] []))
  = (site "alice" (database [] []), inr []).
Proof. apply (get_transitions_new (H := quiet)). vm_compute. reflexivity. Defined.

Lemma get_transitions_exact_witness :
  get_transitions (H := quiet) alice_urgent (Some conditional_approval) false
    (site "bob" (database [alice_urgent] []))
  = (site "bob" (database [alice_urgent] []), inr [submit_for_review; rush; withdraw]).
Proof.
  destruct (get_transitions_exact (H := quiet) alice_urgent (Some conditional_approval)
              conditional_approval false (site "bob" (database [alice_urgent] []))
              (site "bob" (database [alice_urgent] [])))
    as (result & Hrun & Hres & _).
  - vm_compute. reflexivity.
  - reflexivity.
  - left. split; reflexivity.
  - vm_compute. reflexivity.
  - intros t Hin _. simpl in Hin.
    destruct Hin as [<- | [<- | [<- | [<- | [<- | [<- | []]]]]]];
      eexists; vm_compute; reflexivity.
  - rewrite Hrun, Hres. vm_compute. reflexivity.
Defined.

(** *** The scenario of the specification

    Alice submits her draft for review: the state becomes Review and the
    document is saved.  Bob approves while Carol's action is still open: his
    action is completed and the state stays Review.  Carol then approves with
    no other action open: the state becomes Approved and the document is
    submitted. *)
Example scenario_submit_for_review :
  let run := apply_workflow (H := quiet) alice_draft "Submit for Review"
               PNone PNone PNone PNone PNone PNone
               (site "alice" (database [alice_draft] [])) in
  doc_get (doc (fst run)) "workflow_state" = PStr "Review"
  /\ doc_get (doc (fst run)) "docstatus" = PInt 0
  /\ List.filter is_lifecycle (trace (fst run)) = [EvLifecycle Save].
Proof. cbv zeta. repeat split; vm_compute; reflexivity. Qed.

Example scenario_parallel_approval :
  let bob := apply_workflow (H := quiet) alice_review "Approve"
               PNone PNone PNone PNone PNone PNone
               (site "bob" (database [alice_review] review_ledger)) in
  let carol := apply_workflow (H := quiet) alice_review "Approve"
                 PNone PNone PNone PNone PNone PNone
                 (site "carol" (db (fst bob))) in
  doc_get (doc (fst bob)) "workflow_state" = PStr "Review"
  /\ List.map Action.status (actions (db (fst bob))) = ["Open"; "Completed"]%string
  /\ doc_get (doc (fst carol)) "workflow_state" = PStr "Approved"
  /\ doc_get (doc (fst carol)) "docstatus" = PInt 1
  /\ List.filter is_lifecycle (trace (fst carol)) = [EvLifecycle Submit].
Proof. cbv zeta. repeat split; vm_compute; reflexivity. Qed.

(** *** Lifecycle table *)

(** Alice discards her draft: the target state Cancelled asks for status 2
    while the draft has status 0.  The run raises, and the document object
    has changed: its state field now reads Cancelled. *)
Lemma illegal_status_mutates_document :
  let w := site "alice" (database [alice_draft] []) in
  let run := apply_workflow (H := quiet) alice_draft "Discard"
                            PNone PNone PNone PNone PNone PNone w in
  doc_get alice_draft "docstatus" = PInt 0
  /\ cint_digits (DocState.doc_status cancelled) = 2%Z
  /\ snd run = inl (Exn ValidationError ["Illegal Document Status for Cancelled"%string])
  /\ doc_get alice_draft "workflow_state" = PStr "Draft"
  /\ doc_get (doc (fst run)) "workflow_state" = PStr "Cancelled"
  /\ doc (fst run) <> alice_draft.
Proof.
  cbv zeta. repeat split; try (vm_compute; reflexivity).
  intros Heq. apply (f_equal (fun m => m !! "workflow_state"%string)) in Heq.
  vm_compute in Heq. discriminate.
Qed.

Lemma submit_for_review_reaches_gating :
  reaches_gating (H := quiet) alice_draft "Submit for Review" PNone
    (site "alice" (database [alice_draft] [])) leave_approval submit_for_review
    (at_gating alice_draft leave_approval (site "alice" (database [alice_draft] []))).
Proof.
  split; [reflexivity |]. split; [| reflexivity].
  exists (at_gating alice_draft leave_approval (site "alice" (database [alice_draft] []))).
  split; vm_compute; reflexivity.
Defined.

Lemma lifecycle_legality_witness :
  let w := site "alice" (database [alice_draft] []) in
  trace (fst (apply_workflow (H := quiet) alice_draft "Submit for Review"
                             PNone PNone PNone PNone PNone PNone w))
  = trace (at_gating alice_draft leave_approval w)
    ++ (state_writes leave_approval "Submit for Review" PNone "Review" ++ update_write review)
    ++ [EvLifecycle Save].
Proof.
  cbv zeta.
  destruct (lifecycle_legality (H := quiet) alice_draft "Submit for Review"
              PNone PNone PNone PNone PNone PNone
              (site "alice" (database [alice_draft] []))
              (at_gating alice_draft leave_approval (site "alice" (database [alice_draft] [])))
              leave_approval submit_for_review "Review" review
              submit_for_review_reaches_gating eq_refl eq_refl eq_refl) as [Hsave _].
  apply Hsave. split; vm_compute; reflexivity.
Defined.

(** *** Gating in mode All *)

(** Bob approves Alice's application, which is under Review and on which
    Carol still has an open action at Review, naming the transition T-FAST
    (source Draft, mode All).  The count is taken at Draft, finds nothing,
    and the state advances to Approved. *)
Lemma gating_counts_at_transition_source :
  let w := site "bob" (database [alice_review] review_ledger) in
  let run := apply_workflow (H := quiet) alice_review "Approve" (PStr "T-FAST")
                            PNone PNone PNone PNone PNone w in
  Transition.multi_user_action_mode fast_track = "All"%string
  /\ doc_get alice_review "workflow_state" = PStr "Review"
  /\ other_open_count alice_review "Review" "bob" (db w) = 1%Z
  /\ doc_get (doc (fst run)) "workflow_state" = PStr "Approved"
  /\ actions (db (fst run)) = review_ledger.
Proof. cbv zeta. repeat split; vm_compute; reflexivity. Qed.

Lemma approve_reaches_gating :
  reaches_gating (H := quiet) alice_review "Approve" PNone
    (site "bob" (database [alice_review] review_ledger)) leave_approval approve
    (at_gating alice_review leave_approval (site "bob" (database [alice_review] review_ledger))).
Proof.
  split; [reflexivity |]. split; [| reflexivity].
  exists (at_gating alice_review leave_approval
            (site "bob" (database [alice_review] review_ledger))).
  split; vm_compute; reflexivity.
Defined.

Lemma all_mode_gating_witness :
  let w := site "bob" (database [alice_review] review_ledger) in
  let run := apply_workflow (H := quiet) alice_review "Approve"
                            PNone PNone PNone PNone PNone PNone w in
  snd run = inr alice_review /\ doc (fst run) = alice_review /\ trace (fst run) = trace w.
Proof.
  cbv zeta.
  destruct (all_mode_gating (H := quiet) alice_review "Approve"
              PNone PNone PNone PNone PNone PNone
              (site "bob" (database [alice_review] review_ledger))
              (at_gating alice_review leave_approval
                 (site "bob" (database [alice_review] review_ledger)))
              leave_approval approve approve_reaches_gating eq_refl) as [Hheld _].
  destruct Hheld as (Hret & Hdoc & Htrace & _).
  - vm_compute. reflexivity.
  - repeat split; assumption.
Defined.

(** *** Reject *)

Lemma reject_reaches_gating :
  reaches_gating (H := quiet) alice_review "Reject" PNone
    (site "bob" (database [alice_review] [])) leave_approval reject
    (at_gating alice_review leave_approval (site "bob" (database [alice_review] []))).
Proof.
  split; [reflexivity |]. split; [| reflexivity].
  exists (at_gating alice_review leave_approval (site "bob" (database [alice_review] []))).
  split; vm_compute; reflexivity.
Defined.

Lemma reject_writes_first_state_witness :
  Transition.next_state reject = "Cancelled"%string
  /\ doc_get (doc (fst (apply_workflow (H := quiet) alice_review "Reject"
                          PNone PNone PNone PNone PNone (PStr "incomplete")
                          (site "bob" (database [alice_review] [])))))
             "workflow_state"
     = PStr "Draft".
Proof.
  split; [reflexivity |].
  destruct (reject_writes_first_state (H := quiet) alice_review
              PNone PNone PNone PNone PNone (PStr "incomplete")
              (site "bob" (database [alice_review] []))
              (at_gating alice_review leave_approval (site "bob" (database [alice_review] [])))
              leave_approval reject draft [review; approved; cancelled]
              reject_reaches_gating eq_refl eq_refl) as [_ Hstate].
  apply Hstate; [discriminate | by left].
Defined.

(** *** The search for the transition *)

(** In the express workflow Approve is declared twice from Review.  Both
    are available to Bob; the first in order is [approve], the search settles
    on [send_back], and the application goes back to Draft. *)
Lemma search_keeps_last_match :
  let w := site "bob" (database [alice_express] []) in
  let w1 := at_gating alice_express express_approval w in
  let run := apply_workflow (H := quiet) alice_express "Approve"
                            PNone PNone PNone PNone PNone PNone w in
  get_transitions (H := quiet) alice_express (Some express_approval) false w1
  = (w1, inr [approve; send_back])
  /\ List.find (fun t => String.eqb (Transition.action t) "Approve"
                         && condition_holds (H := quiet) (Transition.condition t)
                                            alice_express w1)
               [approve; send_back] = Some approve
  /\ resolve_transition (H := quiet) express_approval "Approve" PNone w1
     = (w1, inr (Some send_back))
  /\ approve <> send_back
  /\ doc_get (doc (fst run)) "workflow_state" = PStr "Draft".
Proof. cbv zeta. repeat split; try (vm_compute; reflexivity). discriminate. Qed.

Lemma apply_workflow_last_match_witness :
  let w := site "bob" (database [alice_express] []) in
  let w1 := at_gating alice_express express_approval w in
  resolve_transition (H := quiet) express_approval "Approve" PNone w1
  = (w1, inr (last (List.filter
                      (fun t => String.eqb (Transition.action t) "Approve"
                                && condition_holds (H := quiet) (Transition.condition t)
                                                   alice_express w1)
                      [approve; send_back]))).
Proof.
  cbv zeta.
  destruct (apply_workflow_last_match (H := quiet) alice_express "Approve"
              PNone PNone PNone PNone PNone PNone
              (site "bob" (database [alice_express] []))
              (at_gating alice_express express_approval
                 (site "bob" (database [alice_express] [])))
              (at_gating alice_express express_approval
                 (site "bob" (database [alice_express] [])))
              express_approval [approve; send_back]) as [Hres _].
  - reflexivity.
  - reflexivity.
  - reflexivity.
  - vm_compute. reflexivity.
  - vm_compute. reflexivity.
  - exact Hres.
Defined.

(** *** Start *)

(** The first declared transition of the leave workflow goes from Draft to
    Review; Start leads into Draft, its source, not into Review. *)
Lemma start_enters_source_not_target :
  let w := site "alice" (database [alice_draft] []) in
  let w1 := at_gating alice_draft leave_approval w in
  let run := apply_workflow (H := quiet) alice_draft "Start"
                            PNone PNone PNone PNone PNone PNone w in
  head (Workflow.transitions leave_approval) = Some submit_for_review
  /\ Transition.next_state submit_for_review = "Review"%string
  /\ (exists t, resolve_transition (H := quiet) leave_approval "Start" PNone w1
                = (w1, inr (Some t))
                /\ Transition.next_state t = "Draft"%string
                /\ Transition.next_state t <> Transition.next_state submit_for_review)
  /\ trace (fst run) = [EvSet "workflow_action" (PStr "Start");
                        EvSet "workflow_comment" PNone;
                        EvSet "workflow_state" (PStr "Draft");
                        EvLifecycle Save].
Proof.
  cbv zeta. split; [reflexivity |]. split; [reflexivity |]. split.
  - eexists. split; [vm_compute; reflexivity |]. split; [reflexivity | discriminate].
  - vm_compute. reflexivity.
Qed.

Lemma start_enters_first_source_witness :
  let w := site "alice" (database [alice_draft] []) in
  let w1 := at_gating alice_draft leave_approval w in
  exists t, resolve_transition (H := quiet) leave_approval "Start" PNone w1
            = (w1, inr (Some t))
            /\ Transition.next_state t = Transition.state submit_for_review.
Proof.
  cbv zeta.
  destruct (start_enters_first_source (H := quiet) alice_draft
              PNone PNone PNone PNone PNone PNone
              (site "alice" (database [alice_draft] []))
              (at_gating alice_draft leave_approval (site "alice" (database [alice_draft] [])))
              leave_approval submit_for_review [approve; reject; discard])
    as (t & Hres & Hnext & _).
  - reflexivity.
  - reflexivity.
  - vm_compute. reflexivity.
  - exists t. by split.
Defined.

(** *** Bulk execution *)


(** A batch of one on the site where saving logs an error message and goes
    through: the only item succeeds and is committed, it logs no
    informational message, yet the report is red and lists the document as
    failed only. *)
Example successful_batch_is_red :
  let w := site "alice" (database [alice_draft] []) in
  let rounds := bulk_rounds (H := grudging) ["LA-0001"%string] "Leave Application"
                            "Submit for Review" (PStr "T-SUBMIT") 1 ["LA-0001"%string]
                            (set_message_log [] w) in
  let run := bulk_workflow_approval (H := grudging) ["LA-0001"%string] "Leave Application"
                                    "Submit for Review" (PStr "T-SUBMIT") w in
  forallb round_ok rounds = true
  /\ forallb (fun r => forallb raise_exception (round_messages r)) rounds = true
  /\ forallb plain_round rounds = false
  /\ List.filter is_tx (trace (fst run)) = [EvCommit]
  /\ List.map indicator (message_log (fst run)) = ["red"%string]
  /\ snd (bulk_loop (H := grudging) ["LA-0001"%string] "Leave Application"
                    "Submit for Review" (PStr "T-SUBMIT") 1 ["LA-0001"%string] [] []
                    (set_message_log [] w))
     = inr ([("LA-0001"%string, [mkEntry "LA-0001" (Some "Leave period overlaps"%string)])],
            []).
Proof. cbv zeta. repeat split; vm_compute; reflexivity. Qed.

(** The batch of the specification: three references, the second of which
    fails (no such document).  The first and the third are committed and
    listed as successful, the second is rolled back and listed as failed, and
    the report is orange. *)
Example scenario_bulk_isolation :
  let w := site "bob" (database [alice_draft; alice_review] []) in
  let docnames := ["LA-0001"; "LA-0009"; "LA-0002"]%string in
  let run := bulk_workflow_approval (H := quiet) docnames "Leave Application"
                                    "Submit for Review" (PStr "T-SUBMIT") w in
  List.map round_ok
    (bulk_rounds (H := quiet) docnames "Leave Application" "Submit for Review"
                 (PStr "T-SUBMIT") 1 docnames (set_message_log [] w))
  = [true; false; true]
  /\ List.map indicator (message_log (fst run)) = ["orange"; "orange"]%string
  /\ snd (bulk_loop (H := quiet) docnames "Leave Application" "Submit for Review"
                    (PStr "T-SUBMIT") 1 docnames [] [] (set_message_log [] w))
     = inr ([("LA-0009", [mkEntry "LA-0009"
                            (Some "Leave Application LA-0009 not found")])],
            [("LA-0001", [mkEntry "LA-0001" None]);
             ("LA-0002", [mkEntry "LA-0002" None])])%string.
Proof. cbv zeta. repeat split; vm_compute; reflexivity. Qed.


End Examples.

(** * Properties of the rest of the file *)

Section Frame_rules.
Context `{Frappe}.
Context {X : Type} (f : World -> X).

Lemma preserves_ret {A : Type} (a : A) : preserves f (mret a).
Proof. by intros w. Qed.

Lemma preserves_raise {A : Type} (e : exn) : preserves f (raise (A := A) e).
Proof. by intros w. Qed.

Lemma preserves_get : preserves f get_world.
Proof. by intros w. Qed.

Lemma preserves_bind {A B : Type} (m : M A) (k : A -> M B) :
  preserves f m -> (forall a, preserves f (k a)) -> preserves f (m ≫= k).
Proof.
  intros Hm Hk w. unfold_monad. specialize (Hm w).
  destruct (m w) as [w' [e | a]]; simpl in *; [done |].
  by rewrite (Hk a w').
Qed.

Lemma preserves_modify (g : World -> World) :
  (forall w, f (g w) = f w) -> preserves f (modify g).
Proof. intros Hg w. apply Hg. Qed.

Lemma preserves_throw {A : Type} (msg : string) (c : exn_class) :
  (forall l w, f (set_message_log l w) = f w) -> preserves f (throw (A := A) msg c).
Proof. intros Hf w. apply Hf. Qed.

Lemma preserves_world {A : Type} (m : M A) : (forall w, fst (m w) = w) -> preserves f m.
Proof. intros Hm w. by rewrite Hm. Qed.

End Frame_rules.

Ltac frame_step :=
  match goal with
  | |- preserves _ (mret _) => apply preserves_ret
  | |- preserves _ (raise _) => apply preserves_raise
  | |- preserves _ (throw _ _) => apply preserves_throw; intros ? ?; reflexivity
  | |- preserves _ get_world => apply preserves_get
  | |- preserves _ (_ ≫= _) => apply preserves_bind; [| intros ?]
  | |- preserves _ (if ?b then _ else _) => destruct b
  | |- preserves _ (match ?x with _ => _ end) => destruct x
  | |- preserves _ (modify _) => apply preserves_modify; intros ?; reflexivity
  end.

Section Resolver_properties.
Context `{Frappe}.

(** ** The workflow resolver *)

Lemma same_object_trans (a b c : Doc) :
  same_object a b = true -> same_object a c = same_object b c.
Proof.
  unfold same_object.
  destruct (object_id a) as [x |], (object_id b) as [y |]; try done.
  intros Hxy. apply bool_decide_eq_true in Hxy as ->. done.
Qed.

Lemma same_object_sym (a b : Doc) : same_object a b = same_object b a.
Proof.
  unfold same_object.
  destruct (object_id a) as [x |], (object_id b) as [y |]; try done.
  apply bool_decide_ext. split; congruence.
Qed.

Lemma cache_hget_same_object (d d' : Doc) (w w' : World) :
  same_object d d' = true -> cache w' = cache w -> cache_hget d' w' = cache_hget d w.
Proof.
  intros Hsame Hcache. unfold cache_hget. rewrite Hcache. clear Hcache. f_equal.
  induction (cache w) as [| e l IH]; simpl; [done |].
  rewrite (same_object_sym (fst e) d'), (same_object_sym (fst e) d).
  rewrite (same_object_trans d d' (fst e) Hsame).
  destruct (same_object d' (fst e)); [done | exact IH].
Qed.

Lemma cache_hget_none (d : Doc) (w : World) :
  (forall e, In e (cache w) -> same_object (fst e) d = false) -> cache_hget d w = None.
Proof.
  unfold cache_hget. induction (cache w) as [| e l IH]; simpl; [done |].
  intros Hnone. rewrite (Hnone e (or_introl eq_refl)). apply IH.
  intros e' Hin. apply Hnone. by right.
Qed.

(** X1: the workflow cache is keyed by the document object.  Once
    [get_workflow] has returned a workflow for a persisted document, a later
    call on the same object, on a site with the same cache, returns that
    workflow and changes nothing, whatever the fields of the object have
    become and whatever the database holds by then.  A call on an object
    that is none of the cached ones reads the database again, also when its
    fields are those of a cached one: it returns and caches the workflow the
    database holds now, or fails, caching nothing, when it holds none. *)
Theorem get_workflow_cached (d d' : Doc) (w w1 w2 : World) (wf : Workflow.t) :
  hasattr d "workflow_def" = true ->
  is_new d = false ->
  get_workflow d w = (w1, inr (Some wf)) ->
  cache w2 = cache w1 ->
  hasattr d' "workflow_def" = true ->
  is_new d' = false ->
  (same_object d d' = true -> get_workflow d' w2 = (w2, inr (Some wf)))
  /\ ((forall e, In e (cache w2) -> same_object (fst e) d' = false) ->
      match workflow_docs (db w2) !! py_str (doc_get d' "workflow_def") with
      | Some wf' =>
          get_workflow d' w2 = (set_cache ((d', wf') :: cache w2) w2, inr (Some wf'))
      | None =>
          (exists e, snd (get_workflow d' w2) = inl e)
          /\ cache (fst (get_workflow d' w2)) = cache w2
      end).
Proof.
  intros Hattr Hold Hget Hcache Hattr' Hold'. split.
  - intros Hsame.
    assert (Hid : same_object d d = true).
    { unfold same_object in *. destruct (object_id d); [| done]. by apply bool_decide_eq_true. }
    assert (Hhit : cache_hget d w1 = Some wf).
    { unfold get_workflow in Hget. rewrite Hattr, Hold in Hget. unfold_monad.
      destruct (cache_hget d w) as [wf' |] eqn:Hw.
      - by injection Hget as <- <-.
      - unfold get_doc_workflow in Hget. unfold_monad.
        destruct (workflow_docs (db w) !! py_str (doc_get d "workflow_def"));
          [| discriminate].
        injection Hget as <- <-. unfold cache_hget. simpl. by rewrite Hid. }
    unfold get_workflow. rewrite Hattr', Hold'. unfold_monad.
    by rewrite (cache_hget_same_object d d' w1 w2 Hsame Hcache), Hhit.
  - intros Hnone. unfold get_workflow. rewrite Hattr', Hold'. unfold_monad.
    rewrite (cache_hget_none d' w2 Hnone). unfold get_doc_workflow. unfold_monad.
    destruct (workflow_docs (db w2) !! py_str (doc_get d' "workflow_def")); [done |].
    simpl. split; [by eexists | done].
Qed.

Lemma get_workflow_assigned_first (d : Doc) (w : World) (l : list Assignment.t) :
  (forall a, In a l -> condition_evaluates (Assignment.eval_condition a) d w) ->
  get_workflow_assigned l d w
  = match List.find (assignment_applies d w) l with
    | Some a => (wf ← get_doc_workflow (PStr (Assignment.workflow a)); mret (Some wf)) w
    | None => (w, inr None)
    end.
Proof.
  induction l as [| a l IH]; intros Hev; simpl; [done |].
  destruct (Hev a (or_introl eq_refl)) as [v Hv].
  unfold assignment_applies at 1, condition_holds.
  unfold_monad. rewrite (evaluate_condition_eta _ d w), Hv. simpl.
  destruct (truthy v && _); [done |].
  apply IH. intros a' Hin. apply Hev. by right.
Qed.

(** X2: for a document that is not yet persisted the workflow is that of
    the first assignment rule of its type, in list order, whose condition
    holds and whose company is unset or is the document's; later rules that
    also match are not consulted, and without a matching rule the result is
    [None]. *)
Theorem get_workflow_first_assignment (d : Doc) (w : World) :
  let rules := List.filter
                 (fun a => py_eq (PStr (Assignment.document_type a)) (doc_get d "doctype"))
                 (assignments (db w)) in
  hasattr d "workflow_def" = true ->
  is_new d = true ->
  (forall a, In a rules -> condition_evaluates (Assignment.eval_condition a) d w) ->
  get_workflow d w
  = match List.find (assignment_applies d w) rules with
    | Some a => (wf ← get_doc_workflow (PStr (Assignment.workflow a)); mret (Some wf)) w
    | None => (w, inr None)
    end.
Proof.
  intros rules Hattr Hnew Hev. unfold get_workflow. rewrite Hattr, Hnew.
  unfold_monad. by apply get_workflow_assigned_first.
Qed.

(** ** The transition resolver *)

(** X3: the permission check comes first.  For a persisted document the
    acting user may not read, [get_transitions] ends in whatever the check
    raises, for every workflow argument and every content of the state field:
    no workflow is resolved or cached, no state is read and no condition is
    evaluated, and only the message log changes, by what the check
    printed. *)
Theorem get_transitions_unreadable (d : Doc) (workflow : option Workflow.t)
    (raise_exception : bool) (w : World) :
  is_new d = false ->
  has_permission (session_user w) (db w) d = false ->
  let run := get_transitions d workflow raise_exception w in
  let refusal := permission_error (session_user w) (db w) d in
  snd run = inl (snd refusal)
  /\ but_messages (fst run) = but_messages w
  /\ message_log (fst run) = message_log w ++ fst refusal.
Proof.
  intros Hold Hperm. unfold get_transitions, check_read_permission. rewrite Hold.
  unfold_monad. rewrite Hperm. simpl. by repeat split.
Qed.

(** X4: a persisted, readable document whose state field is empty or
    missing gets [WorkflowStateError]: raised bare, the message log untouched,
    when [raise_exception] is set, and through [frappe.throw] with the
    message 'Workflow State not set' otherwise. *)
Theorem get_transitions_no_state (d : Doc) (wf : Workflow.t) (raise_exception : bool)
    (w : World) :
  is_new d = false ->
  has_permission (session_user w) (db w) d = true ->
  truthy (doc_get d (Workflow.workflow_state_field wf)) = false ->
  let run := get_transitions d (Some wf) raise_exception w in
  but_messages (fst run) = but_messages w
  /\ (if raise_exception
      then snd run = inl (Exn WorkflowStateError []) /\ message_log (fst run) = message_log w
      else snd run = inl (Exn WorkflowStateError ["Workflow State not set"%string])
           /\ message_log (fst run)
              = message_log w ++ [mkMsg "Workflow State not set" true "" "red"]).
Proof.
  intros Hold Hperm Hstate. unfold get_transitions, check_read_permission. rewrite Hold.
  unfold_monad. rewrite Hperm, Hstate. simpl. by destruct raise_exception.
Qed.

Lemma preserves_evaluate_condition {X : Type} (f : World -> X) (condition : string) (d : Doc) :
  preserves f (evaluate_condition condition d).
Proof. apply preserves_world. apply evaluate_condition_world. Qed.

Lemma preserves_get_transitions_loop {X : Type} (f : World -> X) (ts : list Transition.t)
    (current_state : pyval) (d : Doc) (acc : list Transition.t) :
  preserves f (get_transitions_loop ts current_state d acc).
Proof.
  revert acc. induction ts as [| t ts IH]; intros acc; simpl; [apply preserves_ret |].
  destruct (py_eq _ _); [| apply IH].
  apply preserves_bind; [apply preserves_evaluate_condition |].
  intros r. destruct (negb (truthy r)); apply IH.
Qed.

(** X5: called with a workflow, [get_transitions] only reads: whatever it
    returns or raises, the session, the document, the database, the cache and
    the trace are as before (only a thrown message may be added to the
    log). *)
Theorem get_transitions_reads_only (d : Doc) (wf : Workflow.t) (raise_exception : bool) :
  preserves but_messages (get_transitions d (Some wf) raise_exception).
Proof.
  unfold get_transitions, check_read_permission.
  repeat first [apply preserves_get_transitions_loop | frame_step].
Qed.

Lemma get_transitions_loop_error (d : Doc) (current_state : pyval) (w : World)
    (before after : list Transition.t) (t : Transition.t) (e : exn)
    (acc : list Transition.t) :
  (forall t', In t' before ->
     py_eq (PStr (Transition.state t')) current_state = true ->
     condition_evaluates (Transition.condition t') d w) ->
  py_eq (PStr (Transition.state t)) current_state = true ->
  snd (evaluate_condition (Transition.condition t) d w) = inl e ->
  get_transitions_loop (before ++ t :: after) current_state d acc w = (w, inl e).
Proof.
  revert acc. induction before as [| t0 before IH]; intros acc Hev Hsrc Herr; simpl.
  - rewrite Hsrc. unfold_monad. by rewrite (evaluate_condition_eta _ d w), Herr.
  - assert (Hrest : forall t', In t' before ->
              py_eq (PStr (Transition.state t')) current_state = true ->
              condition_evaluates (Transition.condition t') d w)
      by (intros t' Hin; apply Hev; by right).
    destruct (py_eq (PStr (Transition.state t0)) current_state) eqn:Hsrc0;
      [| by apply IH].
    destruct (Hev t0 (or_introl eq_refl) Hsrc0) as [v Hv].
    unfold_monad. rewrite (evaluate_condition_eta _ d w), Hv.
    destruct (negb (truthy v)); by apply IH.
Qed.

(** X6: a condition that fails to evaluate is never read as false: when the
    condition of a transition leaving the current state raises, and those
    before it evaluate, [get_transitions] raises that very exception. *)
Theorem get_transitions_condition_error (d : Doc) (wf : Workflow.t) (raise_exception : bool)
    (w : World) (before after : list Transition.t) (t : Transition.t) (e : exn) :
  let current_state := doc_get d (Workflow.workflow_state_field wf) in
  is_new d = false ->
  has_permission (session_user w) (db w) d = true ->
  truthy current_state = true ->
  Workflow.transitions wf = before ++ t :: after ->
  (forall t', In t' before ->
     py_eq (PStr (Transition.state t')) current_state = true ->
     condition_evaluates (Transition.condition t') d w) ->
  py_eq (PStr (Transition.state t)) current_state = true ->
  snd (evaluate_condition (Transition.condition t) d w) = inl e ->
  get_transitions d (Some wf) raise_exception w = (w, inl e).
Proof.
  intros current_state Hold Hperm Hstate Hts Hev Hsrc Herr.
  unfold get_transitions, check_read_permission. rewrite Hold.
  unfold_monad. rewrite Hperm. fold current_state. rewrite Hstate, Hts. simpl.
  by apply get_transitions_loop_error.
Qed.

End Resolver_properties.

Section Executor_properties.
Context `{Frappe}.

Lemma has_approval_access_no_owner (user : string) (d : Doc) (t : Transition.t) :
  user <> "Administrator"%string ->
  Transition.allow_self_approval t = 0%Z ->
  doc_get d "owner" = PStr user ->
  has_approval_access user d t = false.
Proof.
  intros Hadmin Hself Hown. unfold has_approval_access. rewrite Hself, Hown.
  destruct (String.eqb_spec user "Administrator"); [done |]. simpl.
  assert (Heq : py_eq (PStr user) (PStr user) = true) by by apply py_eq_str.
  by rewrite Heq.
Qed.

(** ** What the executor leaves alone *)

Lemma preserves_outside_event (e : Event) (g : World -> World) :
  outer_event e = false ->
  (forall w, committed (g w) = committed w /\ trace (g w) = trace w) ->
  preserves outside (modify (fun w => log_event e (g w))).
Proof.
  intros He Hg. apply preserves_modify. intros w. unfold outside. simpl.
  destruct (Hg w) as [-> ->]. rewrite List.filter_app. simpl. rewrite He.
  by rewrite app_nil_r.
Qed.

Lemma preserves_outside_doc_set (f : string) (v : pyval) : preserves outside (doc_set f v).
Proof. unfold doc_set. by apply preserves_outside_event. Qed.

Lemma preserves_outside_run_lifecycle (op : LifecycleOp) :
  preserves outside (run_lifecycle op).
Proof.
  intros w. unfold run_lifecycle, outside.
  destruct (lifecycle op (session_user w) (db w) (doc w)) as [msgs [e |]]; simpl;
    rewrite List.filter_app; simpl; by rewrite app_nil_r.
Qed.

Lemma preserves_outside_get_workflow_assigned (l : list Assignment.t) (d : Doc) :
  preserves outside (get_workflow_assigned l d).
Proof.
  induction l as [| a l IH]; simpl; [apply preserves_ret |].
  unfold get_doc_workflow.
  repeat first [apply preserves_evaluate_condition | apply IH | frame_step].
Qed.

Lemma preserves_outside_get_workflow (d : Doc) : preserves outside (get_workflow d).
Proof.
  unfold get_workflow, get_doc_workflow.
  repeat first [apply preserves_outside_get_workflow_assigned | frame_step].
Qed.

Lemma preserves_outside_get_transitions (d : Doc) (workflow : option Workflow.t)
    (raise_exception : bool) :
  preserves outside (get_transitions d workflow raise_exception).
Proof.
  unfold get_transitions, check_read_permission.
  repeat first [apply preserves_outside_get_workflow | apply preserves_get_transitions_loop
               | frame_step].
Qed.

Lemma preserves_outside_apply_workflow (d : Doc) (action : string)
    (transition_name possible_actions next_user action_source previous_user comment : pyval) :
  preserves outside (apply_workflow d action transition_name possible_actions next_user
                                    action_source previous_user comment).
Proof.
  unfold apply_workflow, execute_transition, forward_action, resolve_transition,
    get_doc_transition, hold_state, advance_state, update_completed_workflow_actions,
    create_workflow_actions, add_comment.
  repeat first [apply preserves_outside_get_workflow
               | apply preserves_outside_get_transitions
               | apply preserves_outside_doc_set
               | apply preserves_outside_run_lifecycle
               | apply preserves_world; intros ?; apply find_transition_world
               | apply preserves_world; intros ?; rewrite state_is_held_gating; reflexivity
               | frame_step].
Qed.

(** X7: [apply_workflow] works inside the caller's transaction: whatever
    it returns or raises it does not change the committed database, and the
    only events it adds to the trace are writes to the document and lifecycle
    calls: no commit, rollback, progress report or error-log record. *)
Theorem apply_workflow_stays_inside (d : Doc) (action : string)
    (transition_name possible_actions next_user action_source previous_user comment : pyval)
    (w : World) :
  let run := apply_workflow d action transition_name possible_actions next_user
                            action_source previous_user comment w in
  committed (fst run) = committed w
  /\ List.filter outer_event (trace (fst run)) = List.filter outer_event (trace w).
Proof.
  cbv zeta.
  assert (Hout := preserves_outside_apply_workflow d action transition_name possible_actions
                    next_user action_source previous_user comment w).
  unfold outside in Hout. by injection Hout.
Qed.

(** ** Refusals of the executor *)

(** X8: without a workflow for the document [apply_workflow] throws
    'No workflow assigned to the current document!' and has done nothing
    else: the document is as it was passed, the database and the trace are
    untouched. *)
Theorem apply_workflow_no_workflow (d : Doc) (action : string)
    (transition_name possible_actions next_user action_source previous_user comment : pyval)
    (w w1 : World) :
  get_workflow d (set_doc d w) = (w1, inr None) ->
  let run := apply_workflow d action transition_name possible_actions next_user
                            action_source previous_user comment w in
  snd run = inl (Exn ValidationError ["No workflow assigned to the current document!"%string])
  /\ doc (fst run) = d /\ db (fst run) = db w /\ trace (fst run) = trace w.
Proof.
  intros Hwf. cbv zeta. unfold apply_workflow. unfold_monad. simpl. rewrite Hwf. simpl.
  apply get_workflow_site in Hwf as (_ & Hd & Hb & _ & Ht). simpl in *.
  by repeat split.
Qed.

(** X9: the owner of a document, unless the administrator, is refused on a
    transition that does not allow self-approval: the run throws 'Self
    approval is not allowed' (a plain [ValidationError]) before anything is
    written: document, database (the ledger with it) and trace are as
    before. *)
Theorem apply_workflow_self_approval_refused (d : Doc) (action : string)
    (transition_name possible_actions next_user action_source previous_user comment : pyval)
    (w w1 w2 : World) (wf : Workflow.t) (t : Transition.t) :
  (String.eqb action "Forward" || String.eqb action "Add Additional Check") = false ->
  get_workflow d (set_doc d w) = (w1, inr (Some wf)) ->
  resolve_transition wf action transition_name w1 = (w2, inr (Some t)) ->
  session_user w <> "Administrator"%string ->
  doc_get d "owner" = PStr (session_user w) ->
  Transition.allow_self_approval t = 0%Z ->
  let run := apply_workflow d action transition_name possible_actions next_user
                            action_source previous_user comment w in
  snd run = inl (Exn ValidationError ["Self approval is not allowed"%string])
  /\ doc (fst run) = d /\ db (fst run) = db w /\ trace (fst run) = trace w.
Proof.
  intros Hact Hwf Hres Hadmin Hown Hself. cbv zeta.
  unfold apply_workflow, execute_transition. unfold_monad. simpl.
  rewrite Hwf, Hact, Hres.
  apply get_workflow_site in Hwf as (Hu1 & Hd1 & Hb1 & _ & Ht1).
  apply resolve_transition_site in Hres as (Hu2 & Hd2 & Hb2 & _ & Ht2).
  simpl in *.
  assert (Hacc : has_approval_access (session_user w2) (doc w2) t = false).
  { apply (has_approval_access_no_owner (session_user w2) (doc w2) t).
    - congruence.
    - exact Hself.
    - rewrite Hd2, Hd1, Hu2, Hu1. exact Hown. }
  rewrite Hacc. simpl. repeat split; congruence.
Qed.

End Executor_properties.

Section Branch_properties.
Context `{Frappe}.

(** ** The branches of the executor *)

(** X10: Forward and Add Additional Check bypass the state machine.  No
    transition is resolved and no approval check is made, so the transition
    name and the ownership of the document play no part: the document is
    returned as passed, nothing is written to it and no lifecycle operation
    runs; the acting user's open actions are completed, one open action is
    filed for the next user and one Workflow comment is added. *)
Theorem apply_workflow_forward (d : Doc) (action : string)
    (transition_name possible_actions next_user action_source previous_user comment : pyval)
    (w w1 : World) (wf : Workflow.t) :
  action = "Forward"%string \/ action = "Add Additional Check"%string ->
  get_workflow d (set_doc d w) = (w1, inr (Some wf)) ->
  let run := apply_workflow d action transition_name possible_actions next_user
                            action_source previous_user comment w in
  let user := session_user w in
  snd run = inr d /\ doc (fst run) = d /\ trace (fst run) = trace w
  /\ message_log (fst run) = message_log w1
  /\ actions (db (fst run))
     = List.map (fun a => if own_open_action d user a then complete a else a)
                (actions (db w))
       ++ [Action.mk "Open" (as_str (doc_get d (Workflow.workflow_state_field wf)))
                     (as_str next_user) (doc_get d "doctype") (doc_get d "name")
                     possible_actions action (PStr user) comment]
  /\ exists text,
       comments (db (fst run))
       = comments (db w) ++ [mkComment (doc_get d "doctype") (doc_get d "name")
                                       "Workflow" text].
Proof.
  intros Haction Hwf. cbv zeta.
  assert (Hact : (String.eqb action "Forward" || String.eqb action "Add Additional Check")
                 = true) by (destruct Haction as [-> | ->]; reflexivity).
  unfold apply_workflow, forward_action, update_completed_workflow_actions,
    create_workflow_actions, add_comment. unfold_monad. simpl.
  rewrite Hwf, Hact. simpl.
  apply get_workflow_site in Hwf as (Hu & Hd & Hb & _ & Ht). simpl in *.
  rewrite Hu, Hd, Hb, Ht. repeat split. eexists. reflexivity.
Qed.


(** X12: with a mode other than All and no pre-check source the state
    advances whatever the ledger holds: open actions of other users do not
    hold it back. *)
Theorem apply_workflow_any_mode_advances (d : Doc) (action : string)
    (transition_name possible_actions next_user action_source previous_user comment : pyval)
    (w w2 : World) (wf : Workflow.t) (t : Transition.t) (target : string) :
  reaches_gating d action transition_name w wf t w2 ->
  Transition.multi_user_action_mode t <> "All"%string ->
  is_pre_check_action action_source = false ->
  target_of wf t action = Some target ->
  exists tail,
    trace (fst (apply_workflow d action transition_name possible_actions next_user
                               action_source previous_user comment w))
    = trace w ++ state_writes wf action comment target ++ tail.
Proof.
  intros Hgate Hmode Hpre Htarget.
  destruct (reaches_gating_site _ _ _ _ _ _ _ Hgate) as (_ & _ & _ & _ & Ht).
  rewrite (apply_workflow_gating _ _ _ _ _ _ _ _ _ _ _ _ Hgate).
  unfold gating. rewrite Hpre.
  destruct (String.eqb_spec (Transition.multi_user_action_mode t) "All"); [done |].
  simpl. rewrite return_doc_world, <- Ht.
  by apply advance_state_trace.
Qed.

Lemma apply_workflow_advance (d : Doc) (action : string)
    (transition_name possible_actions next_user action_source previous_user comment : pyval)
    (w w2 : World) (wf : Workflow.t) (t : Transition.t) (target : string) (ns : DocState.t) :
  reaches_gating d action transition_name w wf t w2 ->
  gating t action_source w2 = false ->
  target_of wf t action = Some target ->
  settings_of wf target = Some ns ->
  let writes := state_writes wf action comment target ++ update_write ns in
  apply_workflow d action transition_name possible_actions next_user action_source
                 previous_user comment w
  = ((match lifecycle_operation (doc_get (written writes (doc w2)) "docstatus")
                                (cint (DocState.doc_status ns)) with
      | Some op =>
          run_lifecycle op;;
          add_comment "Workflow" (DocState.state ns ++ " " ++ py_str comment)%string
      | None =>
          throw ("Illegal Document Status for " ++ DocState.state ns)%string ValidationError
      end);;
     w' ← get_world; mret (doc w'))
      (after_writes writes (retargeted wf t (searched action transition_name) action w2)).
Proof.
  intros Hgate Hheld Htarget Hsettings writes.
  rewrite (apply_workflow_gating _ _ _ _ _ _ _ _ _ _ _ _ Hgate), Hheld.
  assert (Hadv := advance_state_run wf t (searched action transition_name) action comment
                    w2 target ns Htarget Hsettings).
  cbv zeta in Hadv. fold writes in Hadv. unfold_monad. rewrite Hadv.
  destruct (retargeted_fields wf t (searched action transition_name) action w2)
    as (_ & Hwd & _).
  cbv zeta in Hwd.
  change (doc (after_writes writes (retargeted wf t (searched action transition_name)
                                               action w2)))
    with (written writes (doc (retargeted wf t (searched action transition_name)
                                          action w2))).
  rewrite Hwd.
  by destruct (lifecycle_operation (doc_get (written writes (doc w2)) "docstatus")
                                   (cint (DocState.doc_status ns))).
Qed.

Lemma run_lifecycle_success (op : LifecycleOp) (w : World) (msgs : list Msg) :
  lifecycle op (session_user w) (db w) (doc w) = (msgs, None) ->
  run_lifecycle op w
  = (let w1 := log_event (EvLifecycle op) (set_message_log (message_log w ++ msgs) w) in
     let d' := after_lifecycle op (doc w) in
     (set_db (set_documents (store d' (documents (db w1))) (db w1)) (set_doc d' w1), inr tt)).
Proof. intros Hlife. unfold run_lifecycle. by rewrite Hlife. Qed.

Lemma run_lifecycle_failure (op : LifecycleOp) (w : World) (msgs : list Msg) (e : exn) :
  lifecycle op (session_user w) (db w) (doc w) = (msgs, Some e) ->
  run_lifecycle op w
  = (log_event (EvLifecycle op) (set_message_log (message_log w ++ msgs) w), inl e).
Proof. intros Hlife. unfold run_lifecycle. by rewrite Hlife. Qed.

(** X13: when the lifecycle operation of an advancing run succeeds, the
    document object is returned and exactly one comment of type Workflow is
    added for it, reading the target state, a space and the comment of the
    call (the text [None] when no comment was given); the messages the
    operation printed are in the log. *)
Theorem apply_workflow_comments_success (d : Doc) (action : string)
    (transition_name possible_actions next_user action_source previous_user comment : pyval)
    (w w2 : World) (wf : Workflow.t) (t : Transition.t) (target : string) (ns : DocState.t)
    (op : LifecycleOp) (msgs : list Msg) :
  reaches_gating d action transition_name w wf t w2 ->
  gating t action_source w2 = false ->
  target_of wf t action = Some target ->
  settings_of wf target = Some ns ->
  let d1 := written (state_writes wf action comment target ++ update_write ns) d in
  lifecycle_operation (doc_get d1 "docstatus") (cint (DocState.doc_status ns)) = Some op ->
  lifecycle op (session_user w) (db w) d1 = (msgs, None) ->
  let run := apply_workflow d action transition_name possible_actions next_user
                            action_source previous_user comment w in
  snd run = inr (doc (fst run))
  /\ comments (db (fst run))
     = comments (db w)
       ++ [mkComment (doc_get (doc (fst run)) "doctype") (doc_get (doc (fst run)) "name")
                     "Workflow" (DocState.state ns ++ " " ++ py_str comment)%string]
  /\ message_log (fst run) = message_log w2 ++ msgs.
Proof.
  intros Hgate Hheld Htarget Hsettings d1 Hop Hlife. cbv zeta.
  destruct (reaches_gating_site _ _ _ _ _ _ _ Hgate) as (Hu & Hd & Hb & _ & _).
  rewrite (apply_workflow_advance _ _ _ _ _ _ _ _ _ _ _ _ _ _ Hgate Hheld Htarget Hsettings).
  cbv zeta. rewrite Hd. fold d1. rewrite Hop.
  destruct (retargeted_fields wf t (searched action transition_name) action w2)
    as (Hwu & Hwd & Hwb & _ & Hwm & _).
  cbv zeta in Hwu, Hwd, Hwb, Hwm.
  set (wA := after_writes (state_writes wf action comment target ++ update_write ns)
                          (retargeted wf t (searched action transition_name) action w2)).
  assert (Hlife' : lifecycle op (session_user wA) (db wA) (doc wA) = (msgs, None)).
  { subst wA. unfold after_writes. simpl. by rewrite Hwu, Hwb, Hwd, Hu, Hb, Hd. }
  unfold add_comment. unfold_monad. rewrite (run_lifecycle_success op wA msgs Hlife').
  subst wA. simpl. rewrite Hwb, Hwm, Hb. by repeat split.
Qed.

(** X14: when the lifecycle operation raises, [apply_workflow] raises the
    same exception and goes no further: it adds no comment and leaves the
    action ledger alone, while the writes to the document object have been
    made and the messages the operation printed are in the log. *)
Theorem apply_workflow_lifecycle_failure (d : Doc) (action : string)
    (transition_name possible_actions next_user action_source previous_user comment : pyval)
    (w w2 : World) (wf : Workflow.t) (t : Transition.t) (target : string) (ns : DocState.t)
    (op : LifecycleOp) (msgs : list Msg) (e : exn) :
  reaches_gating d action transition_name w wf t w2 ->
  gating t action_source w2 = false ->
  target_of wf t action = Some target ->
  settings_of wf target = Some ns ->
  let d1 := written (state_writes wf action comment target ++ update_write ns) d in
  lifecycle_operation (doc_get d1 "docstatus") (cint (DocState.doc_status ns)) = Some op ->
  lifecycle op (session_user w) (db w) d1 = (msgs, Some e) ->
  let run := apply_workflow d action transition_name possible_actions next_user
                            action_source previous_user comment w in
  snd run = inl e
  /\ comments (db (fst run)) = comments (db w)
  /\ actions (db (fst run)) = actions (db w)
  /\ doc (fst run) = d1
  /\ message_log (fst run) = message_log w2 ++ msgs.
Proof.
  intros Hgate Hheld Htarget Hsettings d1 Hop Hlife. cbv zeta.
  destruct (reaches_gating_site _ _ _ _ _ _ _ Hgate) as (Hu & Hd & Hb & _ & _).
  rewrite (apply_workflow_advance _ _ _ _ _ _ _ _ _ _ _ _ _ _ Hgate Hheld Htarget Hsettings).
  cbv zeta. rewrite Hd. fold d1. rewrite Hop.
  destruct (retargeted_fields wf t (searched action transition_name) action w2)
    as (Hwu & Hwd & Hwb & _ & Hwm & _).
  cbv zeta in Hwu, Hwd, Hwb, Hwm.
  set (wA := after_writes (state_writes wf action comment target ++ update_write ns)
                          (retargeted wf t (searched action transition_name) action w2)).
  assert (Hlife' : lifecycle op (session_user wA) (db wA) (doc wA) = (msgs, Some e)).
  { subst wA. unfold after_writes. simpl. by rewrite Hwu, Hwb, Hwd, Hu, Hb, Hd. }
  unfold add_comment. unfold_monad. rewrite (run_lifecycle_failure op wA msgs e Hlife').
  subst wA. simpl. rewrite Hwb, Hwd, Hwm, Hb, Hd. by repeat split.
Qed.

(** X15: a target state that is not among the workflow's states is only
    noticed after it has been written: the run raises [IndexError], the state
    field of the document object already holds the unknown state, and no
    lifecycle operation has run. *)
Theorem apply_workflow_unknown_target (d : Doc) (action : string)
    (transition_name possible_actions next_user action_source previous_user comment : pyval)
    (w w2 : World) (wf : Workflow.t) (t : Transition.t) (target : string) :
  reaches_gating d action transition_name w wf t w2 ->
  gating t action_source w2 = false ->
  target_of wf t action = Some target ->
  settings_of wf target = None ->
  let run := apply_workflow d action transition_name possible_actions next_user
                            action_source previous_user comment w in
  snd run = inl index_error
  /\ doc (fst run) !! Workflow.workflow_state_field wf = Some (PStr target)
  /\ trace (fst run) = trace w ++ state_writes wf action comment target
  /\ db (fst run) = db w.
Proof.
  intros Hgate Hheld Htarget Hsettings. cbv zeta.
  destruct (reaches_gating_site _ _ _ _ _ _ _ Hgate) as (_ & _ & Hb & _ & Ht).
  rewrite (apply_workflow_gating _ _ _ _ _ _ _ _ _ _ _ _ Hgate), Hheld.
  unfold advance_state, target_of, settings_of in *.
  unfold doc_set, state_writes. unfold_monad. simpl.
  destruct (String.eqb action "Reject").
  - destruct (Workflow.states wf) as [| first others] eqn:Hstates; simplify_eq/=.
    by rewrite String.eqb_refl in Hsettings.
  - simplify_eq. simpl.
    destruct (List.filter _ (Workflow.states wf)); [| discriminate].
    simpl. rewrite lookup_insert_eq, Hb, Ht, <- !app_assoc. by repeat split.
Qed.

End Branch_properties.

Section Bulk_properties.
Context `{Frappe}.

(** ** The bulk executor *)

Lemma round_is_reported (r : Round) : reports_failure r || reports_success r = true.
Proof.
  unfold reports_failure, reports_success.
  destruct (round_messages r) as [| m l]; [by destruct (round_ok r) |].
  simpl. destruct (raise_exception m); simpl; [done | by rewrite orb_true_r].
Qed.

(** X16: no reference of a batch is left out of the report and none is
    invented: the documents listed in the two logging dictionaries, failed
    and successful together, are exactly the references of the batch. *)
Theorem bulk_reports_every_reference (docnames : list string) (doctype action : string)
    (transition : pyval) (w : World) :
  exists failed successful,
    snd (bulk_loop docnames doctype action transition 1 docnames [] []
                   (set_message_log [] w)) = inr (failed, successful)
    /\ forall docname,
         In docname docnames
         <-> In docname (List.map fst failed) \/ In docname (List.map fst successful).
Proof.
  destruct (bulk_workflow_approval_run docnames doctype action transition w)
    as (w' & failed & successful & Hloop & Hreports & _).
  exists failed, successful. rewrite Hloop. split; [done |].
  set (rounds := bulk_rounds docnames doctype action transition 1 docnames
                             (set_message_log [] w)) in *.
  assert (Hnames : List.map round_docname rounds = docnames)
    by apply bulk_rounds_docnames.
  intros docname.
  destruct (rounds_report_keys rounds docname [] []) as [Hf Hs].
  rewrite <- Hreports in Hf, Hs. simpl in Hf, Hs.
  rewrite Hf, Hs, <- Hnames, in_map_iff. split.
  - intros (r & <- & Hin).
    destruct (reports_failure r) eqn:Hrf.
    + left. right. by exists r.
    + right. right. exists r. split; [done |]. split; [done |].
      assert (Hrep := round_is_reported r). by rewrite Hrf in Hrep.
  - intros [[[] | (r & Hin & -> & _)] | [[] | (r & Hin & -> & _)]]; by exists r.
Qed.

Lemma filter_progress_outer (l : list Event) :
  List.filter is_progress (List.filter outer_event l) = List.filter is_progress l.
Proof.
  induction l as [| e l IH]; simpl; [done |].
  destruct e; simpl; by rewrite ?IH.
Qed.

Lemma preserves_progress_of_outside {A : Type} (m : M A) :
  preserves outside m -> preserves (fun w => List.filter is_progress (trace w)) m.
Proof.
  intros Hm w. specialize (Hm w). unfold outside in Hm. injection Hm as _ Htr.
  by rewrite <- filter_progress_outer, Htr, filter_progress_outer.
Qed.


Lemma preserves_outside_get_doc (doctype docname : pyval) :
  preserves outside (get_doc doctype docname).
Proof. unfold get_doc. repeat frame_step. Qed.

(** What [try] does after the progress report. *)
Lemma bulk_try_split (docnames : list string) (doctype action : string)
    (transition : pyval) (idx : nat) (docname : string) (w : World) :
  bulk_try docnames doctype action transition idx docname w
  = match (d ← get_doc (PStr doctype) (PStr docname);
           apply_workflow d action transition PNone PNone PNone PNone PNone)
          (if (5 <=? length docnames)%nat
           then log_event (EvProgress idx (length docnames)
                             ("Applying: " ++ action)%string docname) w
           else w) with
    | (w', inr _) => db_commit w'
    | (w', inl e) => (w', inl e)
    end.
Proof.
  unfold bulk_try, show_progress. unfold_monad.
  destruct (5 <=? length docnames)%nat; simpl;
    destruct (get_doc _ _ _) as [w1 [e | d]]; try done;
    by destruct (apply_workflow _ _ _ _ _ _ _ _ w1) as [w2 [e | d']].
Qed.

Lemma preserves_outside_loaded (doctype action : string) (transition : pyval)
    (docname : string) :
  preserves outside (d ← get_doc (PStr doctype) (PStr docname);
                     apply_workflow d action transition PNone PNone PNone PNone PNone).
Proof.
  apply preserves_bind; [apply preserves_outside_get_doc |].
  intros d. apply preserves_outside_apply_workflow.
Qed.

Lemma bulk_item_world (docnames : list string) (doctype action : string)
    (transition : pyval) (idx : nat) (docname : string)
    (failed successful : list (string * list Entry)) (w : World) :
  let r := bulk_try docnames doctype action transition idx docname w in
  fst (bulk_item docnames doctype action transition idx docname failed successful w)
  = set_message_log []
      match snd r with
      | inr _ => fst r
      | inl _ =>
          log_event (EvLogError (error_title action doctype docname))
            (set_db (set_error_logs
                       (error_logs (committed (fst r))
                        ++ [error_title action doctype docname])
                       (committed (fst r)))
                    (log_event EvRollback (set_db (committed (fst r)) (fst r))))
      end.
Proof.
  cbv zeta. unfold bulk_item.
  destruct (bulk_try docnames doctype action transition idx docname w) as [w1 [e | []]];
    cbn [fst snd].
  - unfold db_rollback, log_error. unfold_monad. cbn [fst snd].
    case_bool_decide as Hlog.
    + unfold bulk_finally. cbn [fst]. by rewrite set_message_log_id.
    + by rewrite bulk_finally_run.
  - by rewrite bulk_finally_run.
Qed.

Lemma bulk_item_progress (docnames : list string) (doctype action : string)
    (transition : pyval) (idx : nat) (docname : string)
    (failed successful : list (string * list Entry)) (w : World) :
  List.filter is_progress
    (trace (fst (bulk_item docnames doctype action transition idx docname
                           failed successful w)))
  = List.filter is_progress (trace w)
    ++ (if (5 <=? length docnames)%nat
        then [EvProgress idx (length docnames) ("Applying: " ++ action)%string docname]
        else []).
Proof.
  rewrite bulk_item_world. cbv zeta. rewrite bulk_try_split.
  assert (Hpre := preserves_progress_of_outside _
                    (preserves_outside_loaded doctype action transition docname)).
  set (w0 := if (5 <=? length docnames)%nat
             then log_event (EvProgress idx (length docnames)
                               ("Applying: " ++ action)%string docname) w
             else w) in *.
  assert (Hw0 : List.filter is_progress (trace w0)
                = List.filter is_progress (trace w)
                  ++ (if (5 <=? length docnames)%nat
                      then [EvProgress idx (length docnames)
                              ("Applying: " ++ action)%string docname]
                      else [])).
  { subst w0. destruct (5 <=? length docnames)%nat; simpl.
    - by rewrite List.filter_app.
    - by rewrite app_nil_r. }
  specialize (Hpre w0). simpl in Hpre. rewrite <- Hw0, <- Hpre.
  destruct ((d ← get_doc (PStr doctype) (PStr docname);
             apply_workflow d action transition PNone PNone PNone PNone PNone) w0)
    as [w1 [e | d]]; simpl; rewrite ?List.filter_app; simpl; by rewrite ?app_nil_r.
Qed.

Lemma bulk_loop_progress (docnames : list string) (doctype action : string)
    (transition : pyval) (todo : list string) (idx : nat)
    (failed successful : list (string * list Entry)) (w : World) :
  List.filter is_progress
    (trace (fst (bulk_loop docnames doctype action transition idx todo failed successful w)))
  = List.filter is_progress (trace w)
    ++ (if (5 <=? length docnames)%nat
        then progress_events (length docnames) ("Applying: " ++ action)%string idx todo
        else []).
Proof.
  revert idx failed successful w.
  induction todo as [| docname todo IH]; intros idx failed successful w;
    cbn [bulk_loop progress_events].
  - destruct (5 <=? length docnames)%nat; rewrite app_nil_r; reflexivity.
  - destruct (bulk_item_run docnames doctype action transition idx docname w)
      as (w1 & Hitem & _ & _).
    assert (Hprog := bulk_item_progress docnames doctype action transition idx docname
                       failed successful w).
    unfold_monad. rewrite (Hitem failed successful) in *. cbn [fst snd] in *.
    rewrite IH, Hprog, <- app_assoc.
    by destruct (5 <=? length docnames)%nat.
Qed.

(** X17: progress is reported for batches of five references or more, and
    then once per reference, in input order, with the position counted from
    1, the size of the batch, the title 'Applying: ' and the action, and the
    reference as description; a batch of fewer than five reports none. *)
Theorem bulk_progress (docnames : list string) (doctype action : string)
    (transition : pyval) (w : World) :
  List.filter is_progress
    (trace (fst (bulk_workflow_approval docnames doctype action transition w)))
  = List.filter is_progress (trace w)
    ++ (if (5 <=? length docnames)%nat
        then progress_events (length docnames) ("Applying: " ++ action)%string 1 docnames
        else []).
Proof.
  destruct (bulk_workflow_approval_run docnames doctype action transition w)
    as (w' & failed & successful & Hloop & _ & _ & Htrace & _).
  rewrite Htrace.
  assert (Hprog := bulk_loop_progress docnames doctype action transition docnames 1 [] []
                     (set_message_log [] w)).
  by rewrite Hloop in Hprog.
Qed.


End Bulk_properties.

Section Ledger_properties.
Context `{Frappe}.

(** ** The views on the ledger *)

Lemma length_filter_split {A : Type} (p q : A -> bool) (l : list A) :
  length (List.filter p l)
  = (length (List.filter (fun a => p a && negb (q a)) l)
     + length (List.filter (fun a => p a && q a) l))%nat.
Proof.
  induction l as [| a l IH]; simpl; [done |].
  destruct (p a), (q a); simpl; lia.
Qed.

Lemma length_filter_agree {A : Type} (p q : A -> bool) (l : list A) :
  (forall a, p a = q a) -> length (List.filter p l) = length (List.filter q l).
Proof. intros Hpq. f_equal. apply List.filter_ext. exact Hpq. Qed.

Lemma py_eq_str_str (a b : string) : py_eq (PStr a) (PStr b) = String.eqb a b.
Proof.
  unfold py_eq. simpl. destruct (String.eqb_spec a b) as [-> | Hne].
  - by rewrite bool_decide_true.
  - rewrite bool_decide_false; [done | congruence].
Qed.

(** X19: the count that holds a state back in mode All and the list a user
    is shown add up: for a named user other than the administrator, the open
    actions of a document at a state shown to everybody are as many as those
    shown to that user plus those [other_user_open_action_count] counts
    against that user. *)
Theorem open_actions_partition (d : Doc) (state user : string) (w : World) :
  str_truthy user = true ->
  user <> "Administrator"%string ->
  exists everybody own others,
    get_open_workflow_action d (PStr state) PNone w = (w, inr everybody)
    /\ get_open_workflow_action d (PStr state) (PStr user) w = (w, inr own)
    /\ other_user_open_action_count d state user w = (w, inr others)
    /\ Z.of_nat (length everybody) = (others + Z.of_nat (length own))%Z.
Proof.
  intros Huser Hadmin.
  assert (Htruthy : truthy (PStr user) = true) by exact Huser.
  assert (Hnot : py_eq (PStr user) (PStr "Administrator") = false).
  { rewrite py_eq_str_str. by destruct (String.eqb_spec user "Administrator"). }
  exists (List.map user_action_row
            (List.filter (open_workflow_action d (PStr state) PNone) (actions (db w)))),
         (List.map user_action_row
            (List.filter (open_workflow_action d (PStr state) (PStr user)) (actions (db w)))),
         (other_open_count d state user (db w)).
  split; [reflexivity |]. split; [| split].
  - unfold get_open_workflow_action. by rewrite Htruthy, Hnot.
  - unfold other_user_open_action_count. unfold_monad. by rewrite Huser.
  - unfold other_open_count. rewrite !length_map, <- Nat2Z.inj_add. f_equal.
    rewrite (length_filter_split _ (fun a => String.eqb (Action.user a) user)).
    f_equal; apply length_filter_agree; intros a;
      unfold open_workflow_action, other_open_action; rewrite ?Htruthy; simpl;
      rewrite !py_eq_str_str;
      destruct (String.eqb (Action.status a) "Completed"),
               (String.eqb (Action.workflow_state a) state),
               (String.eqb (Action.user a) user),
               (py_eq (Action.reference_doctype a) (doc_get d "doctype")),
               (py_eq (Action.reference_name a) (doc_get d "name")); reflexivity.
Qed.

(** ** The cancel query *)

Lemma no_transition_into_existsb (state : string) (transitions : list Transition.t) :
  no_transition_into state transitions
  = negb (existsb (fun t => String.eqb (Transition.next_state t) state) transitions).
Proof.
  induction transitions as [| t ts IH]; simpl; [done |].
  by destruct (String.eqb (Transition.next_state t) state).
Qed.

Lemma can_cancel_states_first (states : list DocState.t) (transitions : list Transition.t) :
  can_cancel_states states transitions
  = match List.find (fun s => py_eq (DocState.doc_status s) (PStr "2")) states with
    | None => true
    | Some s =>
        negb (existsb (fun t => String.eqb (Transition.next_state t) (DocState.state s))
                      transitions)
    end.
Proof.
  induction states as [| s states IH]; simpl; [done |].
  destruct (py_eq (DocState.doc_status s) (PStr "2")); [| exact IH].
  apply no_transition_into_existsb.
Qed.

(** X20: [can_cancel_document] looks at one state only, the first whose
    [doc_status] is the string '2': the answer is [True] when there is no
    such state, and otherwise [False] exactly when some transition leads into
    that first one; later cancelled states are never examined.  When
    [get_workflow] finds no workflow for the argument, as for any argument
    without the attribute [workflow_def], the call ends in
    [AttributeError]. *)
Theorem can_cancel_document_first_cancelled (doctype : Doc) (w : World) :
  can_cancel_document doctype w
  = match get_workflow doctype w with
    | (w1, inr (Some wf)) =>
        (w1, inr match List.find (fun s => py_eq (DocState.doc_status s) (PStr "2"))
                                 (Workflow.states wf) with
                 | None => true
                 | Some s =>
                     negb (existsb (fun t => String.eqb (Transition.next_state t)
                                                        (DocState.state s))
                                   (Workflow.transitions wf))
                 end)
    | (w1, inr None) =>
        (w1, inl (Exn AttributeError
                      ["'NoneType' object has no attribute 'states'"%string]))
    | (w1, inl e) => (w1, inl e)
    end
  /\ (hasattr doctype "workflow_def" = false ->
      can_cancel_document doctype w
      = (w, inl (Exn AttributeError
                     ["'NoneType' object has no attribute 'states'"%string]))).
Proof.
  split.
  - unfold can_cancel_document. unfold_monad.
    destruct (get_workflow doctype w) as [w1 [e | [wf |]]]; try done.
    by rewrite can_cancel_states_first.
  - intros Hattr. unfold can_cancel_document, get_workflow. by rewrite Hattr.
Qed.

(** ** The state after a lifecycle action *)

(** X21: when some state of the workflow already has the document's state
    name and a [doc_status] equal to the document's [docstatus],
    [set_workflow_state_on_action] writes nothing, whatever the action is:
    even an action outside the map raises no error. *)
Theorem set_workflow_state_keeps_correct_state (d : Doc) (workflow_name : pyval)
    (action : string) (w : World) (wf : Workflow.t) :
  workflow_docs (db w) !! py_str workflow_name = Some wf ->
  state_is_correct wf d = true ->
  set_workflow_state_on_action d workflow_name action w = (set_doc d w, inr tt).
Proof.
  intros Hwf Hok. unfold set_workflow_state_on_action, get_doc_workflow. unfold_monad.
  simpl. by rewrite Hwf, Hok.
Qed.

(** X22: otherwise the action decides.  For [submit] and
    [update_after_submit] the state field is set to the first state whose
    [doc_status] is the string '1', for [cancel] to the first whose
    [doc_status] is '2'; when the workflow has no such state nothing is
    written and no error is raised; any other action raises [KeyError].
    Nothing but the state field is ever written. *)
Theorem set_workflow_state_by_action (d : Doc) (workflow_name : pyval)
    (action : string) (w : World) (wf : Workflow.t) :
  workflow_docs (db w) !! py_str workflow_name = Some wf ->
  state_is_correct wf d = false ->
  let run := set_workflow_state_on_action d workflow_name action w in
  let field := Workflow.workflow_state_field wf in
  let first_with (docstatus : string) :=
    List.find (fun s => py_eq (DocState.doc_status s) (PStr docstatus))
              (Workflow.states wf) in
  let written_for (docstatus : string) :=
    match first_with docstatus with
    | Some s =>
        snd run = inr tt /\ doc (fst run) = <[field := PStr (DocState.state s)]> d
        /\ trace (fst run) = trace w ++ [EvSet field (PStr (DocState.state s))]
    | None => run = (set_doc d w, inr tt)
    end in
  (action = "submit"%string \/ action = "update_after_submit"%string -> written_for "1"%string)
  /\ (action = "cancel"%string -> written_for "2"%string)
  /\ (action <> "submit"%string -> action <> "update_after_submit"%string ->
      action <> "cancel"%string ->
      run = (set_doc d w, inl (Exn (OtherError "KeyError") [action]))).
Proof.
  intros Hwf Hbad. cbv zeta.
  unfold set_workflow_state_on_action, get_doc_workflow, doc_set. unfold_monad. simpl.
  rewrite Hwf, Hbad.
  split; [| split].
  - intros [-> | ->]; simpl; by destruct (List.find _ (Workflow.states wf)).
  - intros ->. simpl. by destruct (List.find _ (Workflow.states wf)).
  - intros Hs Hu Hc. unfold action_map.
    destruct (String.eqb_spec action "update_after_submit"); [done |].
    destruct (String.eqb_spec action "submit"); [done |].
    by destruct (String.eqb_spec action "cancel").
Qed.

End Ledger_properties.

Section Validator_properties.
Context `{Frappe}.
Variable bold : string -> string.

(** ** The save-time validator *)

Lemma py_eq_str_r (v : pyval) (s : string) : py_eq v (PStr s) = true <-> v = PStr s.
Proof.
  unfold py_eq. destruct v; simpl; try (split; discriminate).
  rewrite bool_decide_eq_true. split; congruence.
Qed.

Lemma py_eq_refl_str (s : string) : py_eq (PStr s) (PStr s) = true.
Proof. by apply py_eq_str. Qed.

Lemma py_eq_ne_str_r (v : pyval) (s : string) : v <> PStr s -> py_eq v (PStr s) = false.
Proof.
  intros Hne. destruct (py_eq v (PStr s)) eqn:Heq; [| done].
  by apply py_eq_str_r in Heq.
Qed.

Lemma py_eq_ne_str (v : pyval) (s : string) : v <> PStr s -> py_eq (PStr s) v = false.
Proof.
  intros Hne. destruct (py_eq (PStr s) v) eqn:Heq; [| done].
  by apply py_eq_str in Heq.
Qed.

Lemma hasattr_doc_get (d : Doc) (f s : string) : doc_get d f = PStr s -> hasattr d f = true.
Proof.
  unfold doc_get, hasattr. intros Hget. apply bool_decide_eq_true.
  destruct (d !! f); [by eexists | discriminate].
Qed.

Lemma filter_nil_existsb {A : Type} (p : A -> bool) (l : list A) :
  existsb p l = false -> List.filter p l = [].
Proof.
  induction l as [| a l IH]; simpl; [done |].
  destruct (p a); [discriminate | exact IH].
Qed.

Lemma filter_cons_existsb {A : Type} (p : A -> bool) (l : list A) :
  existsb p l = true -> exists a rest, List.filter p l = a :: rest.
Proof.
  induction l as [| a l IH]; simpl; [discriminate |].
  destruct (p a); [by eexists _, _ | exact IH].
Qed.

Lemma current_state_default (before_save : BeforeSave) (wf : Workflow.t)
    (first : DocState.t) (rest : list DocState.t) :
  Workflow.states wf = first :: rest ->
  previous_is_default before_save (Workflow.workflow_state_field wf) (DocState.state first) ->
  (if negb (truthy match before_save with
                   | Snapshot before => doc_get before (Workflow.workflow_state_field wf)
                   | _ => PNone
                   end)
   then s ← first_state wf; mret (PStr s)
   else mret match before_save with
             | Snapshot before => doc_get before (Workflow.workflow_state_field wf)
             | _ => PNone
             end)
  = (mret (PStr (DocState.state first)) : M pyval).
Proof.
  intros Hstates Hprev. unfold first_state. rewrite Hstates.
  destruct before_save as [| | before]; simpl in *; try done.
  destruct Hprev as [Hfalse | Hdef].
  - by rewrite Hfalse.
  - rewrite Hdef. by destruct (truthy (PStr (DocState.state first))).
Qed.

(** X23: the owner of a document whose previous state is the workflow's
    first state (or who saves it for the first time) passes the validator
    with any value in the state field, with no transition looked up: not even
    the existence of the new state is checked. *)
Theorem validate_workflow_owner_at_default (d : Doc) (before_save : BeforeSave)
    (w w1 : World) (wf : Workflow.t) (first : DocState.t) (rest : list DocState.t) :
  get_workflow d (set_doc d w) = (w1, inr (Some wf)) ->
  Workflow.states wf = first :: rest ->
  truthy (doc_get d (Workflow.workflow_state_field wf)) = true ->
  doc_get d "owner" = PStr (session_user w) ->
  previous_is_default before_save (Workflow.workflow_state_field wf) (DocState.state first) ->
  validate_workflow bold d before_save w = (w1, inr tt).
Proof.
  intros Hwf Hstates Hnext Hown Hprev.
  unfold validate_workflow. unfold_monad. simpl. rewrite Hwf, Hnext. simpl.
  assert (Hcur := current_state_default before_save wf first rest Hstates Hprev).
  unfold_monad. rewrite Hcur. unfold first_state. rewrite Hstates. simpl.
  apply get_workflow_site in Hwf as (Hu & Hd & _). simpl in *.
  by rewrite Hu, Hd, Hown, !py_eq_refl_str.
Qed.

(** X24: a document saved with an empty state field, and with no other
    previous state than the first, is given the workflow's first state: the
    state field is written once and the validator accepts, whoever saves. *)
Theorem validate_workflow_defaults_state (d : Doc) (before_save : BeforeSave)
    (w w1 : World) (wf : Workflow.t) (first : DocState.t) (rest : list DocState.t) :
  get_workflow d (set_doc d w) = (w1, inr (Some wf)) ->
  Workflow.states wf = first :: rest ->
  truthy (doc_get d (Workflow.workflow_state_field wf)) = false ->
  previous_is_default before_save (Workflow.workflow_state_field wf) (DocState.state first) ->
  let run := validate_workflow bold d before_save w in
  let field := Workflow.workflow_state_field wf in
  snd run = inr tt
  /\ doc (fst run) = <[field := PStr (DocState.state first)]> d
  /\ trace (fst run) = trace w ++ [EvSet field (PStr (DocState.state first))].
Proof.
  intros Hwf Hstates Hnext Hprev. cbv zeta.
  unfold validate_workflow. unfold_monad. simpl. rewrite Hwf, Hnext. simpl.
  assert (Hcur := current_state_default before_save wf first rest Hstates Hprev).
  unfold_monad. unfold first_state at 1. rewrite Hstates. unfold doc_set. unfold_monad.
  simpl. rewrite Hcur. unfold first_state. rewrite Hstates. simpl.
  apply get_workflow_site in Hwf as (_ & Hd & _ & _ & Ht). simpl in *.
  rewrite !py_eq_refl_str, Hd.
  destruct (py_eq _ _ && true); [simpl; rewrite ?Hd, ?Ht; by repeat split |].
  destruct (hasattr _ _ && _ && true); simpl; rewrite ?Hd, ?Ht; by repeat split.
Qed.

(** X25: without a stored snapshot a state other than the first is
    refused to everybody but the owner: the validator throws
    [WorkflowPermissionError], naming the first state as the one the
    transition starts from, and writes nothing.  When the document object
    lacks the attribute [_doc_before_save] altogether the same situation ends
    in [AttributeError]. *)
Theorem validate_workflow_no_snapshot (d : Doc) (before_save : BeforeSave)
    (w w1 : World) (wf : Workflow.t) (first : DocState.t) (rest : list DocState.t) :
  get_workflow d (set_doc d w) = (w1, inr (Some wf)) ->
  Workflow.states wf = first :: rest ->
  let next_state := doc_get d (Workflow.workflow_state_field wf) in
  truthy next_state = true ->
  next_state <> PStr (DocState.state first) ->
  doc_get d "owner" <> PStr (session_user w) ->
  let run := validate_workflow bold d before_save w in
  match before_save with
  | IsNone =>
      snd run = inl (Exn WorkflowPermissionError
                       [transition_not_allowed bold (PStr (DocState.state first)) next_state])
      /\ doc (fst run) = d /\ trace (fst run) = trace w
  | NoAttribute =>
      run = (w1, inl (Exn AttributeError
                        ["'Document' object has no attribute '_doc_before_save'"%string]))
  | Snapshot _ => True
  end.
Proof.
  intros Hwf Hstates next_state Hnext Hchanged Hown. cbv zeta.
  destruct before_save as [| | before]; [| | done];
    unfold validate_workflow; unfold_monad; simpl; rewrite Hwf; fold next_state;
    rewrite Hnext; simpl; unfold first_state; rewrite Hstates; simpl;
    apply get_workflow_site in Hwf as (Hu & Hd & _ & _ & Ht); simpl in *;
    rewrite Hu, Hd, (py_eq_ne_str _ _ Hown), (py_eq_ne_str_r _ _ Hchanged),
      (py_eq_ne_str _ _ Hchanged), py_eq_refl_str, andb_false_r; simpl.
  - reflexivity.
  - by rewrite Hd, Ht.
Qed.

(** X26: with a stored snapshot in a known state, and outside the two
    shortcuts (owner at the first state; Reject back to the first state), a
    changed state passes exactly when one of the transitions available on the
    snapshot leads to it; otherwise [WorkflowPermissionError] is thrown.  The
    action label plays no part. *)
Theorem validate_workflow_follows_transitions (d before : Doc) (w w1 w2 : World)
    (wf : Workflow.t) (first : DocState.t) (rest : list DocState.t)
    (ts : list Transition.t) :
  let field := Workflow.workflow_state_field wf in
  let current_state := doc_get before field in
  let next_state := doc_get d field in
  get_workflow d (set_doc d w) = (w1, inr (Some wf)) ->
  Workflow.states wf = first :: rest ->
  truthy current_state = true ->
  truthy next_state = true ->
  py_eq current_state next_state = false ->
  py_eq (PStr (session_user w)) (doc_get d "owner")
  && py_eq current_state (PStr (DocState.state first)) = false ->
  hasattr d "workflow_action" && py_eq (doc_get d "workflow_action") (PStr "Reject")
  && py_eq next_state (PStr (DocState.state first)) = false ->
  existsb (fun s => py_eq (PStr (DocState.state s)) current_state) (Workflow.states wf)
  = true ->
  get_transitions before None false w1 = (w2, inr ts) ->
  validate_workflow bold d (Snapshot before) w
  = if existsb (fun t => py_eq (PStr (Transition.next_state t)) next_state) ts
    then (w2, inr tt)
    else throw (transition_not_allowed bold current_state next_state)
               WorkflowPermissionError w2.
Proof.
  intros field current_state next_state Hwf Hstates Hcur Hnext Hchanged Howner Hreject
    Hknown Hts.
  unfold validate_workflow. unfold_monad. simpl. rewrite Hwf.
  fold field. fold next_state. fold current_state. rewrite Hnext, Hcur. simpl.
  unfold first_state. rewrite Hstates. simpl.
  apply get_workflow_site in Hwf as (Hu & Hd & _). simpl in *.
  rewrite Hu, Hd, Howner, Hreject.
  destruct (filter_cons_existsb _ _ Hknown) as (s & others & Hrow).
  rewrite Hstates in Hrow. simpl in Hrow. rewrite Hrow, Hchanged. simpl.
  unfold validate_transition. unfold_monad. rewrite Hts.
  destruct (existsb _ ts) eqn:Hex.
  - by destruct (filter_cons_existsb _ _ Hex) as (t & more & ->).
  - by rewrite (filter_nil_existsb _ _ Hex).
Qed.

(** X27: a snapshot whose state is not a state of the workflow is refused
    with a [ValidationError] naming that state, outside the two shortcuts and
    whatever the new state is, before any transition is looked up. *)
Theorem validate_workflow_unknown_previous_state (d before : Doc) (w w1 : World)
    (wf : Workflow.t) (first : DocState.t) (rest : list DocState.t) :
  let field := Workflow.workflow_state_field wf in
  let current_state := doc_get before field in
  let next_state := doc_get d field in
  get_workflow d (set_doc d w) = (w1, inr (Some wf)) ->
  Workflow.states wf = first :: rest ->
  truthy current_state = true ->
  truthy next_state = true ->
  py_eq (PStr (session_user w)) (doc_get d "owner")
  && py_eq current_state (PStr (DocState.state first)) = false ->
  hasattr d "workflow_action" && py_eq (doc_get d "workflow_action") (PStr "Reject")
  && py_eq next_state (PStr (DocState.state first)) = false ->
  existsb (fun s => py_eq (PStr (DocState.state s)) current_state) (Workflow.states wf)
  = false ->
  validate_workflow bold d (Snapshot before) w
  = throw (bold (py_str current_state)
           ++ " is not a valid Workflow State. Please update your Workflow and try again.")%string
          ValidationError w1.
Proof.
  intros field current_state next_state Hwf Hstates Hcur Hnext Howner Hreject Hunknown.
  unfold validate_workflow. unfold_monad. simpl. rewrite Hwf.
  fold field. fold next_state. fold current_state. rewrite Hnext, Hcur. simpl.
  unfold first_state. rewrite Hstates. simpl.
  apply get_workflow_site in Hwf as (Hu & Hd & _). simpl in *.
  rewrite Hu, Hd, Howner, Hreject.
  assert (Hrow := filter_nil_existsb _ _ Hunknown).
  rewrite Hstates in Hrow. simpl in Hrow. by rewrite Hrow.
Qed.

(** X28: a document whose [workflow_action] is Reject and whose state
    field holds the workflow's first state passes the validator whatever its
    previous state was and whoever saves it: this is the shape
    [apply_workflow] gives a document before it saves a rejection. *)
Theorem validate_workflow_accepts_reject (d : Doc) (before_save : BeforeSave)
    (w w1 : World) (wf : Workflow.t) (first : DocState.t) (rest : list DocState.t) :
  get_workflow d (set_doc d w) = (w1, inr (Some wf)) ->
  Workflow.states wf = first :: rest ->
  DocState.state first <> ""%string ->
  doc_get d (Workflow.workflow_state_field wf) = PStr (DocState.state first) ->
  doc_get d "workflow_action" = PStr "Reject" ->
  validate_workflow bold d before_save w = (w1, inr tt).
Proof.
  intros Hwf Hstates Hname Hstate Haction.
  assert (Htruthy : truthy (PStr (DocState.state first)) = true).
  { simpl. by destruct (String.eqb_spec (DocState.state first) ""). }
  unfold validate_workflow. unfold_monad. simpl. rewrite Hwf, Hstate, Htruthy. simpl.
  unfold first_state. rewrite Hstates. simpl.
  apply get_workflow_site in Hwf as (Hu & Hd & _). simpl in *.
  destruct (negb (truthy _)); simpl;
    rewrite Hd, Haction, (hasattr_doc_get _ _ _ Haction), !py_eq_refl_str; simpl;
    by destruct (py_eq _ _ && _).
Qed.

End Validator_properties.

Section Common_actions_properties.
Context `{Frappe}.

(** ** The actions common to a selection *)

Lemma split_on_no_sep (sep : Ascii.ascii) (s : string) :
  contains sep s = false -> split_on sep s = [s].
Proof.
  induction s as [| c s IH]; simpl; [done |].
  intros Hc. apply orb_false_iff in Hc as [Hc Hs]. rewrite Hc, (IH Hs). reflexivity.
Qed.

Lemma split_on_app (sep : Ascii.ascii) (a rest : string) :
  contains sep a = false ->
  split_on sep (a ++ String sep rest)%string = a :: split_on sep rest.
Proof.
  induction a as [| c a IH]; simpl.
  - intros _. by rewrite Ascii.eqb_refl.
  - intros Hc. apply orb_false_iff in Hc as [Hc Ha]. rewrite Hc, (IH Ha). reflexivity.
Qed.

Lemma split_on_join (sep : Ascii.ascii) (pieces : list string) :
  pieces <> [] ->
  (forall piece, In piece pieces -> contains sep piece = false) ->
  split_on sep (join_with sep pieces) = pieces.
Proof.
  induction pieces as [| piece pieces IH]; [done |].
  intros _ Hfree. destruct pieces as [| piece' pieces].
  - simpl. apply split_on_no_sep. apply Hfree. by left.
  - change (join_with sep (piece :: piece' :: pieces))
      with (piece ++ String sep (join_with sep (piece' :: pieces)))%string.
    rewrite split_on_app by (apply Hfree; by left).
    f_equal. apply IH; [done |]. intros p Hin. apply Hfree. by right.
Qed.

Lemma contains_app (c : Ascii.ascii) (a b : string) :
  contains c (a ++ b)%string = contains c a || contains c b.
Proof.
  induction a as [| c' a IH]; simpl; [done |].
  by rewrite IH, orb_assoc.
Qed.

Lemma parse_action_encode (p : string * string) :
  contains ":" (fst p) = false -> contains ":" (snd p) = false ->
  parse_action (encode_action p) = inr p.
Proof.
  intros Ha Ht. unfold parse_action, encode_action.
  rewrite (split_on_app _ _ _ Ha), (split_on_no_sep _ _ Ht). by destruct p.
Qed.

Lemma parse_actions_encode (ps : list (string * string)) :
  (forall p, In p ps -> contains ":" (fst p) = false /\ contains ":" (snd p) = false) ->
  parse_actions (List.map encode_action ps) = inr ps.
Proof.
  induction ps as [| p ps IH]; simpl; [done |].
  intros Hfree. destruct (Hfree p (or_introl eq_refl)) as [Ha Ht].
  rewrite (parse_action_encode p Ha Ht), IH; [done |].
  intros q Hq. apply Hfree. by right.
Qed.

Lemma remove_dups_constant {A : Type} `{EqDecision A} (v : A) (l : list A) :
  l <> [] -> (forall x, In x l -> x = v) -> remove_dups l = [v].
Proof.
  induction l as [| x l IH]; [done |].
  intros _ Hall. assert (x = v) as -> by (apply Hall; by left).
  destruct l as [| y l]; [done |].
  assert (y = v) as -> by (apply Hall; right; by left).
  change (remove_dups (v :: v :: l))
    with (if decide_rel elem_of v (v :: l) then remove_dups (v :: l)
          else v :: remove_dups (v :: l)).
  destruct (decide_rel elem_of v (v :: l)) as [_ | Hnin].
  - apply IH; [done |]. intros z Hz. apply Hall. by right.
  - exfalso. apply Hnin. by left.
Qed.

Lemma remove_dups_singleton {A : Type} `{EqDecision A} (v : A) (l : list A) :
  remove_dups l = [v] -> forall x, In x l -> x = v.
Proof.
  intros Hdup x Hin. apply list_elem_of_In, elem_of_remove_dups in Hin.
  rewrite Hdup in Hin. by apply list_elem_of_singleton in Hin.
Qed.

(** X29: [get_common_transition_actions] offers something only when the
    open actions of the acting user on the selected documents all carry one
    and the same [actions] value: a non-empty answer means that every two of
    those rows agree, and the call changes nothing on the site.  Selected
    documents on which the user has no open action are not counted
    against. *)
Theorem common_actions_agree (docs : list Doc) (doctype : string) (w : World)
    (p : string * string) (ps : list (string * string)) :
  let selected :=
    List.filter (selected_open_action (List.map (fun d => doc_get d "name") docs) doctype
                                      (session_user w))
                (actions (db w)) in
  snd (get_common_transition_actions docs doctype w) = inr (Some (p :: ps)) ->
  selected <> []
  /\ (forall a b, In a selected -> In b selected -> Action.actions a = Action.actions b)
  /\ fst (get_common_transition_actions docs doctype w) = w.
Proof.
  intros selected. unfold get_common_transition_actions. unfold_monad. fold selected.
  destruct (remove_dups (List.map Action.actions selected)) as [| v [| v' l]] eqn:Hdup;
    [discriminate | | discriminate].
  intros Hrun. split; [| split].
  - intros Hnil. rewrite Hnil in Hdup. discriminate.
  - intros a b Ha Hb.
    rewrite (remove_dups_singleton v _ Hdup (Action.actions a)),
            (remove_dups_singleton v _ Hdup (Action.actions b));
      [done | by apply in_map | by apply in_map].
  - clear Hrun. destruct v as [| | | s]; simpl; try reflexivity.
    destruct (parse_actions (split_on ";" s)) as [e | l]; simpl; [| done].
    by case_bool_decide.
Qed.

(** X30: the [actions] value is read back as it is written.  When every
    open action of the user on the selection carries the entries
    [action:transition] joined by [;], the names holding neither character,
    the call returns exactly those pairs in order.  A value without any
    [:], the empty string included, ends in [IndexError] instead. *)
Theorem common_actions_round_trip (docs : list Doc) (doctype : string) (w : World)
    (ps : list (string * string)) (s : string) :
  let selected :=
    List.filter (selected_open_action (List.map (fun d => doc_get d "name") docs) doctype
                                      (session_user w))
                (actions (db w)) in
  selected <> [] ->
  (forall a, In a selected -> Action.actions a = PStr s) ->
  (ps <> [] ->
   (forall p, In p ps -> contains ":" (fst p) = false /\ contains ":" (snd p) = false
                         /\ contains ";" (fst p) = false /\ contains ";" (snd p) = false) ->
   s = join_with ";" (List.map encode_action ps) ->
   get_common_transition_actions docs doctype w = (w, inr (Some ps)))
  /\ (contains ":" s = false ->
      get_common_transition_actions docs doctype w = (w, inl index_error)).
Proof.
  intros selected Hsel Hall.
  assert (Hdup : remove_dups (List.map Action.actions selected) = [PStr s]).
  { apply remove_dups_constant.
    - destruct selected; [done | discriminate].
    - intros x Hin. apply in_map_iff in Hin as (a & <- & Ha). by apply Hall. }
  split.
  - intros Hps Hfree ->.
    unfold get_common_transition_actions. unfold_monad. fold selected. rewrite Hdup.
    rewrite split_on_join.
    + rewrite parse_actions_encode; [done |].
      intros p Hp. by destruct (Hfree p Hp) as (? & ? & _).
    + destruct ps; [done | discriminate].
    + intros piece Hin. apply in_map_iff in Hin as (p & <- & Hp).
      destruct (Hfree p Hp) as (_ & _ & Ha & Ht).
      unfold encode_action. rewrite contains_app. simpl. by rewrite Ha, Ht.
  - intros Hnone.
    unfold get_common_transition_actions. unfold_monad. fold selected. rewrite Hdup.
    assert (Hfirst : exists piece pieces,
               split_on ";" s = piece :: pieces /\ contains ":" piece = false).
    { clear -Hnone. induction s as [| c s IH]; simpl in *; [by eexists _, _ |].
      apply orb_false_iff in Hnone as [Hc Hs].
      destruct (IH Hs) as (piece & pieces & Hsplit & Hpiece).
      destruct (Ascii.eqb c ";"); [by eexists _, _ |].
      rewrite Hsplit. eexists _, _. split; [done |]. simpl. by rewrite Hc, Hpiece. }
    destruct Hfirst as (piece & pieces & -> & Hpiece).
    simpl. unfold parse_action. by rewrite (split_on_no_sep _ _ Hpiece).
Qed.

End Common_actions_properties.

(** ** More examples on the concrete site *)

Section More_examples.
Import Demo Cases.

Lemma get_workflow_cached_witness :
  let w := site "bob" (database [alice_draft] []) in
  let w1 := set_cache [(alice_object, leave_approval)] w in
  let w2 := set_db (mkDB [] ∅ ∅ [] [] [] []) w1 in
  get_workflow (H := quiet) alice_later w2 = (w2, inr (Some leave_approval))
  /\ get_workflow (H := quiet) alice_copy w1
     = (set_cache [(alice_copy, leave_approval); (alice_object, leave_approval)] w,
        inr (Some leave_approval)).
Proof.
  cbv zeta.
  destruct (get_workflow_cached (H := quiet) alice_object alice_later
              (site "bob" (database [alice_draft] []))
              (set_cache [(alice_object, leave_approval)]
                 (site "bob" (database [alice_draft] [])))
              (set_db (mkDB [] ∅ ∅ [] [] [] [])
                 (set_cache [(alice_object, leave_approval)]
                    (site "bob" (database [alice_draft] []))))
              leave_approval) as [Hsame _]; try (vm_compute; reflexivity).
  destruct (get_workflow_cached (H := quiet) alice_object alice_copy
              (site "bob" (database [alice_draft] []))
              (set_cache [(alice_object, leave_approval)]
                 (site "bob" (database [alice_draft] [])))
              (set_cache [(alice_object, leave_approval)]
                 (site "bob" (database [alice_draft] [])))
              leave_approval) as [_ Hother]; try (vm_compute; reflexivity).
  split.
  - apply Hsame. vm_compute. reflexivity.
  - apply Hother. intros e [<- | []]. vm_compute. reflexivity.
Defined.

(** Bob rejects Alice's application without naming a transition.  The
    search finds the row Reject, line 205 points it at Draft, and the
    workflow the cache holds for this document object has the row changed:
    the next [get_transitions] on the object lists Reject as leading to
    Draft.  With the transition named the cached workflow stays as it was
    loaded. *)
Example scenario_reject_alters_cached_workflow :
  let w := site "bob" (database [alice_review] []) in
  let searched_run := apply_workflow (H := quiet) review_object "Reject"
                        PNone PNone PNone PNone PNone PNone w in
  let named_run := apply_workflow (H := quiet) review_object "Reject"
                     (PStr "T-REJECT") PNone PNone PNone PNone PNone w in
  let again := <["workflow_state" := PStr "Review"]> review_object in
  List.map snd (cache (fst searched_run))
  = [retarget_workflow reject "Draft" leave_approval]
  /\ snd (get_transitions (H := quiet) again None false (fst searched_run))
     = inr [approve; set_next_state "Draft" reject]
  /\ List.map snd (cache (fst named_run)) = [leave_approval]
  /\ snd (get_transitions (H := quiet) again None false (fst named_run))
     = inr [approve; reject]
  /\ doc_get (doc (fst searched_run)) "workflow_state" = PStr "Draft"
  /\ doc_get (doc (fst named_run)) "workflow_state" = PStr "Draft".
Proof. cbv zeta. repeat split; vm_compute; reflexivity. Qed.

Lemma get_workflow_first_assignment_witness :
  get_workflow (H := quiet) alice_unsaved (site "alice" ruled_database)
  = (site "alice" ruled_database, inr (Some leave_approval)).
Proof.
  etransitivity.
  - apply (get_workflow_first_assignment (H := quiet)).
    + vm_compute. reflexivity.
    + vm_compute. reflexivity.
    + intros a Hin. vm_compute in Hin. unfold condition_evaluates.
      destruct Hin as [<- | [<- | [<- | []]]]; eexists; vm_compute; reflexivity.
  - vm_compute. reflexivity.
Defined.

Lemma get_transitions_unreadable_witness :
  let w := site "bob" (database [alice_stateless] []) in
  let run := get_transitions (H := locked) alice_stateless None true w in
  snd run = inl (Exn PermissionError ["No permission for Leave Application"%string])
  /\ cache (fst run) = [].
Proof.
  cbv zeta.
  destruct (get_transitions_unreadable (H := locked) alice_stateless None true
              (site "bob" (database [alice_stateless] []))) as (Hrun & Hsite & _).
  - vm_compute. reflexivity.
  - reflexivity.
  - split; [exact Hrun |]. exact (f_equal (fun t => snd (fst t)) Hsite).
Defined.

Lemma get_transitions_no_state_witness :
  let w := site "bob" (database [alice_stateless] []) in
  let run := get_transitions (H := quiet) alice_stateless (Some leave_approval) true w in
  snd run = inl (Exn WorkflowStateError []) /\ message_log (fst run) = message_log w.
Proof.
  cbv zeta.
  destruct (get_transitions_no_state (H := quiet) alice_stateless leave_approval true
              (site "bob" (database [alice_stateless] []))) as [_ Hraw].
  - vm_compute. reflexivity.
  - reflexivity.
  - vm_compute. reflexivity.
  - exact Hraw.
Defined.

Lemma get_transitions_condition_error_witness :
  let w := site "bob" (database [alice_draft] []) in
  get_transitions (H := quiet) alice_draft (Some broken_approval) false w
  = (w, inl (Exn (OtherError "SyntaxError") ["invalid syntax"%string])).
Proof.
  cbv zeta.
  apply (get_transitions_condition_error (H := quiet) alice_draft broken_approval false
           (site "bob" (database [alice_draft] [])) [submit_for_review] [discard] escalate).
  - vm_compute. reflexivity.
  - reflexivity.
  - vm_compute. reflexivity.
  - reflexivity.
  - intros t' [<- | []] _. exists (PBool true). reflexivity.
  - vm_compute. reflexivity.
  - vm_compute. reflexivity.
Defined.

Lemma apply_workflow_no_workflow_witness :
  let w := site "alice" (database [alice_plain] []) in
  let run := apply_workflow (H := quiet) alice_plain "Submit for Review"
                            PNone PNone PNone PNone PNone PNone w in
  snd run = inl (Exn ValidationError ["No workflow assigned to the current document!"%string])
  /\ doc (fst run) = alice_plain /\ db (fst run) = db w /\ trace (fst run) = trace w.
Proof.
  cbv zeta.
  apply (apply_workflow_no_workflow (H := quiet) alice_plain "Submit for Review"
           PNone PNone PNone PNone PNone PNone
           (site "alice" (database [alice_plain] []))
           (set_doc alice_plain (site "alice" (database [alice_plain] [])))).
  vm_compute. reflexivity.
Defined.

Lemma apply_workflow_self_approval_refused_witness :
  let w := site "alice" (database [alice_review] []) in
  snd (apply_workflow (H := quiet) alice_review "Approve"
                      PNone PNone PNone PNone PNone PNone w)
  = inl (Exn ValidationError ["Self approval is not allowed"%string]).
Proof.
  cbv zeta.
  destruct (apply_workflow_self_approval_refused (H := quiet) alice_review "Approve"
              PNone PNone PNone PNone PNone PNone
              (site "alice" (database [alice_review] []))
              (at_gating alice_review leave_approval
                 (site "alice" (database [alice_review] [])))
              (at_gating alice_review leave_approval
                 (site "alice" (database [alice_review] [])))
              leave_approval approve) as [Hrun _].
  - reflexivity.
  - vm_compute. reflexivity.
  - vm_compute. reflexivity.
  - discriminate.
  - vm_compute. reflexivity.
  - reflexivity.
  - exact Hrun.
Defined.

Lemma apply_workflow_forward_witness :
  let w := site "alice" (database [alice_review] review_ledger) in
  let run := apply_workflow (H := quiet) alice_review "Forward" (PStr "no such transition")
                            PNone (PStr "dave") PNone PNone PNone w in
  snd run = inr alice_review /\ doc (fst run) = alice_review /\ trace (fst run) = trace w.
Proof.
  cbv zeta.
  destruct (apply_workflow_forward (H := quiet) alice_review "Forward"
              (PStr "no such transition") PNone (PStr "dave") PNone PNone PNone
              (site "alice" (database [alice_review] review_ledger))
              (at_gating alice_review leave_approval
                 (site "alice" (database [alice_review] review_ledger)))
              leave_approval) as (Hret & Hdoc & Htrace & _).
  - by left.
  - vm_compute. reflexivity.
  - by repeat split.
Defined.


Lemma submit_with_open_actions_reaches_gating :
  reaches_gating (H := quiet) alice_draft "Submit for Review" PNone
    (site "alice" (database [alice_draft] draft_ledger)) leave_approval submit_for_review
    (at_gating alice_draft leave_approval (site "alice" (database [alice_draft] draft_ledger))).
Proof.
  split; [reflexivity |]. split; [| reflexivity].
  exists (at_gating alice_draft leave_approval
            (site "alice" (database [alice_draft] draft_ledger))).
  split; vm_compute; reflexivity.
Defined.

Lemma apply_workflow_any_mode_advances_witness :
  let w := site "alice" (database [alice_draft] draft_ledger) in
  other_open_count alice_draft "Draft" "alice" (db w) = 1%Z
  /\ exists tail,
       trace (fst (apply_workflow (H := quiet) alice_draft "Submit for Review"
                                  PNone PNone PNone PNone PNone PNone w))
       = trace w ++ state_writes leave_approval "Submit for Review" PNone "Review" ++ tail.
Proof.
  cbv zeta. split; [reflexivity |].
  apply (apply_workflow_any_mode_advances (H := quiet) alice_draft "Submit for Review"
           PNone PNone PNone PNone PNone PNone
           (site "alice" (database [alice_draft] draft_ledger))
           (at_gating alice_draft leave_approval
              (site "alice" (database [alice_draft] draft_ledger)))
           leave_approval submit_for_review "Review"
           submit_with_open_actions_reaches_gating).
  - discriminate.
  - reflexivity.
  - reflexivity.
Defined.

Lemma apply_workflow_comments_success_witness :
  let w := site "alice" (database [alice_draft] []) in
  let run := apply_workflow (H := quiet) alice_draft "Submit for Review"
                            PNone PNone PNone PNone PNone PNone w in
  List.map comment_text (comments (db (fst run))) = ["Review None"%string].
Proof.
  cbv zeta.
  destruct (apply_workflow_comments_success (H := quiet) alice_draft "Submit for Review"
              PNone PNone PNone PNone PNone PNone
              (site "alice" (database [alice_draft] []))
              (at_gating alice_draft leave_approval (site "alice" (database [alice_draft] [])))
              leave_approval submit_for_review "Review" review Save []
              submit_for_review_reaches_gating eq_refl eq_refl eq_refl)
    as (_ & Hcomments & _).
  - vm_compute. reflexivity.
  - reflexivity.
  - rewrite Hcomments. reflexivity.
Defined.

Lemma noisy_submit_reaches_gating :
  reaches_gating (H := noisy) alice_draft "Submit for Review" PNone
    (site "alice" (database [alice_draft] [])) leave_approval submit_for_review
    (at_gating alice_draft leave_approval (site "alice" (database [alice_draft] []))).
Proof.
  split; [reflexivity |]. split; [| reflexivity].
  exists (at_gating alice_draft leave_approval (site "alice" (database [alice_draft] []))).
  split; vm_compute; reflexivity.
Defined.

Lemma apply_workflow_lifecycle_failure_witness :
  let w := site "alice" (database [alice_draft] []) in
  let run := apply_workflow (H := noisy) alice_draft "Submit for Review"
                            PNone PNone PNone PNone PNone PNone w in
  snd run = inl (Exn ValidationError ["Leave period overlaps"%string])
  /\ comments (db (fst run)) = comments (db w).
Proof.
  cbv zeta.
  destruct (apply_workflow_lifecycle_failure (H := noisy) alice_draft "Submit for Review"
              PNone PNone PNone PNone PNone PNone
              (site "alice" (database [alice_draft] []))
              (at_gating alice_draft leave_approval (site "alice" (database [alice_draft] [])))
              leave_approval submit_for_review "Review" review Save [warning; rejected]
              (Exn ValidationError ["Leave period overlaps"%string])
              noisy_submit_reaches_gating eq_refl eq_refl eq_refl)
    as (Hraise & Hdb & _).
  - vm_compute. reflexivity.
  - reflexivity.
  - by split.
Defined.

Lemma park_reaches_gating :
  reaches_gating (H := quiet) alice_loose "Park" PNone
    (site "alice" loose_database) loose_approval park
    (at_gating alice_loose loose_approval (site "alice" loose_database)).
Proof.
  split; [reflexivity |]. split; [| reflexivity].
  exists (at_gating alice_loose loose_approval (site "alice" loose_database)).
  split; vm_compute; reflexivity.
Defined.

Lemma apply_workflow_unknown_target_witness :
  let run := apply_workflow (H := quiet) alice_loose "Park"
                            PNone PNone PNone PNone PNone PNone
                            (site "alice" loose_database) in
  snd run = inl index_error
  /\ doc (fst run) !! "workflow_state"%string = Some (PStr "Parked").
Proof.
  cbv zeta.
  destruct (apply_workflow_unknown_target (H := quiet) alice_loose "Park"
              PNone PNone PNone PNone PNone PNone
              (site "alice" loose_database)
              (at_gating alice_loose loose_approval (site "alice" loose_database))
              loose_approval park "Parked"
              park_reaches_gating eq_refl eq_refl eq_refl)
    as (Hraise & Hdoc & _).
  by split.
Defined.

Lemma open_actions_partition_witness :
  let w := site "bob" (database [alice_review] review_ledger) in
  exists everybody own others,
    get_open_workflow_action alice_review (PStr "Review") PNone w = (w, inr everybody)
    /\ get_open_workflow_action alice_review (PStr "Review") (PStr "bob") w = (w, inr own)
    /\ other_user_open_action_count alice_review "Review" "bob" w = (w, inr others)
    /\ Z.of_nat (length everybody) = (others + Z.of_nat (length own))%Z.
Proof.
  cbv zeta.
  apply (open_actions_partition alice_review "Review" "bob"); [reflexivity |].
  discriminate.
Defined.

Lemma can_cancel_document_first_cancelled_witness :
  let w := site "bob" (database [alice_draft] []) in
  snd (can_cancel_document (H := quiet) alice_draft w) = inr false
  /\ can_cancel_document (H := quiet) alice_plain w
     = (w, inl (Exn AttributeError ["'NoneType' object has no attribute 'states'"%string])).
Proof.
  cbv zeta. split.
  - destruct (can_cancel_document_first_cancelled (H := quiet) alice_draft
                (site "bob" (database [alice_draft] []))) as [Hfirst _].
    rewrite Hfirst. vm_compute. reflexivity.
  - destruct (can_cancel_document_first_cancelled (H := quiet) alice_plain
                (site "bob" (database [alice_draft] []))) as [_ Hnone].
    apply Hnone. vm_compute. reflexivity.
Defined.

Lemma set_workflow_state_keeps_correct_state_witness :
  let w := site "bob" (database [alice_approved] []) in
  set_workflow_state_on_action (H := quiet) alice_approved (PStr "Leave Approval")
                               "no such action" w
  = (set_doc alice_approved w, inr tt).
Proof.
  cbv zeta.
  apply (set_workflow_state_keeps_correct_state (H := quiet) alice_approved
           (PStr "Leave Approval") "no such action"
           (site "bob" (database [alice_approved] [])) leave_approval);
    vm_compute; reflexivity.
Defined.

Lemma set_workflow_state_by_action_witness :
  let w := site "bob" (database [alice_submitted] []) in
  let run := set_workflow_state_on_action (H := quiet) alice_submitted
                                          (PStr "Leave Approval") "submit" w in
  snd run = inr tt
  /\ doc (fst run) = <["workflow_state" := PStr "Approved"]> alice_submitted.
Proof.
  cbv zeta.
  destruct (set_workflow_state_by_action (H := quiet) alice_submitted
              (PStr "Leave Approval") "submit"
              (site "bob" (database [alice_submitted] [])) leave_approval)
    as [Hsubmit _].
  - vm_compute. reflexivity.
  - vm_compute. reflexivity.
  - destruct (Hsubmit (or_introl eq_refl)) as (Hok & Hdoc & _). by split.
Defined.

Lemma validate_workflow_owner_at_default_witness :
  let w := site "alice" (database [alice_draft] []) in
  validate_workflow (H := quiet) bold alice_approved (Snapshot alice_draft) w
  = (at_gating alice_approved leave_approval w, inr tt).
Proof.
  cbv zeta.
  apply (validate_workflow_owner_at_default (H := quiet) bold alice_approved
           (Snapshot alice_draft) (site "alice" (database [alice_draft] []))
           (at_gating alice_approved leave_approval (site "alice" (database [alice_draft] [])))
           leave_approval draft [review; approved; cancelled]).
  - vm_compute. reflexivity.
  - reflexivity.
  - vm_compute. reflexivity.
  - vm_compute. reflexivity.
  - right. vm_compute. reflexivity.
Defined.

Lemma validate_workflow_defaults_state_witness :
  let w := site "bob" (database [] []) in
  let run := validate_workflow (H := quiet) bold alice_stateless IsNone w in
  snd run = inr tt
  /\ doc (fst run) = <["workflow_state" := PStr "Draft"]> alice_stateless.
Proof.
  cbv zeta.
  destruct (validate_workflow_defaults_state (H := quiet) bold alice_stateless IsNone
              (site "bob" (database [] []))
              (at_gating alice_stateless leave_approval (site "bob" (database [] [])))
              leave_approval draft [review; approved; cancelled])
    as (Hok & Hdoc & _).
  - vm_compute. reflexivity.
  - reflexivity.
  - vm_compute. reflexivity.
  - exact I.
  - by split.
Defined.

Lemma validate_workflow_no_snapshot_witness :
  let w := site "bob" (database [] []) in
  snd (validate_workflow (H := quiet) bold alice_review IsNone w)
  = inl (Exn WorkflowPermissionError
           ["Workflow State transition not allowed from <b>Draft</b> to <b>Review</b>"%string]).
Proof.
  cbv zeta.
  destruct (validate_workflow_no_snapshot (H := quiet) bold alice_review IsNone
              (site "bob" (database [] []))
              (at_gating alice_review leave_approval (site "bob" (database [] [])))
              leave_approval draft [review; approved; cancelled]) as (Hraise & _).
  - vm_compute. reflexivity.
  - reflexivity.
  - vm_compute. reflexivity.
  - vm_compute. discriminate.
  - vm_compute. discriminate.
  - rewrite Hraise. vm_compute. reflexivity.
Defined.

Lemma validate_workflow_follows_transitions_witness :
  let w := site "bob" (database [alice_review] []) in
  snd (validate_workflow (H := quiet) bold alice_approved (Snapshot alice_review) w)
  = inr tt.
Proof.
  cbv zeta.
  rewrite (validate_workflow_follows_transitions (H := quiet) bold alice_approved alice_review
             (site "bob" (database [alice_review] []))
             (at_gating alice_approved leave_approval (site "bob" (database [alice_review] [])))
             (set_cache [(alice_review, leave_approval); (alice_approved, leave_approval)]
                (set_doc alice_approved (site "bob" (database [alice_review] []))))
             leave_approval draft [review; approved; cancelled] [approve; reject]);
    vm_compute; reflexivity.
Defined.

Lemma validate_workflow_unknown_previous_state_witness :
  let w := site "bob" (database [alice_review] []) in
  snd (validate_workflow (H := quiet) bold alice_review (Snapshot alice_bogus) w)
  = inl (Exn ValidationError
           ["<b>Bogus</b> is not a valid Workflow State. Please update your Workflow and try again."%string]).
Proof.
  cbv zeta.
  rewrite (validate_workflow_unknown_previous_state (H := quiet) bold alice_review alice_bogus
             (site "bob" (database [alice_review] []))
             (at_gating alice_review leave_approval (site "bob" (database [alice_review] [])))
             leave_approval draft [review; approved; cancelled]);
    vm_compute; reflexivity.
Defined.

Lemma validate_workflow_accepts_reject_witness :
  let w := site "bob" (database [alice_review] []) in
  validate_workflow (H := quiet) bold alice_rejected (Snapshot alice_review) w
  = (at_gating alice_rejected leave_approval w, inr tt).
Proof.
  cbv zeta.
  apply (validate_workflow_accepts_reject (H := quiet) bold alice_rejected
           (Snapshot alice_review) (site "bob" (database [alice_review] []))
           (at_gating alice_rejected leave_approval (site "bob" (database [alice_review] [])))
           leave_approval draft [review; approved; cancelled]).
  - vm_compute. reflexivity.
  - reflexivity.
  - discriminate.
  - vm_compute. reflexivity.
  - vm_compute. reflexivity.
Defined.

Lemma common_actions_agree_witness :
  let w := site "bob" (database [alice_review] review_ledger) in
  fst (get_common_transition_actions [alice_review] "Leave Application" w) = w.
Proof.
  cbv zeta.
  destruct (common_actions_agree [alice_review] "Leave Application"
              (site "bob" (database [alice_review] review_ledger))
              ("Approve", "T-APPROVE")%string []) as (_ & _ & Hw).
  - vm_compute. reflexivity.
  - exact Hw.
Defined.

Lemma common_actions_round_trip_witness :
  let w := site "bob" (database [alice_review] review_ledger) in
  get_common_transition_actions [alice_review] "Leave Application" w
  = (w, inr (Some [("Approve", "T-APPROVE")%string])).
Proof.
  cbv zeta.
  destruct (common_actions_round_trip [alice_review] "Leave Application"
              (site "bob" (database [alice_review] review_ledger))
              [("Approve", "T-APPROVE")%string] "Approve:T-APPROVE") as [Hback _].
  - vm_compute. discriminate.
  - intros a Hin. vm_compute in Hin. destruct Hin as [<- | []]. reflexivity.
  - apply Hback.
    + discriminate.
    + intros p [<- | []]. by repeat split.
    + reflexivity.
Defined.

End More_examples.
